(** * EasyRec feature engineering: a shallow embedding

    The development follows four source files of the repository:

    - [easy_rec/python/feature_column/feature_column.py]
      ([FeatureColumnParser]: the feature column registry),
    - [easy_rec/python/input/input.py]
      ([Input.__init__], [Input._preprocess], [Input._lookup_preprocess],
      [Input._get_features] and [Input._get_labels]: the input object and
      its per-batch feature preprocessor),
    - [easy_rec/python/utils/input_utils.py]
      ([get_type_defaults] and [string_to_number]), and
    - [easy_rec/python/input/odps_rtp_input.py]
      ([OdpsRTPInput._parse_table]).

    Python dictionaries are finite maps ([gmap]), Python exceptions are the
    [Raise] results of an error monad, and the mutable attributes of [self]
    are threaded as an explicit state.  TensorFlow and the feature-column
    library are outside the repository: tensors are modelled as row-major
    value lists with a shape and a dtype tag, feature columns as the
    symbolic record of the constructor call that built them, and the
    numeric kernels (parsing, casting, float arithmetic) are the operations
    of a type class the whole development is parametric in. *)

From stdpp Require Import base option list strings gmap fin_maps pretty.
From Stdlib Require Import Ascii ZArith QArith Lia.

Open Scope string_scope.
Open Scope list_scope.
Open Scope Z_scope.

(** ** Exceptions and results *)

Inductive exn : Type :=
  | FeatureKeyError (feature_name : string)
  | AssertionError (message : string)
  | IndexError
  | KeyError (key : string)
  | AttributeError
  | TypeError
  | ValueError (message : string)
  | IOError (path : string)
  | InvalidArgumentError (message : string).

Inductive result (A : Type) : Type :=
  | Ok (a : A)
  | Raise (e : exn).
Arguments Ok {A} a.
Arguments Raise {A} e.

#[global] Instance exn_eq_dec : EqDecision exn.
Proof. solve_decision. Defined.

#[global] Instance result_ret : MRet result := @Ok.
#[global] Instance result_bind : MBind result :=
  λ A B f m, match m with Ok a => f a | Raise e => Raise e end.
#[global] Instance result_fmap : FMap result :=
  λ A B f m, match m with Ok a => Ok (f a) | Raise e => Raise e end.

Definition is_Ok {A} (r : result A) : Prop := ∃ a, r = Ok a.
Definition is_Raise {A} (r : result A) : Prop := ∃ e, r = Raise e.

(** [assert cond, message] *)
Definition py_assert (cond : bool) (message : string) : result unit :=
  if cond then Ok () else Raise (AssertionError message).

(** Subscription of a list, [l[i]], for a non-negative [i]. *)
Definition subscript {A} (l : list A) (i : nat) : result A :=
  match l !! i with Some a => Ok a | None => Raise IndexError end.

(** Subscription of a dictionary, [d[k]]. *)
Definition getitem {A} (d : gmap string A) (k : string) : result A :=
  match d !! k with Some a => Ok a | None => Raise (KeyError k) end.

(** Monadic iteration: a [for] loop whose body may raise. *)
Fixpoint for_each {A S} (body : A → S → result S) (l : list A) (s : S)
  : result S :=
  match l with
  | [] => Ok s
  | a :: l' => s' ← body a s; for_each body l' s'
  end.

Fixpoint map_result {A B} (f : A → result B) (l : list A) : result (list B) :=
  match l with
  | [] => Ok []
  | a :: l' => b ← f a; bs ← map_result f l'; Ok (b :: bs)
  end.

(** Truth values of a list and of a string. *)
Definition is_empty {A} (l : list A) : bool :=
  match l with [] => true | _ => false end.
Definition str_nonempty (s : string) : bool :=
  match s with EmptyString => false | _ => true end.

(** ** Numeric kernels

    The floating-point values of a batch and of a configuration are the
    elements of an abstract type; the kernels TensorFlow applies to them are
    the operations of the class.  [None] stands for the kernel's
    invalid-argument failure. *)

Class TFNum (num : Type) : Type := {
  num_sub : num → num → num;
  num_div : num → num → num;
  num_ltb : num → num → bool;
  num_eqb : num → num → bool;
  num_zero : num;
  (** [float(x)], [tf.to_float] and [tf.cast(·, tf.float64)] on an integer *)
  num_of_int : Z → num;
  (** [tf.to_float] on a double *)
  num_to_float32 : num → num;
  (** [tf.cast(·, tf.float64)] on a float32 *)
  num_to_float64 : num → num;
  (** [tf.string_to_number(·, tf.float32)] and [(·, tf.float64)] *)
  string_to_float32 : string → option num;
  string_to_float64 : string → option num;
  (** [tf.string_to_number(·, tf.int32)] and [(·, tf.int64)] *)
  string_to_int32 : string → option Z;
  string_to_int64 : string → option Z;
  (** [tf.as_string(·, precision)] on a float and on an integer *)
  float_as_string : option Z → num → string;
  int_as_string : Z → string;
  bool_as_string : bool → string
}.

(** ** Configuration objects

    The protobuf messages are not part of the sources; the records below
    list the fields the two files read.  An optional field whose presence
    the code tests with [HasField] is an [option]; reading it when unset
    gives the protobuf default, as the accessors after the record do. *)

Inductive FeatureType : Type :=
  | IdFeature | TagFeature | RawFeature | ComboFeature
  | LookupFeature | SequenceFeature | ExprFeature.

Inductive WideOrDeep : Type := DEEP | WIDE | WIDE_AND_DEEP.

#[global] Instance FeatureType_eq_dec : EqDecision FeatureType.
Proof. solve_decision. Defined.
#[global] Instance WideOrDeep_eq_dec : EqDecision WideOrDeep.
Proof. solve_decision. Defined.

Record FeatureConfig {num : Type} : Type := {
  feature_name_field : option string;
  input_names : list string;
  feature_type : FeatureType;
  embedding_name_field : option string;
  embedding_dim : Z;
  hash_bucket_size_field : option Z;
  num_buckets : Z;
  vocab_list : list string;
  vocab_file : string;
  boundaries : list num;
  min_val : num;
  max_val : num;
  raw_input_dim : Z;
  precision : Z;
  sub_feature_type : FeatureType;
  sequence_length : Z;
  seq_multi_sep : option string;
  separator : string;
  kv_separator : option string;
  combiner : string;
  initializer : option string;
  max_partitions : Z;
  sequence_combiner : option string;
  lookup_max_sel_elem_num : Z;
  expression : string
}.
Arguments FeatureConfig num : clear implicits.

Section Accessors.
Context {num : Type}.
Implicit Type config : FeatureConfig num.

(** [config.feature_name], [config.embedding_name], [config.hash_bucket_size] *)
Definition feature_name config : string := default "" (feature_name_field config).
Definition embedding_name config : string := default "" (embedding_name_field config).
Definition hash_bucket_size config : Z := default 0 (hash_bucket_size_field config).

(** [config.feature_name if config.HasField('feature_name') else config.input_names[0]] *)
Definition primary_name config : result string :=
  match feature_name_field config with
  | Some n => Ok n
  | None => subscript (input_names config) 0
  end.
End Accessors.

(** ** Feature columns

    A column is the record of the library call that built it.  The library
    validates its arguments and may refuse them; that validation is the
    predicate [column_ok], a parameter of the registry. *)

Inductive Partitioner : Type :=
  | fixed_size_partitioner (num_shards : Z)
  | min_max_variable_partitioner (max_partitions : Z).

Inductive FeatureColumn {num : Type} : Type :=
  | categorical_column_with_hash_bucket (key : string) (hash_bucket_size : Z)
  | categorical_column_with_vocabulary_list
      (key : string) (default_value : Z) (vocabulary_list : list string)
  | categorical_column_with_vocabulary_file
      (key : string) (default_value : Z) (vocabulary_file : string)
      (vocabulary_size : Z)
  | categorical_column_with_identity
      (key : string) (num_buckets : Z) (default_value : Z)
  | weighted_categorical_column (fc : FeatureColumn) (weight_feature_key : string)
  | numeric_column (key : string) (shape : Z)
  | bucketized_column (fc : FeatureColumn) (bounds : list num)
  | crossed_column (keys : list string) (hash_bucket_size : Z)
  | sequence_categorical_column_with_hash_bucket (key : string) (hash_bucket_size : Z)
  | sequence_categorical_column_with_vocabulary_list
      (key : string) (default_value : Z) (vocabulary_list : list string)
  | sequence_categorical_column_with_vocabulary_file
      (key : string) (default_value : Z) (vocabulary_file : string)
      (vocabulary_size : Z)
  | sequence_categorical_column_with_identity
      (key : string) (num_buckets : Z) (default_value : Z)
  | sequence_weighted_categorical_column
      (fc : FeatureColumn) (weight_feature_key : string)
  | sequence_numeric_column (key : string) (shape : Z)
  | sequence_numeric_column_with_bucketized_column
      (fc : FeatureColumn) (bounds : list num)
  | sequence_numeric_column_with_raw_column (fc : FeatureColumn) (sequence_length : Z)
  | embedding_column
      (fc : FeatureColumn) (dimension : Z) (combiner : string)
      (initializer : option string) (partitioner : option Partitioner)
      (use_embedding_variable : bool).
Arguments FeatureColumn num : clear implicits.

(** [class SharedEmbedding]: the handle kept in a column table until the
    shared columns of its group are built. *)
Record SharedEmbedding : Type := {
  se_embedding_name : string;
  se_index : nat;
  se_sequence_combiner : option string
}.

(** What a column table holds: a column, with the [sequence_combiner]
    attribute the code sets on it, or a [SharedEmbedding] handle. *)
Inductive ColumnEntry {num : Type} : Type :=
  | Column (fc : FeatureColumn num) (sequence_combiner : option string)
  | Handle (h : SharedEmbedding).
Arguments ColumnEntry num : clear implicits.

(** The [embed_info] dictionary of [__init__]. *)
Record EmbedInfo : Type := {
  info_embedding_dim : Z;
  info_combiner : string;
  info_initializer : option string;
  info_max_partitions : Z
}.

#[global] Instance EmbedInfo_eq_dec : EqDecision EmbedInfo.
Proof. solve_decision. Defined.

(** ** The feature column registry: [class FeatureColumnParser] *)

Module Registry.
Section RegistryDefs.
Context {num : Type} `{TFNum num}.

(** The library's validation of a constructor call ([false]: the call
    raises), and the number of lines of a vocabulary file ([None]: the
    file cannot be opened). *)
Variable column_ok : FeatureColumn num → bool.
Variable gfile_line_count : string → option Z.

(** The attributes of [self]. *)
Record FeatureColumnParser : Type := {
  _feature_configs : list (FeatureConfig num);
  _wide_output_dim : Z;
  _wide_deep_dict : gmap string WideOrDeep;
  _deep_columns : gmap string (ColumnEntry num);
  _wide_columns : gmap string (ColumnEntry num);
  _sequence_columns : gmap string (ColumnEntry num);
  _share_embed_names : gmap string Z;
  _share_embed_infos : gmap string EmbedInfo;
  _use_embedding_variable : bool;
  _vocab_size : gmap string Z;
  _deep_share_embed_columns : gmap string (list (FeatureColumn num));
  _wide_share_embed_columns : gmap string (list (FeatureColumn num))
}.

Definition set_deep_columns v (s : FeatureColumnParser) :=
  {| _feature_configs := _feature_configs s; _wide_output_dim := _wide_output_dim s;
     _wide_deep_dict := _wide_deep_dict s; _deep_columns := v;
     _wide_columns := _wide_columns s; _sequence_columns := _sequence_columns s;
     _share_embed_names := _share_embed_names s;
     _share_embed_infos := _share_embed_infos s;
     _use_embedding_variable := _use_embedding_variable s;
     _vocab_size := _vocab_size s;
     _deep_share_embed_columns := _deep_share_embed_columns s;
     _wide_share_embed_columns := _wide_share_embed_columns s |}.
Definition set_wide_columns v (s : FeatureColumnParser) :=
  {| _feature_configs := _feature_configs s; _wide_output_dim := _wide_output_dim s;
     _wide_deep_dict := _wide_deep_dict s; _deep_columns := _deep_columns s;
     _wide_columns := v; _sequence_columns := _sequence_columns s;
     _share_embed_names := _share_embed_names s;
     _share_embed_infos := _share_embed_infos s;
     _use_embedding_variable := _use_embedding_variable s;
     _vocab_size := _vocab_size s;
     _deep_share_embed_columns := _deep_share_embed_columns s;
     _wide_share_embed_columns := _wide_share_embed_columns s |}.
Definition set_sequence_columns v (s : FeatureColumnParser) :=
  {| _feature_configs := _feature_configs s; _wide_output_dim := _wide_output_dim s;
     _wide_deep_dict := _wide_deep_dict s; _deep_columns := _deep_columns s;
     _wide_columns := _wide_columns s; _sequence_columns := v;
     _share_embed_names := _share_embed_names s;
     _share_embed_infos := _share_embed_infos s;
     _use_embedding_variable := _use_embedding_variable s;
     _vocab_size := _vocab_size s;
     _deep_share_embed_columns := _deep_share_embed_columns s;
     _wide_share_embed_columns := _wide_share_embed_columns s |}.
Definition set_share_embed v w (s : FeatureColumnParser) :=
  {| _feature_configs := _feature_configs s; _wide_output_dim := _wide_output_dim s;
     _wide_deep_dict := _wide_deep_dict s; _deep_columns := _deep_columns s;
     _wide_columns := _wide_columns s; _sequence_columns := _sequence_columns s;
     _share_embed_names := v;
     _share_embed_infos := w;
     _use_embedding_variable := _use_embedding_variable s;
     _vocab_size := _vocab_size s;
     _deep_share_embed_columns := _deep_share_embed_columns s;
     _wide_share_embed_columns := _wide_share_embed_columns s |}.
Definition set_vocab_size v (s : FeatureColumnParser) :=
  {| _feature_configs := _feature_configs s; _wide_output_dim := _wide_output_dim s;
     _wide_deep_dict := _wide_deep_dict s; _deep_columns := _deep_columns s;
     _wide_columns := _wide_columns s; _sequence_columns := _sequence_columns s;
     _share_embed_names := _share_embed_names s;
     _share_embed_infos := _share_embed_infos s;
     _use_embedding_variable := _use_embedding_variable s;
     _vocab_size := v;
     _deep_share_embed_columns := _deep_share_embed_columns s;
     _wide_share_embed_columns := _wide_share_embed_columns s |}.
Definition set_deep_share_embed_columns v (s : FeatureColumnParser) :=
  {| _feature_configs := _feature_configs s; _wide_output_dim := _wide_output_dim s;
     _wide_deep_dict := _wide_deep_dict s; _deep_columns := _deep_columns s;
     _wide_columns := _wide_columns s; _sequence_columns := _sequence_columns s;
     _share_embed_names := _share_embed_names s;
     _share_embed_infos := _share_embed_infos s;
     _use_embedding_variable := _use_embedding_variable s;
     _vocab_size := _vocab_size s;
     _deep_share_embed_columns := v;
     _wide_share_embed_columns := _wide_share_embed_columns s |}.
Definition set_wide_share_embed_columns v (s : FeatureColumnParser) :=
  {| _feature_configs := _feature_configs s; _wide_output_dim := _wide_output_dim s;
     _wide_deep_dict := _wide_deep_dict s; _deep_columns := _deep_columns s;
     _wide_columns := _wide_columns s; _sequence_columns := _sequence_columns s;
     _share_embed_names := _share_embed_names s;
     _share_embed_infos := _share_embed_infos s;
     _use_embedding_variable := _use_embedding_variable s;
     _vocab_size := _vocab_size s;
     _deep_share_embed_columns := _deep_share_embed_columns s;
     _wide_share_embed_columns := v |}.

(** A method of the parser: it reads and updates [self] and returns or
    raises.  The state survives a raised exception, as the attributes of
    a Python object do. *)
Definition Method (A : Type) : Type :=
  FeatureColumnParser → result A * FeatureColumnParser.

#[global] Instance method_ret : MRet Method := λ A a self, (Ok a, self).
#[global] Instance method_bind : MBind Method := λ A B f m self,
  match m self with
  | (Ok a, self') => f a self'
  | (Raise e, self') => (Raise e, self')
  end.

Definition raise {A} (e : exn) : Method A := λ self, (Raise e, self).
Definition lift {A} (r : result A) : Method A := λ self, (r, self).
Definition get_self : Method FeatureColumnParser := λ self, (Ok self, self).
Definition update (f : FeatureColumnParser → FeatureColumnParser)
  : Method unit := λ self, (Ok (), f self).

(** [if cond: body] *)
Definition when (cond : bool) (body : Method unit) : Method unit :=
  if cond then body else mret ().

(** A library constructor call. *)
Definition build (fc : FeatureColumn num) : Method (FeatureColumn num) :=
  if column_ok fc then mret fc
  else raise (ValueError "invalid feature column arguments").

(** *** [is_wide], [is_deep], [_get_vocab_size], [_build_partitioner] *)

Definition is_wide (config : FeatureConfig num) : Method bool :=
  feature_name ← lift (primary_name config);
  self ← get_self;
  match _wide_deep_dict self !! feature_name with
  | None => raise (FeatureKeyError feature_name)
  | Some v => mret (bool_decide (v ∈ [WIDE; WIDE_AND_DEEP]))
  end.

Definition is_deep (config : FeatureConfig num) : Method bool :=
  feature_name ← lift (primary_name config);
  self ← get_self;
  match _wide_deep_dict self !! feature_name with
  | None => raise (FeatureKeyError feature_name)
  | Some v => mret (bool_decide (v ∈ [DEEP; WIDE_AND_DEEP]))
  end.

Definition _get_vocab_size (vocab_path : string) : Method Z :=
  self ← get_self;
  match _vocab_size self !! vocab_path with
  | Some n => mret n
  | None =>
      match gfile_line_count vocab_path with
      | None => raise (IOError vocab_path)
      | Some vocabulary_size =>
          update (set_vocab_size (<[vocab_path := vocabulary_size]> (_vocab_size self)));;
          mret vocabulary_size
      end
  end.

Definition _build_partitioner (max_partitions : Z) : Method (option Partitioner) :=
  self ← get_self;
  mret (if bool_decide (max_partitions > 1) then
          if _use_embedding_variable self
          then Some (fixed_size_partitioner max_partitions)
          else Some (min_max_variable_partitioner max_partitions)
        else None).

(** *** Shared embeddings *)

Definition _add_shared_embedding_column
    (embedding_name : string) (fc : FeatureColumn num) (deep : bool)
  : Method (ColumnEntry num) :=
  self ← get_self;
  deep_fcs ← lift (getitem (_deep_share_embed_columns self) embedding_name);
  let curr_id := length deep_fcs in
  (if deep then
     update (set_deep_share_embed_columns
               (<[embedding_name := deep_fcs ++ [fc]]> (_deep_share_embed_columns self)))
   else
     wide_fcs ← lift (getitem (_wide_share_embed_columns self) embedding_name);
     update (set_wide_share_embed_columns
               (<[embedding_name := wide_fcs ++ [fc]]> (_wide_share_embed_columns self))));;
  mret (Handle {| se_embedding_name := embedding_name; se_index := curr_id;
                  se_sequence_combiner := None |}).

Definition _get_shared_embedding_column (fc_handle : SharedEmbedding) (deep : bool)
  : Method (ColumnEntry num) :=
  self ← get_self;
  let embed_name := se_embedding_name fc_handle in
  let embed_id := se_index fc_handle in
  fcs ← lift (getitem (if deep then _deep_share_embed_columns self
                       else _wide_share_embed_columns self) embed_name);
  tmp ← lift (subscript fcs embed_id);
  mret (Column tmp (se_sequence_combiner fc_handle)).

Definition _add_wide_embedding_column
    (fc : FeatureColumn num) (config : FeatureConfig num) : Method unit :=
  feature_name ← lift (primary_name config);
  self ← get_self;
  lift (py_assert (bool_decide (_wide_output_dim self > 0)) "wide_output_dim is not set");;
  wide_fc ←
    (if bool_decide (is_Some (_wide_share_embed_columns self !! embedding_name config))
     then _add_shared_embedding_column (embedding_name config) fc false
     else
       partitioner ← _build_partitioner (max_partitions config);
       e ← build (embedding_column fc (_wide_output_dim self) "sum"
                    (initializer config) partitioner (_use_embedding_variable self));
       mret (Column e None));
  self ← get_self;
  update (set_wide_columns (<[feature_name := wide_fc]> (_wide_columns self))).

Definition set_sequence_combiner (sc : string) (fc : ColumnEntry num)
  : ColumnEntry num :=
  match fc with
  | Column c _ => Column c (Some sc)
  | Handle h => Handle {| se_embedding_name := se_embedding_name h;
                          se_index := se_index h;
                          se_sequence_combiner := Some sc |}
  end.

Definition _add_deep_embedding_column
    (fc : FeatureColumn num) (config : FeatureConfig num) : Method unit :=
  feature_name ← lift (primary_name config);
  lift (py_assert (bool_decide (embedding_dim config > 0))
          ("embedding_dim is not set for " +:+ feature_name));;
  self ← get_self;
  fc ←
    (if bool_decide (is_Some (_deep_share_embed_columns self !! embedding_name config))
     then _add_shared_embedding_column (embedding_name config) fc true
     else
       partitioner ← _build_partitioner (max_partitions config);
       e ← build (embedding_column fc (embedding_dim config) (combiner config)
                    (initializer config) partitioner (_use_embedding_variable self));
       mret (Column e None));
  self ← get_self;
  if bool_decide (feature_type config ≠ SequenceFeature) then
    update (set_deep_columns (<[feature_name := fc]> (_deep_columns self)))
  else
    let fc := match sequence_combiner config with
              | Some sc => set_sequence_combiner sc fc
              | None => fc
              end in
    update (set_sequence_columns (<[feature_name := fc]> (_sequence_columns self))).

(** *** Bucket boundaries *)

(** [bounds.sort()] *)
Fixpoint insert_sorted (x : num) (l : list num) : list num :=
  match l with
  | [] => [x]
  | y :: l' => if num_ltb x y then x :: l else y :: insert_sorted x l'
  end.
Definition sort_bounds (l : list num) : list num :=
  foldl (λ acc x, insert_sorted x acc) [] l.

(** [[x / float(num_buckets) for x in range(0, num_buckets)]] *)
Definition equal_width_bounds (num_buckets : Z) : list num :=
  (λ x, num_div (num_of_int x) (num_of_int num_buckets))
    <$> seqZ 0 num_buckets.

(** *** [parse_id_feature]

    The first statement of the method, the choice of the categorical
    column, is [id_categorical_column]. *)

Definition id_categorical_column (config : FeatureConfig num)
  : Method (FeatureColumn num) :=
  let hash_bucket_size := hash_bucket_size config in
  if bool_decide (hash_bucket_size > 0) then
    input_0 ← lift (subscript (input_names config) 0);
    build (categorical_column_with_hash_bucket input_0 hash_bucket_size)
  else if negb (is_empty (vocab_list config)) then
    input_0 ← lift (subscript (input_names config) 0);
    build (categorical_column_with_vocabulary_list input_0 0 (vocab_list config))
  else if str_nonempty (vocab_file config) then
    input_0 ← lift (subscript (input_names config) 0);
    vocabulary_size ← _get_vocab_size (vocab_file config);
    build (categorical_column_with_vocabulary_file
             input_0 0 (vocab_file config) vocabulary_size)
  else
    input_0 ← lift (subscript (input_names config) 0);
    build (categorical_column_with_identity input_0 (num_buckets config) 0).

Definition parse_id_feature (config : FeatureConfig num) : Method unit :=
  fc ← id_categorical_column config;
  w ← is_wide config;
  when w (_add_wide_embedding_column fc config);;
  d ← is_deep config;
  when d (_add_deep_embedding_column fc config).

(** *** [parse_tag_feature] *)

Definition parse_tag_feature (config : FeatureConfig num) : Method unit :=
  let hash_bucket_size := hash_bucket_size config in
  tag_fc ←
    (if bool_decide (is_Some (hash_bucket_size_field config)) then
       input_0 ← lift (subscript (input_names config) 0);
       build (categorical_column_with_hash_bucket input_0 hash_bucket_size)
     else if negb (is_empty (vocab_list config)) then
       input_0 ← lift (subscript (input_names config) 0);
       build (categorical_column_with_vocabulary_list input_0 0 (vocab_list config))
     else if str_nonempty (vocab_file config) then
       input_0 ← lift (subscript (input_names config) 0);
       vocabulary_size ← _get_vocab_size (vocab_file config);
       build (categorical_column_with_vocabulary_file
                input_0 0 (vocab_file config) vocabulary_size)
     else
       input_0 ← lift (subscript (input_names config) 0);
       build (categorical_column_with_identity input_0 (num_buckets config) 0));
  tag_fc ←
    (if bool_decide (1 < length (input_names config))%nat then
       input_1 ← lift (subscript (input_names config) 1);
       build (weighted_categorical_column tag_fc input_1)
     else if bool_decide (is_Some (kv_separator config)) then
       input_0 ← lift (subscript (input_names config) 0);
       build (weighted_categorical_column tag_fc (input_0 +:+ "_WEIGHT"))
     else mret tag_fc);
  w ← is_wide config;
  when w (_add_wide_embedding_column tag_fc config);;
  d ← is_deep config;
  when d (_add_deep_embedding_column tag_fc config).

(** *** [parse_raw_feature] *)

Definition parse_raw_feature (config : FeatureConfig num) : Method unit :=
  feature_name ← lift (primary_name config);
  input_0 ← lift (subscript (input_names config) 0);
  fc ← build (numeric_column input_0 (raw_input_dim config));
  let bounds : list num :=
    if negb (is_empty (boundaries config)) then sort_bounds (boundaries config)
    else if bool_decide (num_buckets config > 1)
            && num_ltb (min_val config) (max_val config)
    then equal_width_bounds (num_buckets config)
    else [] in
  if negb (is_empty bounds) then
    fc ← build (bucketized_column fc bounds);
    w ← is_wide config;
    when w (_add_wide_embedding_column fc config);;
    d ← is_deep config;
    when d (_add_deep_embedding_column fc config)
  else
    tmp_id_col ← build (categorical_column_with_identity
                          (input_0 +:+ "_raw_proj_id") (raw_input_dim config) 0);
    wgt_fc ← build (weighted_categorical_column
                      tmp_id_col (input_0 +:+ "_raw_proj_val"));
    w ← is_wide config;
    when w (_add_wide_embedding_column wgt_fc config);;
    d ← is_deep config;
    when d
      (if bool_decide (embedding_dim config > 0) then
         _add_deep_embedding_column wgt_fc config
       else
         self ← get_self;
         update (set_deep_columns
                   (<[feature_name := Column fc None]> (_deep_columns self)))).

(** *** [parse_expr_feature], [parse_combo_feature], [parse_lookup_feature] *)

Definition parse_expr_feature (config : FeatureConfig num) : Method unit :=
  feature_name ← lift (primary_name config);
  fc ← build (numeric_column feature_name 1);
  w ← is_wide config;
  when w (_add_wide_embedding_column fc config);;
  d ← is_deep config;
  when d
    (self ← get_self;
     update (set_deep_columns
               (<[feature_name := Column fc None]> (_deep_columns self)))).

Definition parse_combo_feature (config : FeatureConfig num) : Method unit :=
  lift (py_assert (bool_decide (2 ≤ length (input_names config))%nat) "");;
  fc ← build (crossed_column (input_names config) (hash_bucket_size config));
  w ← is_wide config;
  when w (_add_wide_embedding_column fc config);;
  d ← is_deep config;
  when d (_add_deep_embedding_column fc config).

Definition parse_lookup_feature (config : FeatureConfig num) : Method unit :=
  feature_name ← lift (primary_name config);
  lift (py_assert (bool_decide (is_Some (hash_bucket_size_field config))) "");;
  let hash_bucket_size := hash_bucket_size config in
  fc ← build (categorical_column_with_hash_bucket feature_name hash_bucket_size);
  w ← is_wide config;
  when w (_add_wide_embedding_column fc config);;
  d ← is_deep config;
  when d (_add_deep_embedding_column fc config).

(** *** [parse_sequence_feature] *)

Definition parse_sequence_feature (config : FeatureConfig num) : Method unit :=
  feature_name ← lift (primary_name config);
  let sub_feature_type := sub_feature_type config in
  lift (py_assert (bool_decide (sub_feature_type ∈ [IdFeature; RawFeature]))
          "Current sub_feature_type only support IdFeature and RawFeature.");;
  fc ←
    (if bool_decide (sub_feature_type = IdFeature) then
       if bool_decide (is_Some (hash_bucket_size_field config)) then
         input_0 ← lift (subscript (input_names config) 0);
         build (sequence_categorical_column_with_hash_bucket
                  input_0 (hash_bucket_size config))
       else if negb (is_empty (vocab_list config)) then
         input_0 ← lift (subscript (input_names config) 0);
         build (sequence_categorical_column_with_vocabulary_list
                  input_0 0 (vocab_list config))
       else if str_nonempty (vocab_file config) then
         input_0 ← lift (subscript (input_names config) 0);
         vocabulary_size ← _get_vocab_size (vocab_file config);
         build (sequence_categorical_column_with_vocabulary_file
                  input_0 0 (vocab_file config) vocabulary_size)
       else
         input_0 ← lift (subscript (input_names config) 0);
         build (sequence_categorical_column_with_identity
                  input_0 (num_buckets config) 0)
     else
       input_0 ← lift (subscript (input_names config) 0);
       fc ← build (sequence_numeric_column input_0 1);
       bounds ←
         (if bool_decide (hash_bucket_size config > 0) then
            lift (py_assert (bool_decide (sub_feature_type = IdFeature))
              "You should set sub_feature_type to IdFeature to use hash_bucket_size.");;
            mret []
          else if negb (is_empty (boundaries config)) then
            mret (sort_bounds (boundaries config))
          else if bool_decide (num_buckets config > 1)
                  && num_ltb (min_val config) (max_val config)
          then mret (equal_width_bounds (num_buckets config))
          else mret []);
       if negb (is_empty bounds) then
         build (sequence_numeric_column_with_bucketized_column fc bounds)
       else if bool_decide (hash_bucket_size config ≤ 0) then
         if bool_decide (embedding_dim config > 0) then
           tmp_id_col ← build (sequence_categorical_column_with_identity
                                 (input_0 +:+ "_raw_proj_id") (raw_input_dim config) 0);
           build (sequence_weighted_categorical_column
                    tmp_id_col (input_0 +:+ "_raw_proj_val"))
         else
           build (sequence_numeric_column_with_raw_column fc (sequence_length config))
       else mret fc);
  if bool_decide (embedding_dim config > 0) then
    _add_deep_embedding_column fc config
  else
    self ← get_self;
    update (set_sequence_columns
              (<[feature_name := Column fc None]> (_sequence_columns self))).

(** *** [__init__] *)

Definition embed_info_of (config : FeatureConfig num) : EmbedInfo :=
  {| info_embedding_dim := embedding_dim config;
     info_combiner := combiner config;
     info_initializer := initializer config;
     info_max_partitions := max_partitions config |}.

(** One iteration of the loop of lines 68-89. *)
Definition share_embed_step (config : FeatureConfig num) : Method unit :=
  match embedding_name_field config with
  | None => mret ()
  | Some embed_name =>
      let embed_info := embed_info_of config in
      self ← get_self;
      match _share_embed_names self !! embed_name with
      | Some n =>
          known ← lift (getitem (_share_embed_infos self) embed_name);
          lift (py_assert (bool_decide (embed_info = known))
                  ("shared embed info of [" +:+ embed_name +:+ "] is not matched"));;
          update (set_share_embed (<[embed_name := n + 1]> (_share_embed_names self))
                    (_share_embed_infos self))
      | None =>
          update (set_share_embed (<[embed_name := 1]> (_share_embed_names self))
                    (<[embed_name := embed_info]> (_share_embed_infos self)))
      end
  end.

Fixpoint for_each_m {A} (body : A → Method unit) (l : list A) : Method unit :=
  match l with
  | [] => mret ()
  | a :: l' => body a;; for_each_m body l'
  end.

(** Lines 91-97: the names used once are not shared. *)
Definition remove_not_shared : Method unit :=
  self ← get_self;
  let not_shared :=
    filter (λ x, _share_embed_names self !! x = Some 1)
      (map_to_list (_share_embed_names self)).*1 in
  update (set_share_embed
            (foldr delete (_share_embed_names self) not_shared)
            (foldr delete (_share_embed_infos self) not_shared)).

(** Lines 68-97. *)
Definition init_share_embed (feature_configs : list (FeatureConfig num))
  : Method unit :=
  for_each_m share_embed_step feature_configs;;
  remove_not_shared.

(** Lines 104-109: one empty list per shared name, on each side. *)
Definition init_share_embed_columns : Method unit :=
  self ← get_self;
  update (set_deep_share_embed_columns ((λ _, []) <$> _share_embed_names self));;
  update (set_wide_share_embed_columns ((λ _, []) <$> _share_embed_names self)).

(** The dispatch on the feature type (the body of the [try]). *)
Definition parse_feature (config : FeatureConfig num) : Method unit :=
  match feature_type config with
  | IdFeature => parse_id_feature config
  | TagFeature => parse_tag_feature config
  | RawFeature => parse_raw_feature config
  | ComboFeature => parse_combo_feature config
  | LookupFeature => parse_lookup_feature config
  | SequenceFeature => parse_sequence_feature config
  | ExprFeature => parse_expr_feature config
  end.

(** [try: body except FeatureKeyError: pass] *)
Definition try_except_FeatureKeyError (body : Method unit) : Method unit :=
  λ self,
    match body self with
    | (Raise (FeatureKeyError _), self') => (Ok (), self')
    | r => r
    end.

(** Lines 111-131. *)
Definition parse_features (feature_configs : list (FeatureConfig num))
  : Method unit :=
  for_each_m (λ config, try_except_FeatureKeyError (parse_feature config))
    feature_configs.

(** The library call that turns the categorical columns of a group into
    embedding columns over one table. *)
Variable shared_embedding_columns :
  list (FeatureColumn num) → Z → option string → string → string →
  option Partitioner → bool → result (list (FeatureColumn num)).

(** Lines 133-161.  The groups are independent of each other; they are
    visited in the order of the map. *)
Definition build_shared_embedding (embed_name : string) : Method unit :=
  self ← get_self;
  info ← lift (getitem (_share_embed_infos self) embed_name);
  let initializer := info_initializer info in
  partitioner ← _build_partitioner (info_max_partitions info);
  deep_fcs ← lift (getitem (_deep_share_embed_columns self) embed_name);
  share_embed_fcs ← lift (shared_embedding_columns deep_fcs
    (info_embedding_dim info) initializer embed_name (info_combiner info)
    partitioner (_use_embedding_variable self));
  update (set_deep_share_embed_columns
            (<[embed_name := share_embed_fcs]> (_deep_share_embed_columns self)));;
  wide_fcs ← lift (getitem (_wide_share_embed_columns self) embed_name);
  if bool_decide (length wide_fcs = 0%nat) then mret ()
  else
    share_embed_fcs ← lift (shared_embedding_columns wide_fcs
      (_wide_output_dim self) initializer (embed_name +:+ "_wide") "sum"
      partitioner (_use_embedding_variable self));
    self ← get_self;
    update (set_wide_share_embed_columns
              (<[embed_name := share_embed_fcs]> (_wide_share_embed_columns self))).

(** Lines 163-177: the handles are replaced by the columns they name. *)
Definition resolve_entry (deep : bool) (fc : ColumnEntry num)
  : Method (ColumnEntry num) :=
  match fc with
  | Handle h => _get_shared_embedding_column h deep
  | Column _ _ => mret fc
  end.

Definition resolve_deep_columns : Method unit :=
  self ← get_self;
  for_each_m (λ '(fc_name, fc),
      r ← resolve_entry true fc;
      self ← get_self;
      update (set_deep_columns (<[fc_name := r]> (_deep_columns self))))
    (map_to_list (_deep_columns self)).

Definition resolve_wide_columns : Method unit :=
  self ← get_self;
  for_each_m (λ '(fc_name, fc),
      r ← resolve_entry false fc;
      self ← get_self;
      update (set_wide_columns (<[fc_name := r]> (_wide_columns self))))
    (map_to_list (_wide_columns self)).

Definition resolve_sequence_columns : Method unit :=
  self ← get_self;
  for_each_m (λ '(fc_name, fc),
      r ← resolve_entry true fc;
      self ← get_self;
      update (set_sequence_columns (<[fc_name := r]> (_sequence_columns self))))
    (map_to_list (_sequence_columns self)).

(** The object before the first loop of [__init__] (lines 55-66). *)
Definition new_parser (feature_configs : list (FeatureConfig num))
    (wide_deep_dict : gmap string WideOrDeep) (wide_output_dim : Z)
    (use_embedding_variable : bool) : FeatureColumnParser :=
  {| _feature_configs := feature_configs;
     _wide_output_dim := wide_output_dim;
     _wide_deep_dict := wide_deep_dict;
     _deep_columns := ∅; _wide_columns := ∅; _sequence_columns := ∅;
     _share_embed_names := ∅; _share_embed_infos := ∅;
     _use_embedding_variable := use_embedding_variable;
     _vocab_size := ∅;
     _deep_share_embed_columns := ∅; _wide_share_embed_columns := ∅ |}.

Definition init_body : Method unit :=
  self ← get_self;
  init_share_embed (_feature_configs self);;
  init_share_embed_columns;;
  parse_features (_feature_configs self);;
  self ← get_self;
  for_each_m build_shared_embedding (map_to_list (_share_embed_names self)).*1;;
  resolve_deep_columns;;
  resolve_wide_columns;;
  resolve_sequence_columns.

(** [FeatureColumnParser(feature_configs, wide_deep_dict, wide_output_dim,
    use_embedding_variable)]: the constructed object, or the exception. *)
Definition __init__ (feature_configs : list (FeatureConfig num))
    (wide_deep_dict : gmap string WideOrDeep) (wide_output_dim : Z)
    (use_embedding_variable : bool) : result FeatureColumnParser :=
  match init_body (new_parser feature_configs wide_deep_dict wide_output_dim
                     use_embedding_variable) with
  | (Ok _, self) => Ok self
  | (Raise e, _) => Raise e
  end.

End RegistryDefs.
End Registry.

(** ** Tensors

    A dense tensor is its shape and its values in row-major order; a sparse
    tensor is the triple of [tf.SparseTensor].  The values carry their
    dtype.  The static shape the code inspects with [get_shape] is taken to
    be the shape of the value. *)

Inductive DType : Type :=
  | tf_int32 | tf_int64 | tf_string | tf_bool | tf_float32 | tf_double.

#[global] Instance DType_eq_dec : EqDecision DType.
Proof. solve_decision. Defined.

Inductive Values {num : Type} : Type :=
  | VInt32 (l : list Z)
  | VInt64 (l : list Z)
  | VString (l : list string)
  | VBool (l : list bool)
  | VFloat32 (l : list num)
  | VDouble (l : list num).
Arguments Values num : clear implicits.

Record DenseTensor {num : Type} : Type := {
  shape : list Z;
  data : Values num
}.
Arguments DenseTensor num : clear implicits.

Record SparseTensor {num : Type} : Type := {
  indices : list (list Z);
  values : Values num;
  dense_shape : list Z
}.
Arguments SparseTensor num : clear implicits.

Inductive Tensor {num : Type} : Type :=
  | Dense (t : DenseTensor num)
  | Sparse (t : SparseTensor num).
Arguments Tensor num : clear implicits.

Section TensorOps.
Context {num : Type} `{TFNum num}.

Definition dtype_of (v : Values num) : DType :=
  match v with
  | VInt32 _ => tf_int32 | VInt64 _ => tf_int64 | VString _ => tf_string
  | VBool _ => tf_bool | VFloat32 _ => tf_float32 | VDouble _ => tf_double
  end.

Definition num_values (v : Values num) : nat :=
  match v with
  | VInt32 l | VInt64 l => length l
  | VString l => length l
  | VBool l => length l
  | VFloat32 l | VDouble l => length l
  end.

Definition tensor_dtype (t : Tensor num) : DType :=
  match t with Dense d => dtype_of (data d) | Sparse s => dtype_of (values s) end.

(** [len(t.get_shape())] *)
Definition rank (t : Tensor num) : nat :=
  match t with Dense d => length (shape d) | Sparse s => length (dense_shape s) end.

Definition as_dense (t : Tensor num) : result (DenseTensor num) :=
  match t with Dense d => Ok d | Sparse _ => Raise TypeError end.

(** [t.indices], [t.values], [t.dense_shape]: attributes of a sparse tensor only. *)
Definition as_sparse (t : Tensor num) : result (SparseTensor num) :=
  match t with Sparse s => Ok s | Dense _ => Raise AttributeError end.

(** The strings of a string tensor; another dtype is refused by the
    string kernels. *)
Definition strings_of (v : Values num) : result (list string) :=
  match v with VString l => Ok l | _ => Raise TypeError end.

(** *** String splitting *)

Definition is_delim (delimiter : string) (c : ascii) : bool :=
  bool_decide (c ∈ String.list_ascii_of_string delimiter).

(** The pieces of [s] between delimiter characters, empty ones included. *)
Fixpoint pieces (delimiter : string) (s : string) : list string :=
  match s with
  | EmptyString => [EmptyString]
  | String c s' =>
      if is_delim delimiter c then EmptyString :: pieces delimiter s'
      else match pieces delimiter s' with
           | t :: ts => String c t :: ts
           | [] => [String c EmptyString]
           end
  end.

(** The tokens the [StringSplit] kernel finds in one element: none in an
    empty element, the single characters for an empty delimiter, and
    otherwise the pieces between characters of the delimiter set. *)
Definition split_element (delimiter : string) (skip_empty : bool) (s : string)
  : list string :=
  if negb (str_nonempty s) then []
  else if negb (str_nonempty delimiter) then
    (λ c, String c EmptyString) <$> String.list_ascii_of_string s
  else if skip_empty then filter (λ t, t ≠ EmptyString) (pieces delimiter s)
  else pieces delimiter s.

(** The indices [[i, 0], [i, 1], ...] of the rows of a ragged list. *)
Definition ragged_indices {A} (rows : list (list A)) : list (list Z) :=
  mjoin (imap (λ i row, (λ j, [Z.of_nat i; Z.of_nat j]) <$> seq 0 (length row)) rows).

Definition max_row_length {A} (rows : list (list A)) : Z :=
  foldr (λ row m, Z.max (Z.of_nat (length row)) m) 0 rows.

Definition ragged_to_sparse (rows : list (list string)) : SparseTensor num :=
  {| indices := ragged_indices rows;
     values := VString (mjoin rows);
     dense_shape := [Z.of_nat (length rows); max_row_length rows] |}.

(** [tf.string_split(source, delimiter, skip_empty)], on a vector of strings. *)
Definition string_split (source : DenseTensor num) (delimiter : string)
    (skip_empty : bool) : result (SparseTensor num) :=
  strs ← strings_of (data source);
  if bool_decide (length (shape source) = 1%nat) then
    Ok (ragged_to_sparse (split_element delimiter skip_empty <$> strs))
  else Raise (InvalidArgumentError "input must be a vector").

(** *** Numeric parsing and casting *)

Definition parse_all {A} (f : string → option A) (l : list string)
  : result (list A) :=
  map_result (λ s, match f s with
                   | Some a => Ok a
                   | None => Raise (InvalidArgumentError "StringToNumberOp could not convert string")
                   end) l.

(** [tf.string_to_number(v, out_type)] *)
Definition string_to_number (v : Values num) (out_type : DType)
  : result (Values num) :=
  strs ← strings_of v;
  match out_type with
  | tf_float32 => VFloat32 <$> parse_all string_to_float32 strs
  | tf_double => VDouble <$> parse_all string_to_float64 strs
  | tf_int32 => VInt32 <$> parse_all string_to_int32 strs
  | tf_int64 => VInt64 <$> parse_all string_to_int64 strs
  | _ => Raise TypeError
  end.

(** [tf.to_float(v)] *)
Definition to_float (v : Values num) : result (Values num) :=
  match v with
  | VInt32 l | VInt64 l => Ok (VFloat32 (num_of_int <$> l))
  | VFloat32 l => Ok (VFloat32 l)
  | VDouble l => Ok (VFloat32 (num_to_float32 <$> l))
  | VBool l => Ok (VFloat32 ((λ b : bool, num_of_int (if b then 1 else 0)) <$> l))
  | VString _ => Raise TypeError
  end.

(** [tf.cast(v, tf.float64)] *)
Definition cast_float64 (v : Values num) : result (Values num) :=
  match v with
  | VInt32 l | VInt64 l => Ok (VDouble (num_of_int <$> l))
  | VFloat32 l => Ok (VDouble (num_to_float64 <$> l))
  | VDouble l => Ok (VDouble l)
  | VBool l => Ok (VDouble ((λ b : bool, num_of_int (if b then 1 else 0)) <$> l))
  | VString _ => Raise TypeError
  end.

(** [(v - min_val) / (max_val - min_val)], on floating values. *)
Definition normalize (min_val max_val : num) (v : Values num)
  : result (Values num) :=
  let f x := num_div (num_sub x min_val) (num_sub max_val min_val) in
  match v with
  | VFloat32 l => Ok (VFloat32 (f <$> l))
  | VDouble l => Ok (VDouble (f <$> l))
  | _ => Raise TypeError
  end.

(** [tf.as_string(v, precision)] *)
Definition as_string (v : Values num) (precision : option Z) : Values num :=
  match v with
  | VInt32 l | VInt64 l => VString (int_as_string <$> l)
  | VFloat32 l | VDouble l => VString (float_as_string precision <$> l)
  | VBool l => VString (bool_as_string <$> l)
  | VString l => VString l
  end.

(** *** Reshaping *)

(** [tf.reshape(v, [-1, k])] of a vector [v]. *)
Definition reshape_rows (k : Z) (v : Values num) : result (DenseTensor num) :=
  let n := Z.of_nat (num_values v) in
  if bool_decide (0 < k ∧ n `mod` k = 0) then
    Ok {| shape := [n `div` k; k]; data := v |}
  else Raise (InvalidArgumentError "Input to reshape has the wrong number of values").

(** The two columns [kvs[:, 0]] and [kvs[:, 1]] of [tf.reshape(l, [-1, 2])]. *)
Fixpoint pairs {A} (l : list A) : list (A * A) :=
  match l with
  | a :: b :: l' => (a, b) :: pairs l'
  | _ => []
  end.

Definition reshape_pairs (l : list string) : result (list (string * string)) :=
  if bool_decide (Z.of_nat (length l) `mod` 2 = 0) then Ok (pairs l)
  else Raise (InvalidArgumentError "Input to reshape has the wrong number of values").

(** *** Scattering: [tf.sparse_to_dense] *)

Definition shape_size (shape : list Z) : Z := foldr Z.mul 1 shape.

(** The row-major position of an index in a shape; [None] out of bounds. *)
Fixpoint flat_index (shape idx : list Z) : option Z :=
  match shape, idx with
  | [], [] => Some 0
  | d :: shape', i :: idx' =>
      if bool_decide (0 ≤ i < d) then
        r ← flat_index shape' idx'; Some (i * shape_size shape' + r)
      else None
  | _, _ => None
  end.

Fixpoint strictly_increasing (l : list Z) : bool :=
  match l with
  | a :: (b :: _) as l' => bool_decide (a < b) && strictly_increasing l'
  | _ => true
  end.

Definition scatter {A} (idx : list (list Z)) (output_shape : list Z)
    (vals : list A) (default_value : A) : result (list A) :=
  match mapM (flat_index output_shape) idx with
  | None => Raise (InvalidArgumentError "indices out of bounds")
  | Some pos =>
      if negb (strictly_increasing pos) then
        Raise (InvalidArgumentError "indices are out of order or repeated")
      else if negb (bool_decide (length pos = length vals)) then
        Raise (InvalidArgumentError "sparse_values has incorrect shape")
      else
        Ok (foldr (λ '(p, v) acc, <[Z.to_nat p := v]> acc)
              (replicate (Z.to_nat (shape_size output_shape)) default_value)
              (zip pos vals))
  end.

Definition sparse_to_dense (idx : list (list Z)) (output_shape : list Z)
    (v : Values num) : result (DenseTensor num) :=
  d ← match v with
      | VInt32 l => VInt32 <$> scatter idx output_shape l 0
      | VInt64 l => VInt64 <$> scatter idx output_shape l 0
      | VFloat32 l => VFloat32 <$> scatter idx output_shape l num_zero
      | VDouble l => VDouble <$> scatter idx output_shape l num_zero
      | VBool l => VBool <$> scatter idx output_shape l false
      | VString l => VString <$> scatter idx output_shape l EmptyString
      end;
  Ok {| shape := output_shape; data := d |}.

(** *** Index grids

    [tile_rows n d] is [tf.reshape(tf.tile(tf.range(n)[:, None], [1, d]), [-1])]
    and [tile_cols n d] is [tf.reshape(tf.tile(tf.range(d)[None, :], [n, 1]), [-1])]. *)
Definition tile_rows (n d : Z) : list Z :=
  mjoin ((λ i, replicate (Z.to_nat d) i) <$> seqZ 0 n).
Definition tile_cols (n d : Z) : list Z :=
  mjoin (replicate (Z.to_nat n) (seqZ 0 d)).

(** [tf.concat([a[:, None], b[:, None]], axis=1)] *)
Definition concat_columns (a b : list Z) : list (list Z) :=
  zip_with (λ x y, [x; y]) a b.
End TensorOps.

(** ** The feature preprocessor: [class Input] *)

Module Preprocess.
Section PreprocessDefs.
Context {num : Type} `{TFNum num}.

Inductive ModeKeys : Type := TRAIN | EVAL | PREDICT.

#[global] Instance ModeKeys_eq_dec : EqDecision ModeKeys.
Proof. solve_decision. Defined.

(** [self._sampler] with the part of the data configuration that selects
    it; [sampler_get] is the sampler's [get] method. *)
Record Sampler : Type := {
  sampler_type : string;
  item_id_field : string;
  user_id_field : string;
  sampler_get : list (DenseTensor num) → result (list (string * DenseTensor num))
}.

(** The attributes of [self] that [_preprocess] reads. *)
Record Input : Type := {
  sample_weight_field : option string;
  _sampler : option Sampler;
  _feature_configs : list (FeatureConfig num);
  _label_fields : list string;
  _label_sep : list string;
  _label_dim : list Z;
  _mode : option ModeKeys
}.

(** [self._data_config.sample_weight] *)
Definition sample_weight (self : Input) : string :=
  default "" (sample_weight_field self).

(** [constant.SAMPLE_WEIGHT], and the evaluation of the expression of an
    Expression feature over the parsed fields
    ([eval(get_expression(expression, input_names, prefix))]). *)
Variable SAMPLE_WEIGHT : string.
Variable eval_expression :
  string → list string → string → gmap string (Tensor num) → result (Tensor num).

(** The dictionaries [_preprocess] works on, and [self._appended_fields]. *)
Record Env : Type := {
  field_dict : gmap string (DenseTensor num);
  parsed_dict : gmap string (Tensor num);
  _appended_fields : list string
}.

Definition set_parsed (k : string) (t : Tensor num) (env : Env) : Env :=
  {| field_dict := field_dict env;
     parsed_dict := <[k := t]> (parsed_dict env);
     _appended_fields := _appended_fields env |}.

Definition set_field (k : string) (t : DenseTensor num) (env : Env) : Env :=
  {| field_dict := <[k := t]> (field_dict env);
     parsed_dict := parsed_dict env;
     _appended_fields := _appended_fields env |}.

Definition append_field (k : string) (env : Env) : Env :=
  {| field_dict := field_dict env;
     parsed_dict := parsed_dict env;
     _appended_fields := _appended_fields env ++ [k] |}.

(** [fc.kv_separator] *)
Definition kv_separator_value (fc : FeatureConfig num) : string :=
  default "" (kv_separator fc).

(** [tf.expand_dims(field, axis=0)] and [tf.squeeze(field, axis=-1)] *)
Definition expand_dims_0 (t : DenseTensor num) : DenseTensor num :=
  {| shape := 1 :: shape t; data := data t |}.
Definition squeeze_last (t : DenseTensor num) : result (DenseTensor num) :=
  match reverse (shape t) with
  | 1 :: rest => Ok {| shape := reverse rest; data := data t |}
  | _ => Raise (InvalidArgumentError "Can not squeeze dim")
  end.

Definition last_dim_is_1 (t : DenseTensor num) : bool :=
  bool_decide (last (shape t) = Some 1).

(** A vector of values as a tensor. *)
Definition vector (v : Values num) : DenseTensor num :=
  {| shape := [Z.of_nat (num_values v)]; data := v |}.

(** *** Tag features (lines 294-349) *)

(** Lines 305-319: the keys and weights of a tag field with a
    [kv_separator]. *)
Definition tag_kv_split (kv_sep : string) (input_0 : string)
    (sp : SparseTensor num) (env : Env) : result Env :=
  let indices := indices sp in
  tmp_kvs ← string_split (vector (values sp)) kv_sep false;
  strs ← strings_of (values tmp_kvs);
  kvs ← reshape_pairs strs;
  let tmp_ks := kvs.*1 in
  let tmp_vs := kvs.*2 in
  tmp_vs ← string_to_number (VString tmp_vs) tf_float32;
  let env := set_parsed input_0
    (Sparse {| indices := indices; values := VString tmp_ks;
               dense_shape := dense_shape sp |}) env in
  let input_wgt := input_0 +:+ "_WEIGHT" in
  let env := set_parsed input_wgt
    (Sparse {| indices := indices; values := tmp_vs;
               dense_shape := dense_shape sp |}) env in
  Ok (append_field input_wgt env).

Definition preprocess_tag (fc : FeatureConfig num) (env : Env) : result Env :=
  input_0 ← subscript (input_names fc) 0;
  field ← getitem (field_dict env) input_0;
  if bool_decide (length (shape field) < 2)%nat || last_dim_is_1 field then
    field ← (if bool_decide (length (shape field) = 0%nat) then Ok (expand_dims_0 field)
             else if bool_decide (length (shape field) = 2%nat) then squeeze_last field
             else Ok field);
    sp ← string_split field (separator fc) true;
    let env := set_parsed input_0 (Sparse sp) env in
    env ← match kv_separator fc with
          | Some kv_sep => tag_kv_split kv_sep input_0 sp env
          | None => Ok env
          end;
    env ← (if bool_decide (is_Some (hash_bucket_size_field fc)) then Ok env
           else
             cur ← getitem (parsed_dict env) input_0;
             cur ← as_sparse cur;
             vals ← string_to_number (values cur) tf_int32;
             Ok (set_parsed input_0
                   (Sparse {| indices := indices cur; values := vals;
                              dense_shape := dense_shape cur |}) env));
    if bool_decide (1 < length (input_names fc))%nat then
      input_1 ← subscript (input_names fc) 1;
      field ← getitem (field_dict env) input_1;
      let field := if bool_decide (length (shape field) = 0%nat)
                   then expand_dims_0 field else field in
      field ← string_split field (separator fc) true;
      field_vals ← string_to_number (values field) tf_float32;
      cur ← getitem (parsed_dict env) input_0;
      cur ← as_sparse cur;
      if bool_decide (num_values field_vals = num_values (values cur)) then
        Ok (set_parsed input_1
              (Sparse {| indices := indices field; values := field_vals;
                         dense_shape := dense_shape field |}) env)
      else Raise (InvalidArgumentError ("tag_feature_kv_size_not_eq_" +:+ input_0))
    else Ok env
  else
    let env := set_parsed input_0 (Dense field) env in
    if bool_decide (1 < length (input_names fc))%nat then
      input_1 ← subscript (input_names fc) 1;
      field_1 ← getitem (field_dict env) input_1;
      Ok (set_parsed input_1 (Dense field_1) env)
    else Ok env.

(** *** Lookup features: [_lookup_preprocess] (lines 601-663) *)

(** The part of the inner function [_lookup] before [if not pad]: the
    values of the entries of [one_map] whose key is [one_key]. *)
Definition lookup_select (fc : FeatureConfig num) (one_key : string)
    (one_map : DenseTensor num) : result (list string) :=
  let one_map := if bool_decide (length (shape one_map) = 0%nat)
                 then expand_dims_0 one_map else one_map in
  kv_map ← string_split one_map (separator fc) true;
  kvs ← string_split (vector (values kv_map)) (kv_separator_value fc) true;
  strs ← strings_of (values kvs);
  kvs ← reshape_pairs strs;
  let sel_vals := (filter (λ kv, kv.1 = one_key) kvs).*2 in
  Ok sel_vals.

(** [tf.pad(sel_vals, [[0, after]])] *)
Definition pad_after (sel_vals : list string) (after : Z) : result (list string) :=
  if bool_decide (0 ≤ after) then Ok (sel_vals ++ replicate (Z.to_nat after) EmptyString)
  else Raise (InvalidArgumentError "Paddings must be non-negative").

(** [_lookup(args, pad=True)]: the padded values, the mask and the indices. *)
Definition _lookup (fc : FeatureConfig num) (one_key : string)
    (one_map : DenseTensor num) : result (list string * list bool * list Z) :=
  let max_sel_num := lookup_max_sel_elem_num fc in
  sel_vals ← lookup_select fc one_key one_map;
  let n := Z.of_nat (length sel_vals) in
  sel_vals ← pad_after sel_vals (max_sel_num - n);
  let len_msk := (λ i, bool_decide (i < n)) <$> seqZ 0 max_sel_num in
  let indices := (λ i, i * (if bool_decide (i < n) then 1 else 0)) <$> seqZ 0 max_sel_num in
  Ok (sel_vals, len_msk, indices).

(** [tf.boolean_mask(rows, masks)] *)
Definition boolean_mask {A} (rows : list (list A)) (masks : list (list bool))
  : list A :=
  mjoin (zip_with (λ row msk, (filter (λ vm, vm.2 = true) (zip row msk)).*1) rows masks).

(** [tf.reduce_max] of a vector of [int64]; the minimum of the type when
    the vector is empty. *)
Definition reduce_max (l : list Z) : Z := foldr Z.max (- 2 ^ 63) l.

(** A scalar string as a tensor. *)
Definition scalar_string (s : string) : DenseTensor num :=
  {| shape := []; data := VString [s] |}.

Definition _lookup_preprocess (fc : FeatureConfig num)
    (field_dict : gmap string (DenseTensor num)) : result (Tensor num) :=
  let max_sel_num := lookup_max_sel_elem_num fc in
  key_field ← subscript (input_names fc) 0;
  map_field ← subscript (input_names fc) 1;
  key_fields ← getitem field_dict key_field;
  map_fields ← getitem field_dict map_field;
  keys ← strings_of (data key_fields);
  if bool_decide (length (shape key_fields) = 0%nat) then
    one_key ← subscript keys 0;
    vals ← lookup_select fc one_key map_fields;
    let n := Z.of_nat (length vals) in
    let indices_0 := replicate (Z.to_nat n) 0 in
    let indices_1 := seqZ 0 n in
    Ok (Sparse {| indices := concat_columns indices_0 indices_1;
                  values := VString vals;
                  dense_shape := [1; n] |})
  else
    maps ← strings_of (data map_fields);
    if bool_decide (length (shape key_fields) = 1%nat
                    ∧ length (shape map_fields) = 1%nat
                    ∧ length keys = length maps) then
      rows ← map_result (λ km, _lookup fc km.1 (scalar_string km.2)) (zip keys maps);
      let vals := rows.*1.*1 in
      let masks := rows.*1.*2 in
      let indices := rows.*2 in
      let batch_size := Z.of_nat (length vals) in
      let vals := boolean_mask vals masks in
      let indices_1 := boolean_mask indices masks in
      let indices_0 :=
        boolean_mask ((λ i, replicate (Z.to_nat max_sel_num) i) <$> seqZ 0 batch_size)
          masks in
      Ok (Sparse {| indices := concat_columns indices_0 indices_1;
                    values := VString vals;
                    dense_shape := [batch_size; reduce_max indices_1 + 1] |})
    else Raise (InvalidArgumentError "map_fn: elements do not match")
  .

Definition preprocess_lookup (fc : FeatureConfig num) (env : Env) : result Env :=
  let feature_name := feature_name fc in
  py_assert (str_nonempty feature_name) "";;
  py_assert (bool_decide (length (input_names fc) = 2%nat)) "";;
  t ← _lookup_preprocess fc (field_dict env);
  Ok (set_parsed feature_name t env).

(** *** Raw features (lines 473-525) *)

(** Lines 475-499: the numeric value of the field, normalised when
    [max_val > min_val]. *)
Definition raw_parse (fc : FeatureConfig num) (field : DenseTensor num)
  : result (DenseTensor num) :=
  parsed ←
    (if bool_decide (dtype_of (data field) = tf_string) then
       if bool_decide (raw_input_dim fc > 1) then
         tmp_fea ← string_split field (separator fc) true;
         tmp_vals ← string_to_number (values tmp_fea) tf_float32;
         n ← subscript (shape field) 0;
         sparse_to_dense (indices tmp_fea) [n; raw_input_dim fc] tmp_vals
       else
         v ← string_to_number (data field) tf_float32;
         Ok {| shape := shape field; data := v |}
     else if bool_decide (dtype_of (data field) ∈ [tf_int32; tf_int64; tf_double; tf_float32])
     then
       v ← to_float (data field);
       Ok {| shape := shape field; data := v |}
     else Raise (AssertionError "invalid dtype for raw feature"));
  if num_ltb (min_val fc) (max_val fc) then
    v ← normalize (min_val fc) (max_val fc) (data parsed);
    Ok {| shape := shape parsed; data := v |}
  else Ok parsed.

(** Lines 505-525: the projection of the parsed field on ids and values. *)
Definition raw_project (fc : FeatureConfig num) (input_0 : string)
    (parsed : DenseTensor num) (env : Env) : result Env :=
  sample_num ← subscript (shape parsed) 0;
  let indices_0 := tile_rows sample_num (raw_input_dim fc) in
  let indices_1 := tile_cols sample_num (raw_input_dim fc) in
  let indices := concat_columns indices_0 indices_1 in
  let env := set_parsed (input_0 +:+ "_raw_proj_id")
    (Sparse {| indices := indices; values := VInt64 indices_1;
               dense_shape := [sample_num; raw_input_dim fc] |}) env in
  let env := set_parsed (input_0 +:+ "_raw_proj_val")
    (Sparse {| indices := indices; values := data parsed;
               dense_shape := [sample_num; raw_input_dim fc] |}) env in
  Ok (append_field (input_0 +:+ "_raw_proj_val")
        (append_field (input_0 +:+ "_raw_proj_id") env)).

Definition preprocess_raw (self : Input) (fc : FeatureConfig num) (env : Env)
  : result Env :=
  input_0 ← subscript (input_names fc) 0;
  field ← getitem (field_dict env) input_0;
  parsed ← raw_parse fc field;
  let env := set_parsed input_0 (Dense parsed) env in
  if is_empty (boundaries fc) && bool_decide (num_buckets fc ≤ 1)
     && bool_decide (sample_weight self ≠ input_0) then
    raw_project fc input_0 parsed env
  else Ok env.

(** *** Id features (lines 526-551) *)

Definition is_floating (d : DType) : bool :=
  bool_decide (d ∈ [tf_float32; tf_double]).

Definition preprocess_id (fc : FeatureConfig num) (env : Env) : result Env :=
  input_0 ← subscript (input_names fc) 0;
  field ← getitem (field_dict env) input_0;
  let env := set_parsed input_0 (Dense field) env in
  if bool_decide (is_Some (hash_bucket_size_field fc)) then
    if bool_decide (dtype_of (data field) ≠ tf_string) then
      (if is_floating (dtype_of (data field)) then
         py_assert (bool_decide (precision fc > 0))
           "it is dangerous to convert float or double to string due to precision problem"
       else Ok ());;
      let precision :=
        if is_floating (dtype_of (data field)) && bool_decide (precision fc > 0)
        then Some (precision fc) else None in
      Ok (set_parsed input_0
            (Dense {| shape := shape field; data := as_string (data field) precision |})
            env)
    else Ok env
  else if bool_decide (num_buckets fc > 0) then
    if bool_decide (dtype_of (data field) = tf_string) then
      v ← string_to_number (data field) tf_int32;
      Ok (set_parsed input_0 (Dense {| shape := shape field; data := v |}) env)
    else Ok env
  else Ok env.

(** *** Sequence features (lines 354-472) *)

(** The white space characters. *)
Definition whitespace : string :=
  String.string_of_list_ascii [ascii_of_nat 32; ascii_of_nat 9; ascii_of_nat 10;
                        ascii_of_nat 11; ascii_of_nat 12; ascii_of_nat 13].

(** The pieces of [s] between the occurrences of the string [sep], found
    from the left; [skip] counts the characters of an occurrence that are
    still to be dropped. *)
Fixpoint pieces_sep (sep : string) (skip : nat) (s : string) : list string :=
  match s with
  | EmptyString => [EmptyString]
  | String c s' =>
      match skip with
      | S k => pieces_sep sep k s'
      | O =>
          if String.prefix sep s then
            EmptyString :: pieces_sep sep (String.length sep - 1) s'
          else match pieces_sep sep 0 s' with
               | t :: ts => String c t :: ts
               | [] => [String c EmptyString]
               end
      end
  end.

(** The tokens of one element for [tf.strings.split]: the fields between
    occurrences of [sep], or the words between white space when [sep] is
    empty. *)
Definition split_element_v2 (sep : string) (s : string) : list string :=
  if negb (str_nonempty sep) then
    filter (λ t, t ≠ EmptyString) (pieces whitespace s)
  else pieces_sep sep 0 s.

(** [tf.strings.split(field, sep)], on a vector of strings. *)
Definition strings_split (source : DenseTensor num) (sep : string)
  : result (SparseTensor num) :=
  strs ← strings_of (data source);
  if bool_decide (length (shape source) = 1%nat) then
    Ok (ragged_to_sparse (split_element_v2 sep <$> strs))
  else Raise (InvalidArgumentError "input must be a vector").

(** [tf.gather(indices, ids)] on the rows of an index matrix. *)
Definition gather_rows (idx : list (list Z)) (ids : list Z)
  : result (list (list Z)) :=
  map_result (λ i, if bool_decide (0 ≤ i) then subscript idx (Z.to_nat i)
                   else Raise (InvalidArgumentError "indices out of range")) ids.

(** Lines 363-374: the second split of a sequence of multi-valued steps. *)
Definition seq_multi_split (parent : SparseTensor num) (multi_sep : string)
  : result (SparseTensor num) :=
  let parent_indices := indices parent in
  multi_vals ← string_split (vector (values parent)) multi_sep true;
  let indices_1 := indices multi_vals in
  gathered ← gather_rows parent_indices ((λ ix, default 0 (head ix)) <$> indices_1);
  let out_indices := zip_with (λ a b, a ++ tail b) gathered indices_1 in
  let out_shape := dense_shape parent ++ tail (dense_shape multi_vals) in
  Ok {| indices := out_indices; values := values multi_vals;
        dense_shape := out_shape |}.

(** Lines 360-398: the value of the field as a sparse tensor of steps. *)
Definition sequence_parse (fc : FeatureConfig num) (field : DenseTensor num)
  : result (Tensor num) :=
  if bool_decide (length (shape field) < 2)%nat then
    sp ← strings_split field (separator fc);
    sp ← match seq_multi_sep fc with
         | Some multi_sep => seq_multi_split sp multi_sep
         | None => Ok sp
         end;
    sp ← (if bool_decide (num_buckets fc > 1) && num_eqb (max_val fc) (min_val fc) then
            v ← string_to_number (values sp) tf_int64;
            Ok {| indices := indices sp; values := v; dense_shape := dense_shape sp |}
          else if bool_decide (sub_feature_type fc = RawFeature) then
            v ← string_to_number (values sp) tf_float32;
            Ok {| indices := indices sp; values := v; dense_shape := dense_shape sp |}
          else Ok sp);
    sp ← (if bool_decide (num_buckets fc > 1) && num_ltb (min_val fc) (max_val fc) then
            v ← normalize (min_val fc) (max_val fc) (values sp);
            Ok {| indices := indices sp; values := v; dense_shape := dense_shape sp |}
          else Ok sp);
    Ok (Sparse sp)
  else Ok (Dense field).

(** Lines 408-431: the projection of a sequence of scalars. *)
Definition sequence_project_2d (fc : FeatureConfig num) (input_0 : string)
    (env : Env) : result Env :=
  cur ← getitem (parsed_dict env) input_0;
  cur ← as_sparse cur;
  n ← subscript (dense_shape cur) 0;
  dense ← sparse_to_dense (indices cur) [n; sequence_length fc] (values cur);
  let env := set_parsed input_0 (Dense dense) env in
  let sample_num := n in
  let indices_0 := tile_rows sample_num (sequence_length fc) in
  let indices_1 := tile_cols sample_num (sequence_length fc) in
  let indices := concat_columns indices_0 indices_1 in
  let env := set_parsed (input_0 +:+ "_raw_proj_id")
    (Sparse {| indices := indices; values := VInt64 indices_1;
               dense_shape := [sample_num; sequence_length fc] |}) env in
  let env := set_parsed (input_0 +:+ "_raw_proj_val")
    (Sparse {| indices := indices; values := data dense;
               dense_shape := [sample_num; sequence_length fc] |}) env in
  Ok (append_field (input_0 +:+ "_raw_proj_val")
        (append_field (input_0 +:+ "_raw_proj_id") env)).

(** Lines 442-472: the projection of a sequence of vectors. *)
Definition sequence_project_3d (fc : FeatureConfig num) (input_0 : string)
    (env : Env) : result Env :=
  cur ← getitem (parsed_dict env) input_0;
  cur ← as_sparse cur;
  n ← subscript (dense_shape cur) 0;
  let L := sequence_length fc in
  let D := raw_input_dim fc in
  dense ← sparse_to_dense (indices cur) [n; L; D] (values cur);
  let env := set_parsed input_0 (Dense dense) env in
  let sample_num := n in
  let indices_0 := mjoin ((λ i, replicate (Z.to_nat (L * D)) i) <$> seqZ 0 sample_num) in
  let indices_1 :=
    mjoin (replicate (Z.to_nat sample_num)
             (mjoin ((λ j, replicate (Z.to_nat D) j) <$> seqZ 0 L))) in
  let indices_2 := mjoin (replicate (Z.to_nat (sample_num * L)) (seqZ 0 D)) in
  let indices :=
    zip_with (λ a bc, a :: bc) indices_0 (concat_columns indices_1 indices_2) in
  let env := set_parsed (input_0 +:+ "_raw_proj_id")
    (Sparse {| indices := indices; values := VInt64 indices_1;
               dense_shape := [sample_num; L; D] |}) env in
  let env := set_parsed (input_0 +:+ "_raw_proj_val")
    (Sparse {| indices := indices; values := data dense;
               dense_shape := [sample_num; L; D] |}) env in
  Ok (append_field (input_0 +:+ "_raw_proj_val")
        (append_field (input_0 +:+ "_raw_proj_id") env)).

(** The condition shared by the two projections (lines 399-400, 432-433). *)
Definition sequence_raw_unbucketed (self : Input) (fc : FeatureConfig num)
    (input_0 : string) : bool :=
  is_empty (boundaries fc) && bool_decide (num_buckets fc ≤ 1)
  && bool_decide (hash_bucket_size fc ≤ 0)
  && bool_decide (sample_weight self ≠ input_0)
  && bool_decide (sub_feature_type fc = RawFeature).

Definition preprocess_sequence (self : Input) (fc : FeatureConfig num) (env : Env)
  : result Env :=
  input_0 ← subscript (input_names fc) 0;
  field ← getitem (field_dict env) input_0;
  parsed ← sequence_parse fc field;
  let env := set_parsed input_0 parsed env in
  if sequence_raw_unbucketed self fc input_0 && bool_decide (raw_input_dim fc = 1) then
    sequence_project_2d fc input_0 env
  else if sequence_raw_unbucketed self fc input_0 && bool_decide (raw_input_dim fc > 1) then
    sequence_project_3d fc input_0 env
  else Ok env.

(** *** Expression features (lines 553-569) and the remaining types *)

Definition expr_input (prefix : string) (input_name : string) (env : Env)
  : result Env :=
  let new_input_name := prefix +:+ input_name in
  field ← getitem (field_dict env) input_name;
  if bool_decide (dtype_of (data field) = tf_string) then
    v ← string_to_number (data field) tf_double;
    Ok (set_parsed new_input_name (Dense {| shape := shape field; data := v |}) env)
  else if bool_decide (dtype_of (data field) ∈ [tf_int32; tf_int64; tf_double; tf_float32])
  then
    v ← cast_float64 (data field);
    Ok (set_parsed new_input_name (Dense {| shape := shape field; data := v |}) env)
  else Raise (AssertionError "invalid input dtype for expr feature").

Definition preprocess_expr (fc : FeatureConfig num) (env : Env) : result Env :=
  let fea_name := feature_name fc in
  let prefix := "expr_" in
  env ← for_each (expr_input prefix) (input_names fc) env;
  t ← eval_expression (expression fc) (input_names fc) prefix (parsed_dict env);
  Ok (append_field fea_name (set_parsed fea_name t env)).

Definition preprocess_other (fc : FeatureConfig num) (env : Env) : result Env :=
  for_each (λ input_name env,
              field ← getitem (field_dict env) input_name;
              Ok (set_parsed input_name (Dense field) env))
    (input_names fc) env.

(** The body of the loop over the feature configurations (lines 290-573). *)
Definition preprocess_feature (self : Input) (fc : FeatureConfig num) (env : Env)
  : result Env :=
  input_0 ← subscript (input_names fc) 0;
  match feature_type fc with
  | TagFeature => preprocess_tag fc env
  | LookupFeature => preprocess_lookup fc env
  | SequenceFeature => preprocess_sequence self fc env
  | RawFeature => preprocess_raw self fc env
  | IdFeature => preprocess_id fc env
  | ExprFeature => preprocess_expr fc env
  | ComboFeature => preprocess_other fc env
  end.

(** *** Labels (lines 575-593) *)

Definition is_numeric (d : DType) : bool :=
  bool_decide (d ∈ [tf_float32; tf_double; tf_int32; tf_int64]).

(** The parsed value of the label at position [input_id]. *)
Definition parse_label (self : Input) (input_id : nat) (field : DenseTensor num)
  : result (DenseTensor num) :=
  if bool_decide (dtype_of (data field) = tf_string) then
    label_dim ← subscript (_label_dim self) input_id;
    parsed ←
      (if bool_decide (label_dim > 1) then
         label_sep ← subscript (_label_sep self) input_id;
         sp ← string_split field label_sep true;
         reshape_rows label_dim (values sp)
       else Ok field);
    v ← string_to_number (data parsed) tf_float32;
    Ok {| shape := shape parsed; data := v |}
  else
    py_assert (is_numeric (dtype_of (data field))) "invalid label dtype";;
    Ok field.

Definition preprocess_label (self : Input) (label : nat * string) (env : Env)
  : result Env :=
  let '(input_id, input_name) := label in
  match field_dict env !! input_name with
  | None => Ok env
  | Some field =>
      parsed ← parse_label self input_id field;
      Ok (set_parsed input_name (Dense parsed) env)
  end.

(** [enumerate(l)] *)
Definition enumerate {A} (l : list A) : list (nat * A) := imap (λ i a, (i, a)) l.

Definition preprocess_labels (self : Input) (env : Env) : result Env :=
  for_each (preprocess_label self) (enumerate (_label_fields self)) env.

(** [__init__], lines 59-62: a label without a dimension has dimension 1. *)
Definition init_label_dim (label_fields : list string) (label_dim : list Z)
  : list Z :=
  label_dim ++ replicate (length label_fields - length label_dim) 1.

(** *** The sampler (lines 268-287) and the sample weight (lines 595-598) *)

Definition same_kind (a b : Values num) : option (Values num) :=
  match a, b with
  | VInt32 x, VInt32 y => Some (VInt32 (x ++ y))
  | VInt64 x, VInt64 y => Some (VInt64 (x ++ y))
  | VString x, VString y => Some (VString (x ++ y))
  | VBool x, VBool y => Some (VBool (x ++ y))
  | VFloat32 x, VFloat32 y => Some (VFloat32 (x ++ y))
  | VDouble x, VDouble y => Some (VDouble (x ++ y))
  | _, _ => None
  end.

(** [tf.concat([a, b], axis=0)] *)
Definition concat_0 (a b : DenseTensor num) : result (DenseTensor num) :=
  match shape a, shape b, same_kind (data a) (data b) with
  | n :: sa, m :: sb, Some v =>
      if bool_decide (sa = sb) then Ok {| shape := (n + m) :: sa; data := v |}
      else Raise (InvalidArgumentError "ConcatOp : Dimensions of inputs should match")
  | _ :: _, _ :: _, None => Raise TypeError
  | _, _, _ => Raise (InvalidArgumentError "Can't concatenate scalars")
  end.

Definition starts_with (prefix s : string) : bool := String.prefix prefix s.

Definition preprocess_sampler (self : Input) (env : Env) : result Env :=
  match _sampler self with
  | None => Ok env
  | Some sampler =>
      item_ids ← getitem (field_dict env) (item_id_field sampler);
      sampled ←
        (if bool_decide (sampler_type sampler = "negative_sampler") then
           sampler_get sampler [item_ids]
         else if bool_decide (sampler_type sampler = "negative_sampler_v2") then
           user_ids ← getitem (field_dict env) (user_id_field sampler);
           sampler_get sampler [user_ids; item_ids]
         else if starts_with "hard_negative_sampler" (sampler_type sampler) then
           user_ids ← getitem (field_dict env) (user_id_field sampler);
           sampler_get sampler [user_ids; item_ids]
         else Raise (ValueError "Unknown sampler"));
      for_each (λ '(k, v) env,
                  match field_dict env !! k with
                  | Some f => c ← concat_0 f v; Ok (set_field k c env)
                  | None => Ok (append_field k (set_parsed k (Dense v) env))
                  end) sampled env
  end.

Definition preprocess_sample_weight (self : Input) (env : Env) : result Env :=
  match sample_weight_field self with
  | Some sw =>
      if bool_decide (_mode self ≠ Some PREDICT) then
        f ← getitem (field_dict env) sw;
        Ok (set_parsed SAMPLE_WEIGHT (Dense f) env)
      else Ok env
  | None => Ok env
  end.

(** *** [_preprocess]

    The result is [parsed_dict] together with [self._appended_fields] as
    the call leaves it. *)
Definition _preprocess (self : Input) (appended_fields : list string)
    (field_dict : gmap string (DenseTensor num)) : result Env :=
  let env := {| field_dict := field_dict; parsed_dict := ∅;
                _appended_fields := appended_fields |} in
  env ← preprocess_sampler self env;
  env ← for_each (preprocess_feature self) (_feature_configs self) env;
  env ← preprocess_labels self env;
  preprocess_sample_weight self env.

End PreprocessDefs.
End Preprocess.

(** ** The input object: [Input.__init__] and the methods around
    [_preprocess] (input.py, lines 26-250)

    [DatasetConfig] lists the fields of the data configuration that these
    methods read.  Three things are outside the sources and are parameters:
    [config_util.auto_expand_names], the sampler that
    [sampler_lib.build] returns, and the order in which Python lists the
    elements of a [set]. *)

Module InputObject.
Import Preprocess.

(** [DatasetConfig.FieldType] *)
Inductive FieldType : Type := INT32 | INT64 | STRING | BOOL | FLOAT | DOUBLE.

#[global] Instance FieldType_eq_dec : EqDecision FieldType.
Proof. solve_decision. Defined.

(** [DatasetConfig.Field] *)
Record Field : Type := {
  input_name : string;
  input_dim : Z;
  input_type : FieldType;
  default_val : string
}.

Record DatasetConfig : Type := {
  auto_expand_input_fields : bool;
  input_fields : list Field;
  label_fields : list string;
  label_sep : list string;
  label_dim : list Z;
  batch_size : Z;
  prefetch_size : Z;
  dc_sample_weight : option string;
  dc_separator : string;
  dc_num_epochs : Z
}.

Definition set_input_fields (v : list Field) (c : DatasetConfig) : DatasetConfig :=
  {| auto_expand_input_fields := auto_expand_input_fields c;
     input_fields := v;
     label_fields := label_fields c; label_sep := label_sep c;
     label_dim := label_dim c; batch_size := batch_size c;
     prefetch_size := prefetch_size c; dc_sample_weight := dc_sample_weight c;
     dc_separator := dc_separator c; dc_num_epochs := dc_num_epochs c |}.

(** [l.index(x)] *)
Definition py_index (l : list string) (x : string) : result nat :=
  match list_find (λ y, y = x) l with
  | Some (i, _) => Ok i
  | None => Raise (ValueError (x +:+ " is not in list"))
  end.

Section InputObjectDefs.
Context {num : Type} `{TFNum num}.

Variable auto_expand_names : string → list string.
Variable build_sampler : DatasetConfig → option (Sampler (num:=num)).
Variable set_to_list : list nat → list nat.

(** The attributes [__init__] sets; [_preprocess_self] holds those that
    [_preprocess] reads. *)
Record InputObject : Type := {
  _data_config : DatasetConfig;
  _input_fields : list string;
  _input_dims : list Z;
  _input_field_types : list FieldType;
  _input_field_defaults : list string;
  _batch_size : Z;
  _prefetch_size : Z;
  _task_index : Z;
  _task_num : Z;
  _input_path : option string;
  _effective_fields : list string;
  _multi_value_types : gmap string DType;
  _effective_fids : list nat;
  _label_fids : list nat;
  _preprocess_self : Input (num:=num)
}.

(** Lines 38-48: every field is replaced by one copy per expanded name. *)
Definition expand_fields (fields : list Field) : list Field :=
  fields ≫= λ field,
    (λ tmp_name, {| input_name := tmp_name; input_dim := input_dim field;
                    input_type := input_type field;
                    default_val := default_val field |})
      <$> auto_expand_names (input_name field).

(** Lines 80-84: the inputs of a feature join the effective fields. *)
Definition add_effective_fields (input_fields : list string)
    (fc : FeatureConfig num) (effective_fields : list string)
  : result (list string) :=
  for_each (λ input_name effective_fields,
      py_assert (bool_decide (input_name ∈ input_fields)) "invalid input_name";;
      Ok (if bool_decide (input_name ∈ effective_fields) then effective_fields
          else effective_fields ++ [input_name]))
    (input_names fc) effective_fields.

(** Lines 86-95: the types of the multi-valued inputs of a feature. *)
Definition add_multi_value_types (fc : FeatureConfig num)
    (multi_value_types : gmap string DType) : result (gmap string DType) :=
  multi_value_types ←
    (if bool_decide (feature_type fc ∈ [TagFeature; SequenceFeature]) then
       input_0 ← subscript (input_names fc) 0;
       let multi_value_types :=
         <[input_0 := if bool_decide (hash_bucket_size fc > 0) then tf_string
                      else tf_int64]> multi_value_types in
       if bool_decide (1 < length (input_names fc))%nat then
         input_1 ← subscript (input_names fc) 1;
         Ok (<[input_1 := tf_float32]> multi_value_types)
       else Ok multi_value_types
     else Ok multi_value_types);
  if bool_decide (feature_type fc = RawFeature) then
    input_0 ← subscript (input_names fc) 0;
    Ok (<[input_0 := tf_float32]> multi_value_types)
  else Ok multi_value_types.

Definition __init__ (data_config : DatasetConfig)
    (feature_configs : list (FeatureConfig num)) (input_path : option string)
    (task_index task_num : Z) : result InputObject :=
  let data_config :=
    if auto_expand_input_fields data_config
    then set_input_fields (expand_fields (input_fields data_config)) data_config
    else data_config in
  let input_fields_ := input_name <$> input_fields data_config in
  let label_fields_ := label_fields data_config in
  let label_dim_ := init_label_dim label_fields_ (label_dim data_config) in
  '(effective_fields, multi_value_types) ←
    for_each (λ fc '(effective_fields, multi_value_types),
        effective_fields ← add_effective_fields input_fields_ fc effective_fields;
        multi_value_types ← add_multi_value_types fc multi_value_types;
        Ok (effective_fields, multi_value_types))
      feature_configs ([], ∅);
  let effective_fields :=
    match dc_sample_weight data_config with
    | Some sample_weight => effective_fields ++ [sample_weight]
    | None => effective_fields
    end in
  effective_fids ← map_result (py_index input_fields_) effective_fields;
  let effective_fids := set_to_list effective_fids in
  effective_fields ← map_result (subscript input_fields_) effective_fids;
  label_fids ← map_result (py_index input_fields_) label_fields_;
  Ok {| _data_config := data_config;
        _input_fields := input_fields_;
        _input_dims := input_dim <$> input_fields data_config;
        _input_field_types := input_type <$> input_fields data_config;
        _input_field_defaults := default_val <$> input_fields data_config;
        _batch_size := batch_size data_config;
        _prefetch_size := prefetch_size data_config;
        _task_index := task_index;
        _task_num := task_num;
        _input_path := input_path;
        _effective_fields := effective_fields;
        _multi_value_types := multi_value_types;
        _effective_fids := effective_fids;
        _label_fids := label_fids;
        _preprocess_self :=
          {| sample_weight_field := dc_sample_weight data_config;
             _sampler := match input_path with
                         | Some _ => build_sampler data_config
                         | None => None
                         end;
             _feature_configs := feature_configs;
             _label_fields := label_fields_;
             _label_sep := label_sep data_config;
             _label_dim := label_dim_;
             _mode := None |} |}.

(** The property [num_epochs]. *)
Definition num_epochs (self : InputObject) : option Z :=
  if bool_decide (dc_num_epochs (_data_config self) > 0)
  then Some (dc_num_epochs (_data_config self)) else None.

Definition get_tf_type (field_type : FieldType) : DType :=
  match field_type with
  | INT32 => tf_int32 | INT64 => tf_int64 | STRING => tf_string
  | BOOL => tf_bool | FLOAT => tf_float32 | DOUBLE => tf_double
  end.

(** [_get_features(fields)]; [appended_fields] is [self._appended_fields]
    and [SAMPLE_WEIGHT] is [constant.SAMPLE_WEIGHT]. *)
Definition _get_features (self : InputObject) (appended_fields : list string)
    (SAMPLE_WEIGHT : string) (fields : gmap string (Tensor num))
  : result (gmap string (Tensor num)) :=
  let field_dict :=
    foldl (λ field_dict x, match fields !! x with
                           | Some t => <[x := t]> field_dict
                           | None => field_dict
                           end) ∅ (_effective_fields self) in
  field_dict ← for_each (λ k field_dict,
                  t ← getitem fields k; Ok (<[k := t]> field_dict))
                 appended_fields field_dict;
  match fields !! SAMPLE_WEIGHT with
  | Some t => Ok (<[SAMPLE_WEIGHT := t]> field_dict)
  | None => Ok field_dict
  end.



End InputObjectDefs.
End InputObject.

(** ** [easy_rec/python/utils/input_utils.py]

    The conversions of Python and NumPy from a string to a number
    ([int], [np.int64], [float], [np.float64]; [None]: the conversion raises
    [ValueError]) and the casts of TensorFlow from a double to an integer are
    parameters. *)

Module InputUtils.
Import InputObject.

(** The values [get_type_defaults] returns. *)
Inductive PyValue {num : Type} : Type :=
  | PyInt (z : Z)
  | PyFloat (x : num)
  | PyStr (s : string)
  | PyBool (b : bool).
Arguments PyValue num : clear implicits.

(** [s.lower()], on the letters of ASCII. *)
Definition lower_ascii (c : ascii) : ascii :=
  let n := nat_of_ascii c in
  if bool_decide (65 ≤ n ≤ 90)%nat then ascii_of_nat (n + 32) else c.
Definition lower (s : string) : string :=
  String.string_of_list_ascii (lower_ascii <$> String.list_ascii_of_string s).

Section InputUtilsDefs.
Context {num : Type} `{TFNum num}.

Variables (py_int np_int64 : string → option Z).
Variables (py_float np_float64 : string → option num).
Variables (double_to_int64 double_to_int32 : num → Z).
Variable py_trunc : num → Z.

Definition type_defaults (field_type : FieldType) : PyValue num :=
  match field_type with
  | INT32 | INT64 => PyInt 0
  | STRING => PyStr ""
  | BOOL => PyBool false
  | FLOAT | DOUBLE => PyFloat num_zero
  end.

(** A conversion applied to what [default_val] holds: the string of the
    configuration, or the default of the type when that string is empty
    ([py_trunc] is [int] on a float). *)
Definition to_int (conv : string → option Z) (default_val : PyValue num)
  : result Z :=
  match default_val with
  | PyInt z => Ok z
  | PyFloat x => Ok (py_trunc x)
  | PyStr s => match conv s with
               | Some z => Ok z
               | None => Raise (ValueError "invalid literal for int()")
               end
  | PyBool b => Ok (if b then 1 else 0)
  end.

Definition to_float_value (conv : string → option num) (default_val : PyValue num)
  : result num :=
  match default_val with
  | PyInt z => Ok (num_of_int z)
  | PyFloat x => Ok x
  | PyStr s => match conv s with
               | Some x => Ok x
               | None => Raise (ValueError "could not convert string to float")
               end
  | PyBool b => Ok (num_of_int (if b then 1 else 0))
  end.

Definition get_type_defaults (field_type : FieldType) (default_val : string)
  : result (PyValue num) :=
  let default_val :=
    if bool_decide (default_val = "") then type_defaults field_type
    else PyStr default_val in
  match field_type with
  | INT32 => PyInt <$> to_int py_int default_val
  | INT64 => PyInt <$> to_int np_int64 default_val
  | STRING => Ok default_val
  | BOOL =>
      match default_val with
      | PyStr s => Ok (PyBool (bool_decide (lower s = "true")))
      | _ => Raise AttributeError
      end
  | FLOAT => PyFloat <$> to_float_value py_float default_val
  | DOUBLE => PyFloat <$> to_float_value np_float64 default_val
  end.

(** [string_to_number(field, ftype, name)], on the values of [field]. *)
Definition string_to_number (field : Values num) (ftype : FieldType)
  : result (Values num) :=
  match ftype with
  | INT32 | INT64 =>
      tmp_field ← string_to_number field tf_double;
      match tmp_field with
      | VDouble l =>
          Ok (if bool_decide (ftype = INT64) then VInt64 (double_to_int64 <$> l)
              else VInt32 (double_to_int32 <$> l))
      | _ => Raise TypeError
      end
  | FLOAT => string_to_number field tf_float32
  | DOUBLE => string_to_number field tf_double
  | BOOL =>
      strs ← strings_of field;
      Ok (VBool ((λ s, bool_decide (s = "True") || bool_decide (s = "true")) <$> strs))
  | STRING => Ok field
  end.

End InputUtilsDefs.
End InputUtils.

(** ** [OdpsRTPInput._parse_table] (odps_rtp_input.py, lines 41-68) *)

Module OdpsRTP.
Import Preprocess InputObject.

(** [tmp_fields[:, i]]: the column [i] of a row-major matrix of [k]
    columns. *)
Definition column {A} (k i : nat) (l : list A) : list A :=
  omap (λ r, l !! (r * k + i)%nat) (seq 0 (length l `div` k)).

Section OdpsRTPDefs.
Context {num : Type} `{TFNum num}.
Variables (double_to_int64 double_to_int32 : num → Z).

(** [fields] are the selected columns of a batch of records: the labels,
    then the column of the features. *)
Definition _parse_table (self : InputObject (num:=num))
    (fields : list (DenseTensor num)) : result (gmap string (DenseTensor num)) :=
  let label_fields := _label_fields (_preprocess_self self) in
  let labels := take (length fields - 1) fields in
  let record_types :=
    (filter (λ xt, xt.1 ∉ label_fields)
       (zip (_input_fields self) (_input_field_types self))).*2 in
  last_field ← match last fields with
               | Some f => Ok f
               | None => Raise IndexError
               end;
  fields ← string_split last_field (dc_separator (_data_config self)) false;
  tmp_fields ← reshape_rows (Z.of_nat (length record_types)) (values fields);
  strs ← strings_of (data tmp_fields);
  fields ← map_result (λ '(i, t),
               field ← InputUtils.string_to_number double_to_int64 double_to_int32
                         (VString (column (length record_types) i strs)) t;
               Ok (vector field))
             (enumerate record_types);
  let field_keys := filter (λ x, x ∉ label_fields) (_input_fields self) in
  effective_fids ← map_result (py_index field_keys) (_effective_fields self);
  inputs ← for_each (λ x inputs,
                key ← subscript field_keys x;
                field ← subscript fields x;
                Ok (<[key := field]> inputs))
             effective_fids ∅;
  for_each (λ x inputs,
      label_field ← subscript label_fields x;
      label ← subscript labels x;
      Ok (<[label_field := label]> inputs))
    (seq 0 (length label_fields)) inputs.

End OdpsRTPDefs.
End OdpsRTP.

(** ** An exact instance of the numeric kernels

    For the examples the numbers are rationals with exact arithmetic;
    parsing reads a decimal numeral with an optional sign and an optional
    fraction, and printing writes a fixed number of decimals. *)

Module Exact.

Definition digit_of (c : ascii) : option Z :=
  let n := Z.of_nat (nat_of_ascii c) in
  if bool_decide (48 ≤ n ≤ 57) then Some (n - 48) else None.

(** The value of a string of decimal digits after the digits [acc]. *)
Fixpoint digits_from (acc : Z) (s : string) : option Z :=
  match s with
  | EmptyString => Some acc
  | String c s' => d ← digit_of c; digits_from (10 * acc + d) s'
  end.

Definition parse_nat (s : string) : option Z :=
  if str_nonempty s then digits_from 0 s else None.

Definition parse_int (s : string) : option Z :=
  match s with
  | String "-" s' => Z.opp <$> parse_nat s'
  | _ => parse_nat s
  end.

Definition parse_unsigned (s : string) : option Q :=
  match pieces "." s with
  | [i] => inject_Z <$> parse_nat i
  | [i; f] =>
      a ← parse_nat i; b ← parse_nat f;
      Some (Qred ((a * 10 ^ Z.of_nat (String.length f) + b)
                    # Z.to_pos (10 ^ Z.of_nat (String.length f))))
  | _ => None
  end.

Definition parse_float (s : string) : option Q :=
  match s with
  | String "-" s' => Qopp <$> parse_unsigned s'
  | _ => parse_unsigned s
  end.

Definition print_int (z : Z) : string := pretty z.

(** [q] with [precision] decimals (six when the precision is unset),
    truncated. *)
Definition print_float (precision : option Z) (q : Q) : string :=
  let p := Z.max 0 (default 6 precision) in
  let scaled := (Z.abs (Qnum q) * 10 ^ p) `div` Z.pos (Qden q) in
  let frac := pretty (scaled `mod` 10 ^ p) in
  (if bool_decide (Qnum q < 0) then "-" else "")
    +:+ pretty (scaled `div` 10 ^ p)
    +:+ (if bool_decide (p = 0) then ""
         else "." +:+ String.concat ""
                        (replicate (Z.to_nat p - String.length frac) "0")
                  +:+ frac).

#[global] Instance exact_num : TFNum Q := {|
  num_sub := Qminus;
  num_div := Qdiv;
  num_ltb := λ x y, negb (Qle_bool y x);
  num_eqb := Qeq_bool;
  num_zero := 0%Q;
  num_of_int := inject_Z;
  num_to_float32 := λ x, x;
  num_to_float64 := λ x, x;
  string_to_float32 := parse_float;
  string_to_float64 := parse_float;
  string_to_int32 := parse_int;
  string_to_int64 := parse_int;
  float_as_string := print_float;
  int_as_string := print_int;
  bool_as_string := λ b : bool, if b then "true" else "false"
|}.

(** A configuration with every field at its protobuf default. *)
Definition default_config (type : FeatureType) (inputs : list string)
  : FeatureConfig Q :=
  {| feature_name_field := None; input_names := inputs; feature_type := type;
     embedding_name_field := None; embedding_dim := 0;
     hash_bucket_size_field := None; num_buckets := 0; vocab_list := [];
     vocab_file := ""; boundaries := []; min_val := 0%Q; max_val := 0%Q;
     raw_input_dim := 1; precision := 0; sub_feature_type := IdFeature;
     sequence_length := 1; seq_multi_sep := None; separator := "|";
     kv_separator := None; combiner := "mean"; initializer := None;
     max_partitions := 1; sequence_combiner := None;
     lookup_max_sel_elem_num := 10; expression := "" |}.

End Exact.

(** * The vocabulary of the statements *)

(** The predicates and functions in which the properties of the registry
    and of the preprocessor are stated. *)

Module RegistrySpec.
Import Registry.
Section RegistrySpecDefs.
Context {num : Type}.
Implicit Types (config c : FeatureConfig num) (self : FeatureColumnParser (num:=num)).

(** Two configurations declare the same embedding name with different
    embedding information. *)
Definition mismatch (configs : list (FeatureConfig num)) : Prop :=
  ∃ c1 c2 n, c1 ∈ configs ∧ c2 ∈ configs
    ∧ embedding_name_field c1 = Some n ∧ embedding_name_field c2 = Some n
    ∧ embed_info_of c1 ≠ embed_info_of c2.

(** All configurations that declare a name agree on its information. *)
Definition consistent (configs : list (FeatureConfig num)) : Prop :=
  ∀ c1 c2 n, c1 ∈ configs → c2 ∈ configs
    → embedding_name_field c1 = Some n → embedding_name_field c2 = Some n
    → embed_info_of c1 = embed_info_of c2.

(** The configurations that declare the name [n]. *)
Definition members (n : string) (configs : list (FeatureConfig num))
  : list (FeatureConfig num) :=
  filter (λ c, embedding_name_field c = Some n) configs.

(** The state of the two dictionaries after the configurations [pre]. *)
Definition counted (pre : list (FeatureConfig num)) self : Prop :=
  ∀ n,
    _share_embed_names self !! n
      = (if decide (members n pre = []) then None
         else Some (Z.of_nat (length (members n pre))))
    ∧ _share_embed_infos self !! n = embed_info_of <$> head (members n pre).

(** The column tables and the groups of a parser. *)
Definition tables self :=
  (_wide_columns self, _deep_columns self, _sequence_columns self,
   _deep_share_embed_columns self, _wide_share_embed_columns self,
   _wide_deep_dict self).

(** [self1] is [self] up to the cache of vocabulary sizes. *)
Definition same_but_vocab self self1 : Prop :=
  self1 = set_vocab_size (_vocab_size self1) self.

(** A method that reads and updates nothing of [self] but the cache of
    vocabulary sizes, whether it returns or raises. *)
Definition vocab_only {A} (m : Method (num:=num) A) : Prop :=
  ∀ self r self1, m self = (r, self1) → same_but_vocab self self1.

(** The non-sequence feature types whose deep column is always an
    embedding. *)
Definition embedded_type (t : FeatureType) : Prop :=
  t ∈ [IdFeature; TagFeature; ComboFeature; LookupFeature].

End RegistrySpecDefs.

Section ParseMethods.
Context {num : Type} `{TFNum num}.
Variable column_ok : FeatureColumn num → bool.
Variable gfile_line_count : string → option Z.
Implicit Types (config : FeatureConfig num).

(** The two tests that end the parse methods: the column goes to the wide
    side when the feature is wide, and [deep_action] runs when it is deep. *)
Definition wide_deep_tail config (fc : FeatureColumn num)
    (deep_action : Method (num:=num) unit) : Method (num:=num) unit :=
  w ← is_wide config;
  when w (_add_wide_embedding_column column_ok fc config);;
  d ← is_deep config;
  when d deep_action.

(** The statements with which the parse method of [config] begins, up to
    its test on the wide/deep map (for a Sequence feature: up to its test
    on [embedding_dim]): they build the column of the feature, the one the
    rest of the method registers. *)
Definition own_column config : Method (num:=num) (FeatureColumn num) :=
  match feature_type config with
  | IdFeature => id_categorical_column column_ok gfile_line_count config
  | TagFeature =>
      tag_fc ←
        (if bool_decide (is_Some (hash_bucket_size_field config)) then
           input_0 ← lift (subscript (input_names config) 0);
           build column_ok
             (categorical_column_with_hash_bucket input_0 (hash_bucket_size config))
         else if negb (is_empty (vocab_list config)) then
           input_0 ← lift (subscript (input_names config) 0);
           build column_ok
             (categorical_column_with_vocabulary_list input_0 0 (vocab_list config))
         else if str_nonempty (vocab_file config) then
           input_0 ← lift (subscript (input_names config) 0);
           vocabulary_size ← _get_vocab_size gfile_line_count (vocab_file config);
           build column_ok
             (categorical_column_with_vocabulary_file
                input_0 0 (vocab_file config) vocabulary_size)
         else
           input_0 ← lift (subscript (input_names config) 0);
           build column_ok
             (categorical_column_with_identity input_0 (num_buckets config) 0));
      if bool_decide (1 < length (input_names config))%nat then
        input_1 ← lift (subscript (input_names config) 1);
        build column_ok (weighted_categorical_column tag_fc input_1)
      else if bool_decide (is_Some (kv_separator config)) then
        input_0 ← lift (subscript (input_names config) 0);
        build column_ok (weighted_categorical_column tag_fc (input_0 +:+ "_WEIGHT"))
      else mret tag_fc
  | RawFeature =>
      feature_name ← lift (primary_name config);
      input_0 ← lift (subscript (input_names config) 0);
      fc ← build column_ok (numeric_column input_0 (raw_input_dim config));
      let bounds : list num :=
        if negb (is_empty (boundaries config)) then sort_bounds (boundaries config)
        else if bool_decide (num_buckets config > 1)
                && num_ltb (min_val config) (max_val config)
        then equal_width_bounds (num_buckets config)
        else [] in
      if negb (is_empty bounds) then build column_ok (bucketized_column fc bounds)
      else
        tmp_id_col ← build column_ok
                       (categorical_column_with_identity
                          (input_0 +:+ "_raw_proj_id") (raw_input_dim config) 0);
        build column_ok
          (weighted_categorical_column tmp_id_col (input_0 +:+ "_raw_proj_val"))
  | ComboFeature =>
      lift (py_assert (bool_decide (2 ≤ length (input_names config))%nat) "");;
      build column_ok (crossed_column (input_names config) (hash_bucket_size config))
  | LookupFeature =>
      feature_name ← lift (primary_name config);
      lift (py_assert (bool_decide (is_Some (hash_bucket_size_field config))) "");;
      build column_ok
        (categorical_column_with_hash_bucket feature_name (hash_bucket_size config))
  | ExprFeature =>
      feature_name ← lift (primary_name config);
      build column_ok (numeric_column feature_name 1)
  | SequenceFeature =>
      feature_name ← lift (primary_name config);
      let sub_feature_type := sub_feature_type config in
      lift (py_assert (bool_decide (sub_feature_type ∈ [IdFeature; RawFeature]))
              "Current sub_feature_type only support IdFeature and RawFeature.");;
      if bool_decide (sub_feature_type = IdFeature) then
        if bool_decide (is_Some (hash_bucket_size_field config)) then
          input_0 ← lift (subscript (input_names config) 0);
          build column_ok
            (sequence_categorical_column_with_hash_bucket
               input_0 (hash_bucket_size config))
        else if negb (is_empty (vocab_list config)) then
          input_0 ← lift (subscript (input_names config) 0);
          build column_ok
            (sequence_categorical_column_with_vocabulary_list
               input_0 0 (vocab_list config))
        else if str_nonempty (vocab_file config) then
          input_0 ← lift (subscript (input_names config) 0);
          vocabulary_size ← _get_vocab_size gfile_line_count (vocab_file config);
          build column_ok
            (sequence_categorical_column_with_vocabulary_file
               input_0 0 (vocab_file config) vocabulary_size)
        else
          input_0 ← lift (subscript (input_names config) 0);
          build column_ok
            (sequence_categorical_column_with_identity
               input_0 (num_buckets config) 0)
      else
        input_0 ← lift (subscript (input_names config) 0);
        fc ← build column_ok (sequence_numeric_column input_0 1);
        bounds ←
          (if bool_decide (hash_bucket_size config > 0) then
             lift (py_assert (bool_decide (sub_feature_type = IdFeature))
               "You should set sub_feature_type to IdFeature to use hash_bucket_size.");;
             mret []
           else if negb (is_empty (boundaries config)) then
             mret (sort_bounds (boundaries config))
           else if bool_decide (num_buckets config > 1)
                   && num_ltb (min_val config) (max_val config)
           then mret (equal_width_bounds (num_buckets config))
           else mret []);
        if negb (is_empty bounds) then
          build column_ok (sequence_numeric_column_with_bucketized_column fc bounds)
        else if bool_decide (hash_bucket_size config ≤ 0) then
          if bool_decide (embedding_dim config > 0) then
            tmp_id_col ← build column_ok
                           (sequence_categorical_column_with_identity
                              (input_0 +:+ "_raw_proj_id") (raw_input_dim config) 0);
            build column_ok
              (sequence_weighted_categorical_column
                 tmp_id_col (input_0 +:+ "_raw_proj_val"))
          else
            build column_ok
              (sequence_numeric_column_with_raw_column fc (sequence_length config))
        else mret fc
  end.

(** A method that never raises the unconfigured-feature condition. *)
Definition never_unconfigured {A} (m : Method (num:=num) A) : Prop :=
  ∀ self r self', m self = (r, self') → ∀ n, r ≠ Raise (FeatureKeyError n).

End ParseMethods.
End RegistrySpec.

Module PreprocessSpec.
Import Preprocess.
Section PreprocessSpecDefs.
Context {num : Type}.
Implicit Types (fc : FeatureConfig num).

(** The tokens of a field and the parts of its tokens. *)
Definition tag_tokens fc (strs : list string) : list string :=
  mjoin (split_element (separator fc) true <$> strs).


(** The indices of the tokens of [rows], the rows being numbered from [k]. *)
Definition ragged_indices_from {A} (k : nat) (rows : list (list A))
  : list (list Z) :=
  mjoin (imap (λ i row, (λ j, [Z.of_nat (k + i); Z.of_nat j]) <$> seq 0 (length row))
           rows).

(** The entries of a serialized map, and the values selected by a key. *)
Definition map_entries fc (one_map : string) : list (string * string) :=
  pairs (mjoin (split_element (kv_separator_value fc) true
                  <$> split_element (separator fc) true one_map)).

Definition selected fc (one_key one_map : string) : list string :=
  (filter (λ kv, kv.1 = one_key) (map_entries fc one_map)).*2.

(** Every token of the map has a key and a value. *)
Definition well_formed_map fc (one_map : string) : Prop :=
  Forall (λ tok, length (split_element (kv_separator_value fc) true tok) = 2%nat)
    (split_element (separator fc) true one_map).

(** The row that [_lookup] returns for the selection [sel]. *)
Definition padded_row (max_sel_num : Z) (sel : list string)
  : list string * list bool * list Z :=
  let after := Z.to_nat (max_sel_num - Z.of_nat (length sel)) in
  (sel ++ replicate after EmptyString,
   replicate (length sel) true ++ replicate after false,
   seqZ 0 (Z.of_nat (length sel)) ++ replicate after 0).

End PreprocessSpecDefs.
End PreprocessSpec.

Module RegistryVocabulary.
Import Registry.
Section RegistryVocabularyDefs.
Context {num : Type}.
Implicit Types (config : FeatureConfig num).

(** The bucket boundaries [parse_raw_feature] computes: the sorted
    [boundaries], or the equal-width bounds of a normalised feature, or
    none. *)
Definition raw_bounds `{TFNum num} config : list num :=
  if negb (is_empty (boundaries config)) then sort_bounds (boundaries config)
  else if bool_decide (num_buckets config > 1)
          && num_ltb (min_val config) (max_val config)
  then equal_width_bounds (num_buckets config)
  else [].

End RegistryVocabularyDefs.
End RegistryVocabulary.

Module PreprocessVocabulary.
Import Preprocess.
Section PreprocessVocabularyDefs.
Context {num : Type}.
Implicit Types (env : Env (num:=num)).

(** From [env] to [env']: the batch has the same fields, no parsed field
    is lost, and the fields appended meanwhile are parsed fields. *)
Definition grows env env' : Prop :=
  (∀ k, is_Some (field_dict env' !! k) ↔ is_Some (field_dict env !! k))
  ∧ (∀ k, is_Some (parsed_dict env !! k) → is_Some (parsed_dict env' !! k))
  ∧ ∃ more, _appended_fields env' = _appended_fields env ++ more
            ∧ ∀ k, k ∈ more → is_Some (parsed_dict env' !! k).

(** The same, with the batch itself unchanged. *)
Definition extends env env' : Prop :=
  field_dict env' = field_dict env ∧ grows env env'.

End PreprocessVocabularyDefs.
End PreprocessVocabulary.

(** * Sample configurations and batches

    The numbers are the rationals of [Exact]; the library accepts every
    column, no vocabulary file exists, and the shared columns of a group
    are its categorical columns. *)

Module Samples.
Import Registry Preprocess Exact.

Definition accept_all (fc : FeatureColumn Q) : bool := true.

Definition no_file (path : string) : option Z := None.

Definition shared_columns (fcs : list (FeatureColumn Q)) (dimension : Z)
    (initializer : option string) (name combiner : string)
    (partitioner : option Partitioner) (use_embedding_variable : bool)
  : result (list (FeatureColumn Q)) := Ok fcs.

Definition no_expression (expression : string) (inputs : list string)
    (prefix : string) (parsed : gmap string (Tensor Q)) : result (Tensor Q) :=
  Raise (ValueError "no expression evaluator").

(** An Id feature [uid] with both a hash bucket size and a vocabulary. *)
Definition uid_config : FeatureConfig Q :=
  {| feature_name_field := None; input_names := ["uid"]; feature_type := IdFeature;
     embedding_name_field := None; embedding_dim := 16;
     hash_bucket_size_field := Some 100; num_buckets := 0; vocab_list := ["a"; "b"];
     vocab_file := ""; boundaries := []; min_val := 0%Q; max_val := 0%Q;
     raw_input_dim := 1; precision := 0; sub_feature_type := IdFeature;
     sequence_length := 1; seq_multi_sep := None; separator := "|";
     kv_separator := None; combiner := "mean"; initializer := None;
     max_partitions := 1; sequence_combiner := None;
     lookup_max_sel_elem_num := 10; expression := "" |}.

(** A Sequence feature [click_seq] of hashed ids without an embedding. *)
Definition click_seq_config : FeatureConfig Q :=
  {| feature_name_field := None; input_names := ["click_seq"];
     feature_type := SequenceFeature;
     embedding_name_field := None; embedding_dim := 0;
     hash_bucket_size_field := Some 100; num_buckets := 0; vocab_list := [];
     vocab_file := ""; boundaries := []; min_val := 0%Q; max_val := 0%Q;
     raw_input_dim := 1; precision := 0; sub_feature_type := IdFeature;
     sequence_length := 1; seq_multi_sep := None; separator := "|";
     kv_separator := None; combiner := "mean"; initializer := None;
     max_partitions := 1; sequence_combiner := None;
     lookup_max_sel_elem_num := 10; expression := "" |}.

(** An Id feature on [input] that declares the embedding name [item] with
    the dimension [dim]. *)
Definition item_config (input : string) (dim : Z) : FeatureConfig Q :=
  {| feature_name_field := None; input_names := [input]; feature_type := IdFeature;
     embedding_name_field := Some "item"; embedding_dim := dim;
     hash_bucket_size_field := Some 1000; num_buckets := 0; vocab_list := [];
     vocab_file := ""; boundaries := []; min_val := 0%Q; max_val := 0%Q;
     raw_input_dim := 1; precision := 0; sub_feature_type := IdFeature;
     sequence_length := 1; seq_multi_sep := None; separator := "|";
     kv_separator := None; combiner := "mean"; initializer := None;
     max_partitions := 1; sequence_combiner := None;
     lookup_max_sel_elem_num := 10; expression := "" |}.

(** A Combo feature with the single input [uid]. *)
Definition lone_combo_config : FeatureConfig Q :=
  {| feature_name_field := Some "uid_x"; input_names := ["uid"];
     feature_type := ComboFeature;
     embedding_name_field := None; embedding_dim := 16;
     hash_bucket_size_field := Some 100; num_buckets := 0; vocab_list := [];
     vocab_file := ""; boundaries := []; min_val := 0%Q; max_val := 0%Q;
     raw_input_dim := 1; precision := 0; sub_feature_type := IdFeature;
     sequence_length := 1; seq_multi_sep := None; separator := "|";
     kv_separator := None; combiner := "mean"; initializer := None;
     max_partitions := 1; sequence_combiner := None;
     lookup_max_sel_elem_num := 10; expression := "" |}.

Definition empty_parser : FeatureColumnParser (num:=Q) :=
  new_parser [uid_config] ∅ 8 false.

(** A library that validates its arguments: it refuses a hash bucket size
    and a number of buckets below 1. *)
Definition strict_library (fc : FeatureColumn Q) : bool :=
  match fc with
  | categorical_column_with_hash_bucket _ n
  | sequence_categorical_column_with_hash_bucket _ n
  | crossed_column _ n
  | categorical_column_with_identity _ n _
  | sequence_categorical_column_with_identity _ n _ => bool_decide (1 ≤ n)
  | _ => true
  end.

Definition wide_deep_of (l : list (string * WideOrDeep)) : gmap string WideOrDeep :=
  list_to_map l.

(** A data configuration without sampler and labels, and one whose sample
    weight is the field [weight]. *)
Definition plain_input (fcs : list (FeatureConfig Q)) : Input (num:=Q) :=
  {| sample_weight_field := None; _sampler := None; _feature_configs := fcs;
     _label_fields := []; _label_sep := []; _label_dim := []; _mode := Some TRAIN |}.

Definition weighted_input (fcs : list (FeatureConfig Q)) : Input (num:=Q) :=
  {| sample_weight_field := Some "weight"; _sampler := None; _feature_configs := fcs;
     _label_fields := []; _label_sep := []; _label_dim := []; _mode := Some TRAIN |}.

Definition labelled_input : Input (num:=Q) :=
  {| sample_weight_field := None; _sampler := None; _feature_configs := [];
     _label_fields := ["clk"]; _label_sep := []; _label_dim := [1];
     _mode := Some TRAIN |}.

Definition fields_of (fields : list (string * DenseTensor Q))
  : gmap string (DenseTensor Q) := list_to_map fields.

Definition batch_of (fields : list (string * DenseTensor Q)) : Env (num:=Q) :=
  {| field_dict := fields_of fields; parsed_dict := ∅; _appended_fields := [] |}.

(** A Raw feature of dimension [dim] on the field [input]. *)
Definition raw_config (input : string) (dim : Z) (lo hi : Q) : FeatureConfig Q :=
  {| feature_name_field := None; input_names := [input]; feature_type := RawFeature;
     embedding_name_field := None; embedding_dim := 0;
     hash_bucket_size_field := None; num_buckets := 0; vocab_list := [];
     vocab_file := ""; boundaries := []; min_val := lo; max_val := hi;
     raw_input_dim := dim; precision := 0; sub_feature_type := IdFeature;
     sequence_length := 1; seq_multi_sep := None; separator := "|";
     kv_separator := None; combiner := "mean"; initializer := None;
     max_partitions := 1; sequence_combiner := None;
     lookup_max_sel_elem_num := 10; expression := "" |}.


(** A Lookup feature with key [key], map [map] and at most [max]
    selections. *)
Definition lookup_config (max : Z) : FeatureConfig Q :=
  {| feature_name_field := Some "kv"; input_names := ["key"; "map"];
     feature_type := LookupFeature;
     embedding_name_field := None; embedding_dim := 8;
     hash_bucket_size_field := Some 100; num_buckets := 0; vocab_list := [];
     vocab_file := ""; boundaries := []; min_val := 0%Q; max_val := 0%Q;
     raw_input_dim := 1; precision := 0; sub_feature_type := IdFeature;
     sequence_length := 1; seq_multi_sep := None; separator := ",";
     kv_separator := Some ":"; combiner := "mean"; initializer := None;
     max_partitions := 1; sequence_combiner := None;
     lookup_max_sel_elem_num := max; expression := "" |}.

(** An Id feature on [price] with a hash bucket and a precision. *)
Definition price_config (precision : Z) : FeatureConfig Q :=
  {| feature_name_field := None; input_names := ["price"]; feature_type := IdFeature;
     embedding_name_field := None; embedding_dim := 8;
     hash_bucket_size_field := Some 100; num_buckets := 0; vocab_list := [];
     vocab_file := ""; boundaries := []; min_val := 0%Q; max_val := 0%Q;
     raw_input_dim := 1; precision := precision; sub_feature_type := IdFeature;
     sequence_length := 1; seq_multi_sep := None; separator := "|";
     kv_separator := None; combiner := "mean"; initializer := None;
     max_partitions := 1; sequence_combiner := None;
     lookup_max_sel_elem_num := 10; expression := "" |}.

Definition strings (l : list string) : DenseTensor Q :=
  {| shape := [Z.of_nat (length l)]; data := VString l |}.

Definition floats (l : list Q) : DenseTensor Q :=
  {| shape := [Z.of_nat (length l)]; data := VFloat32 l |}.

End Samples.

(** * Further sample configurations

    The catalogue of a table of three columns: the label [clk], the user
    [uid] and the rate [ctr]; a set of field ids is listed in the order of
    the first occurrences, and a double is cast to an integer by
    truncation. *)

Module MoreSamples.
Import Registry Preprocess InputObject Exact Samples.

(** A parser whose group [item] has the deep members [deep] and the wide
    members [wide]. *)
Definition shared_parser (deep wide : list (FeatureColumn Q))
  : FeatureColumnParser (num:=Q) :=
  set_wide_share_embed_columns {[ "item" := wide ]}
    (set_deep_share_embed_columns {[ "item" := deep ]} empty_parser).

Definition item_column (input : string) : FeatureColumn Q :=
  categorical_column_with_hash_bucket input 1000.

(** An Id feature on [uid] with a vocabulary list and every other field at
    its default: it has no embedding dimension. *)
Definition vocabulary_config : FeatureConfig Q :=
  {| feature_name_field := None; input_names := ["uid"]; feature_type := IdFeature;
     embedding_name_field := None; embedding_dim := 0;
     hash_bucket_size_field := None; num_buckets := 0; vocab_list := ["a"; "b"];
     vocab_file := ""; boundaries := []; min_val := 0%Q; max_val := 0%Q;
     raw_input_dim := 1; precision := 0; sub_feature_type := IdFeature;
     sequence_length := 1; seq_multi_sep := None; separator := "|";
     kv_separator := None; combiner := "mean"; initializer := None;
     max_partitions := 1; sequence_combiner := None;
     lookup_max_sel_elem_num := 10; expression := "" |}.

(** A Tag feature whose weights are the second input. *)
Definition weighted_tag_config : FeatureConfig Q :=
  {| feature_name_field := None; input_names := ["tags"; "weights"];
     feature_type := TagFeature;
     embedding_name_field := None; embedding_dim := 8;
     hash_bucket_size_field := Some 100; num_buckets := 0; vocab_list := [];
     vocab_file := ""; boundaries := []; min_val := 0%Q; max_val := 0%Q;
     raw_input_dim := 1; precision := 0; sub_feature_type := IdFeature;
     sequence_length := 1; seq_multi_sep := None; separator := "|";
     kv_separator := None; combiner := "mean"; initializer := None;
     max_partitions := 1; sequence_combiner := None;
     lookup_max_sel_elem_num := 10; expression := "" |}.

Definition two_label_input : Input (num:=Q) :=
  {| sample_weight_field := None; _sampler := None; _feature_configs := [];
     _label_fields := ["clk"; "buy"]; _label_sep := []; _label_dim := [1; 1];
     _mode := Some TRAIN |}.

Definition table_field (name : string) (type : FieldType) : Field :=
  {| input_name := name; input_dim := 1; input_type := type; default_val := "" |}.

Definition table_config : DatasetConfig :=
  {| auto_expand_input_fields := false;
     input_fields := [table_field "clk" INT32; table_field "uid" STRING;
                      table_field "ctr" FLOAT];
     label_fields := ["clk"]; label_sep := []; label_dim := [];
     batch_size := 2; prefetch_size := 1; dc_sample_weight := None;
     dc_separator := ","; dc_num_epochs := 1 |}.

Definition table_features : list (FeatureConfig Q) :=
  [uid_config; raw_config "ctr" 1 0 0].

Definition same_name (name : string) : list string := [name].

Definition no_sampler (data_config : DatasetConfig) : option (Sampler (num:=Q)) :=
  None.

Definition first_occurrences (ids : list nat) : list nat := remove_dups ids.

Definition truncate (q : Q) : Z := Z.quot (Qnum q) (Z.pos (Qden q)).

(** The object [Input.__init__] builds from [table_config] and
    [table_features]. *)
Definition table_object : InputObject (num:=Q) :=
  {| _data_config := table_config;
     _input_fields := ["clk"; "uid"; "ctr"];
     _input_dims := [1; 1; 1];
     _input_field_types := [INT32; STRING; FLOAT];
     _input_field_defaults := [""; ""; ""];
     _batch_size := 2; _prefetch_size := 1; _task_index := 0; _task_num := 1;
     _input_path := None;
     _effective_fields := ["uid"; "ctr"];
     _multi_value_types := {[ "ctr" := tf_float32 ]};
     _effective_fids := [1; 2]%nat;
     _label_fids := [0%nat];
     _preprocess_self :=
       {| sample_weight_field := None; _sampler := None;
          _feature_configs := table_features;
          _label_fields := ["clk"]; _label_sep := []; _label_dim := [1];
          _mode := None |} |}.

(** A batch of two records of the table: the labels and the column of the
    features. *)
Definition table_batch : list (DenseTensor Q) :=
  [ {| shape := [2]; data := VInt32 [1; 0] |}; strings ["u1,0.5"; "u2,0.25"] ].

End MoreSamples.

(** * Properties of the registry *)

Module RegistryFacts.
Import Registry RegistrySpec.

(** Unfolding of the method monad. *)
Ltac run_method :=
  unfold mbind, method_bind, mret, method_ret, get_self, lift, update, raise,
    when in *; simpl in *.

Section SharedEmbeddings.
Context {num : Type}.
Implicit Types (config c : FeatureConfig num) (self : FeatureColumnParser (num:=num))
  (configs pre : list (FeatureConfig num)).

Lemma members_app n (l1 l2 : list (FeatureConfig num)) :
  members n (l1 ++ l2) = members n l1 ++ members n l2.
Proof. apply filter_app. Qed.

Lemma members_elem n c (l : list (FeatureConfig num)) :
  c ∈ members n l ↔ c ∈ l ∧ embedding_name_field c = Some n.
Proof. unfold members. rewrite list_elem_of_filter. tauto. Qed.

Lemma members_single_named n c :
  embedding_name_field c = Some n → members n [c] = [c].
Proof. intros E. unfold members. rewrite filter_cons, decide_True by done. done. Qed.

Lemma members_single_other n c :
  embedding_name_field c ≠ Some n → members n [c] = [].
Proof. intros E. unfold members. rewrite filter_cons, decide_False by done. done. Qed.

Lemma counted_unnamed pre c self :
  embedding_name_field c = None → counted pre self → counted (pre ++ [c]) self.
Proof.
  intros E Hc n. rewrite members_app, members_single_other, app_nil_r by congruence.
  apply Hc.
Qed.

Lemma share_embed_step_unnamed c self :
  embedding_name_field c = None → share_embed_step c self = (Ok (), self).
Proof. intros E. unfold share_embed_step. rewrite E. done. Qed.

(** A first use of a name enters it in both dictionaries. *)
Lemma share_embed_step_first pre c n self :
  counted pre self → embedding_name_field c = Some n → members n pre = [] →
  ∃ self', share_embed_step c self = (Ok (), self') ∧ counted (pre ++ [c]) self'.
Proof.
  intros Hc E Hm. unfold share_embed_step. rewrite E. run_method.
  destruct (Hc n) as [Hn Hi]. rewrite Hm in Hn. rewrite decide_True in Hn by done.
  rewrite Hn. eexists; split; [done|].
  intros m. simpl. rewrite members_app.
  destruct (decide (m = n)) as [->|Hne].
  - rewrite Hm, members_single_named by done.
    rewrite !lookup_insert_eq. case_decide; [done|]. done.
  - rewrite members_single_other, app_nil_r by congruence.
    rewrite !lookup_insert_ne by done. apply Hc.
Qed.

(** A later use with the same information counts one more member. *)
Lemma share_embed_step_again pre c c0 l n self :
  counted pre self → embedding_name_field c = Some n → members n pre = c0 :: l →
  embed_info_of c = embed_info_of c0 →
  ∃ self', share_embed_step c self = (Ok (), self') ∧ counted (pre ++ [c]) self'.
Proof.
  intros Hc E Hm Hinfo. unfold share_embed_step. rewrite E. run_method.
  destruct (Hc n) as [Hn Hi]. rewrite Hm in Hn, Hi. rewrite decide_False in Hn by done.
  rewrite Hn. unfold getitem. rewrite Hi. simpl.
  unfold py_assert. rewrite bool_decide_eq_true_2 by done. simpl.
  eexists; split; [done|].
  intros m. simpl. rewrite members_app.
  destruct (decide (m = n)) as [->|Hne].
  - rewrite Hm, members_single_named by done.
    rewrite lookup_insert_eq, Hi. case_decide; [done|].
    split; [|done]. f_equal. rewrite length_app. simpl. lia.
  - rewrite members_single_other, app_nil_r by congruence.
    rewrite lookup_insert_ne by done. apply Hc.
Qed.

(** A later use with different information fails the assertion. *)
Lemma share_embed_step_differ pre c c0 l n self :
  counted pre self → embedding_name_field c = Some n → members n pre = c0 :: l →
  embed_info_of c ≠ embed_info_of c0 →
  ∃ msg, share_embed_step c self = (Raise (AssertionError msg), self).
Proof.
  intros Hc E Hm Hinfo. unfold share_embed_step. rewrite E. run_method.
  destruct (Hc n) as [Hn Hi]. rewrite Hm in Hn, Hi. rewrite decide_False in Hn by done.
  rewrite Hn. unfold getitem. rewrite Hi. simpl.
  unfold py_assert. rewrite bool_decide_eq_false_2 by done. simpl. eauto.
Qed.

Lemma consistent_snoc pre c :
  consistent pre →
  (∀ n c', embedding_name_field c = Some n → c' ∈ pre →
     embedding_name_field c' = Some n → embed_info_of c = embed_info_of c') →
  consistent (pre ++ [c]).
Proof.
  intros Hp Hc c1 c2 n H1 H2 E1 E2.
  rewrite elem_of_app, list_elem_of_singleton in H1, H2.
  destruct H1 as [H1| ->], H2 as [H2| ->]; eauto using eq_sym.
Qed.

Lemma consistent_mismatch configs : consistent configs → mismatch configs → False.
Proof. intros Hc (c1 & c2 & n & H1 & H2 & E1 & E2 & Hne). eauto. Qed.

Lemma for_each_m_cons {A} (body : A → Method (num:=num) unit) a l self :
  for_each_m body (a :: l) self =
    match body a self with
    | (Ok _, self') => for_each_m body l self'
    | (Raise e, self') => (Raise e, self')
    end.
Proof. simpl. unfold mbind, method_bind. destruct (body a self) as [[[]|] ?]; done. Qed.

(** The loop of lines 68-89 succeeds on a consistent catalogue and fails
    the assertion on any other. *)
Lemma share_embed_loop rest : ∀ pre self,
  counted pre self → consistent pre →
  (consistent (pre ++ rest) →
     ∃ self', for_each_m share_embed_step rest self = (Ok (), self')
              ∧ counted (pre ++ rest) self')
  ∧ (mismatch (pre ++ rest) →
     ∃ msg self', for_each_m share_embed_step rest self
                  = (Raise (AssertionError msg), self')).
Proof.
  induction rest as [|c rest IH]; intros pre self Hcnt Hpre.
  { rewrite app_nil_r. split; [eauto|].
    intros Hm. destruct (consistent_mismatch _ Hpre Hm). }
  replace (pre ++ c :: rest) with ((pre ++ [c]) ++ rest) by (by rewrite <- app_assoc).
  rewrite for_each_m_cons.
  destruct (embedding_name_field c) as [n|] eqn:E.
  2:{ rewrite share_embed_step_unnamed by done.
      apply IH; [by apply counted_unnamed|].
      apply consistent_snoc; [done|]. congruence. }
  destruct (members n pre) as [|c0 l] eqn:Hm.
  { destruct (share_embed_step_first pre c n self Hcnt E Hm) as (self' & -> & Hcnt').
    apply IH; [done|]. apply consistent_snoc; [done|].
    intros n' c' E' Hin' En'. assert (n' = n) as -> by congruence.
    assert (c' ∈ members n pre) as Hc' by (by apply members_elem).
    rewrite Hm in Hc'. by apply elem_of_nil in Hc'. }
  assert (c0 ∈ pre ∧ embedding_name_field c0 = Some n) as [Hin0 En0].
  { apply members_elem. rewrite Hm. left. }
  destruct (decide (embed_info_of c = embed_info_of c0)) as [Heq|Hne].
  - destruct (share_embed_step_again pre c c0 l n self Hcnt E Hm Heq)
      as (self' & -> & Hcnt').
    apply IH; [done|]. apply consistent_snoc; [done|].
    intros n' c' E' Hin' En'. assert (n' = n) as -> by congruence.
    rewrite Heq. eauto.
  - destruct (share_embed_step_differ pre c c0 l n self Hcnt E Hm Hne) as (msg & ->).
    split; [|eauto].
    intros Hcons. destruct Hne. apply (Hcons c c0 n); try done.
    + rewrite !elem_of_app, list_elem_of_singleton. auto.
    + rewrite !elem_of_app. auto.
Qed.

Lemma lookup_foldr_delete {A} (m : gmap string A) (l : list string) k :
  foldr delete m l !! k = if decide (k ∈ l) then None else m !! k.
Proof.
  induction l as [|x l IH]; simpl.
  - done.
  - destruct (decide (x = k)) as [->|Hne].
    + rewrite lookup_delete_eq, decide_True; [done|left].
    + rewrite lookup_delete_ne, IH by done.
      destruct (decide (k ∈ l)).
      * rewrite decide_True; [done|by right].
      * rewrite decide_False; [done|]. by intros [->|?]%elem_of_cons.
Qed.

(** After lines 91-97 a name is kept exactly when it was declared more
    than once, and then with the information its members agree on. *)
Lemma remove_not_shared_spec configs self :
  counted configs self →
  ∃ self', remove_not_shared self = (Ok (), self')
    ∧ ∀ n, _share_embed_infos self' !! n =
        if decide (2 ≤ length (members n configs))%nat
        then embed_info_of <$> head (members n configs) else None.
Proof.
  intros Hcnt. unfold remove_not_shared. run_method.
  eexists; split; [done|]. intros n. simpl.
  rewrite lookup_foldr_delete. destruct (Hcnt n) as [Hn Hi].
  destruct (members n configs) as [|c0 [|c1 l]] eqn:Hm; simpl in *.
  - rewrite Hi. by destruct (decide (n ∈ _)).
  - rewrite decide_True; [done|].
    apply list_elem_of_filter. split; [done|].
    apply list_elem_of_fmap. exists (n, 1). split; [done|].
    by apply elem_of_map_to_list.
  - rewrite decide_False; [done|].
    intros [H1 _]%list_elem_of_filter. rewrite Hn in H1. injection H1. lia.
Qed.

(** Lines 68-97 on a fresh parser: the outcome on a consistent catalogue. *)
Lemma init_share_embed_consistent configs wd wod uev :
  consistent configs →
  ∃ self', init_share_embed configs (new_parser configs wd wod uev) = (Ok (), self')
    ∧ ∀ c n, c ∈ configs → embedding_name_field c = Some n →
        _share_embed_infos self' !! n =
          if decide (2 ≤ length (members n configs))%nat
          then Some (embed_info_of c) else None.
Proof.
  intros Hcons. set (self0 := new_parser configs wd wod uev).
  assert (counted [] self0) as H0.
  { intros n. simpl. by rewrite !lookup_empty. }
  assert (consistent (num:=num) []) as Hnil.
  { intros c1 ? ? Hin. by apply elem_of_nil in Hin. }
  destruct (share_embed_loop configs [] self0 H0 Hnil) as [HA _].
  destruct (HA Hcons) as (self1 & Hrun & Hcnt). simpl in Hcnt.
  destruct (remove_not_shared_spec configs self1 Hcnt) as (self2 & Hrem & Hinfos).
  exists self2. split.
  - unfold init_share_embed. unfold mbind, method_bind. by rewrite Hrun.
  - intros c n Hin E. rewrite Hinfos. case_decide; [|done].
    assert (c ∈ members n configs) as Hc by (by apply members_elem).
    destruct (members n configs) as [|c0 l] eqn:Hm; [by apply elem_of_nil in Hc|].
    simpl. f_equal.
    assert (c0 ∈ configs ∧ embedding_name_field c0 = Some n) as [Hin0 En0].
    { apply members_elem. rewrite Hm. left. }
    by apply (Hcons c0 c n).
Qed.

(** Lines 68-97 on a fresh parser: the outcome on a mismatch. *)
Lemma init_share_embed_mismatch configs wd wod uev :
  mismatch configs →
  ∃ msg self', init_share_embed configs (new_parser configs wd wod uev)
               = (Raise (AssertionError msg), self').
Proof.
  intros Hmis. set (self0 := new_parser configs wd wod uev).
  assert (counted [] self0) as H0.
  { intros n. simpl. by rewrite !lookup_empty. }
  assert (consistent (num:=num) []) as Hnil.
  { intros c1 ? ? Hin. by apply elem_of_nil in Hin. }
  destruct (share_embed_loop configs [] self0 H0 Hnil) as [_ HB].
  destruct (HB Hmis) as (msg & self1 & Hrun).
  exists msg, self1. unfold init_share_embed. unfold mbind, method_bind.
  by rewrite Hrun.
Qed.

End SharedEmbeddings.

Section Parsing.
Context {num : Type} `{TFNum num}.
Variable column_ok : FeatureColumn num → bool.
Variable gfile_line_count : string → option Z.
Variable shared_embedding_columns :
  list (FeatureColumn num) → Z → option string → string → string →
  option Partitioner → bool → result (list (FeatureColumn num)).
Implicit Types (config : FeatureConfig num) (self : FeatureColumnParser (num:=num))
  (configs : list (FeatureConfig num)).

Lemma build_ok (fc : FeatureColumn num) self :
  column_ok fc = true → build column_ok fc self = (Ok fc, self).
Proof. intros E. unfold build. by rewrite E. Qed.

Lemma get_vocab_size_tables path self r self' :
  _get_vocab_size gfile_line_count path self = (r, self') →
  tables self' = tables self.
Proof.
  unfold _get_vocab_size. run_method.
  destruct (_vocab_size self !! path); [by intros [= <- <-]|].
  destruct (gfile_line_count path); by intros [= <- <-].
Qed.

Lemma get_vocab_size_ok path self :
  is_Some (gfile_line_count path) →
  ∃ n self', _get_vocab_size gfile_line_count path self = (Ok n, self')
             ∧ tables self' = tables self.
Proof.
  intros [n Hn]. unfold _get_vocab_size. run_method.
  destruct (_vocab_size self !! path) as [m|]; [by exists m, self|].
  rewrite Hn. by eexists _, _.
Qed.

(** C2.  The categorical column of an Id feature is chosen by the fixed
    priority hash_bucket_size > vocab_list > vocab_file > identity: a
    positive [hash_bucket_size] gives a hash-bucket column whatever the
    vocabulary settings are; otherwise a non-empty [vocab_list] gives a
    vocabulary-list column with default id 0; otherwise a non-empty
    [vocab_file] gives a vocabulary-file column with default id 0 over the
    size of the file; otherwise the column is the identity over
    [num_buckets] with default id 0.  In each case the library is called
    once, with exactly that column. *)
Theorem id_feature_encoding_priority config self input_0 :
  input_names config !! 0%nat = Some input_0 →
  (hash_bucket_size config > 0 →
     id_categorical_column column_ok gfile_line_count config self
     = build column_ok
         (categorical_column_with_hash_bucket input_0 (hash_bucket_size config)) self)
  ∧ (hash_bucket_size config ≤ 0 → vocab_list config ≠ [] →
     id_categorical_column column_ok gfile_line_count config self
     = build column_ok
         (categorical_column_with_vocabulary_list input_0 0 (vocab_list config)) self)
  ∧ (hash_bucket_size config ≤ 0 → vocab_list config = [] →
     vocab_file config ≠ "" →
     ∀ size self', _get_vocab_size gfile_line_count (vocab_file config) self
                   = (Ok size, self') →
     id_categorical_column column_ok gfile_line_count config self
     = build column_ok
         (categorical_column_with_vocabulary_file input_0 0 (vocab_file config) size)
         self')
  ∧ (hash_bucket_size config ≤ 0 → vocab_list config = [] →
     vocab_file config = "" →
     id_categorical_column column_ok gfile_line_count config self
     = build column_ok
         (categorical_column_with_identity input_0 (num_buckets config) 0) self).
Proof.
  intros Hin. unfold id_categorical_column, subscript. rewrite Hin.
  repeat split.
  - intros Hh. rewrite bool_decide_eq_true_2 by done. by run_method.
  - intros Hh Hv. rewrite bool_decide_eq_false_2 by lia.
    destruct (vocab_list config); [done|]. by run_method.
  - intros Hh Hv Hf size self' Hsize. rewrite bool_decide_eq_false_2 by lia.
    rewrite Hv. destruct (vocab_file config); [done|]. run_method.
    by rewrite Hsize.
  - intros Hh Hv Hf. rewrite bool_decide_eq_false_2 by lia.
    rewrite Hv, Hf. by run_method.
Qed.

(** X1.  When two configurations declare the same embedding name with
    different embedding information (dimension, combiner, initializer or
    max_partitions), the constructor of the registry fails with the
    assertion of its first loop; when all configurations that declare a
    name agree, that loop and the removal of the unshared names succeed,
    and every name declared at least twice keeps, as its one record, the
    embedding information of each feature that declares it. *)
Theorem shared_embedding_info_checked
    (configs : list (FeatureConfig num)) wd wod uev :
  (mismatch configs →
     ∃ msg,
       __init__ column_ok gfile_line_count shared_embedding_columns
         configs wd wod uev = Raise (AssertionError msg)
       ∧ ∃ self', init_share_embed configs (new_parser configs wd wod uev)
                  = (Raise (AssertionError msg), self'))
  ∧ (consistent configs →
     ∃ self',
       init_share_embed configs (new_parser configs wd wod uev) = (Ok (), self')
       ∧ ∀ c n, c ∈ configs → embedding_name_field c = Some n →
           (2 ≤ length (members n configs))%nat →
           _share_embed_infos self' !! n = Some (embed_info_of c)).
Proof.
  split.
  - intros Hmis.
    destruct (init_share_embed_mismatch configs wd wod uev Hmis) as (msg & self' & Hrun).
    exists msg. split; [|eauto].
    unfold __init__, init_body. run_method. by rewrite Hrun.
  - intros Hcons.
    destruct (init_share_embed_consistent configs wd wod uev Hcons)
      as (self' & Hrun & Hinfos).
    exists self'. split; [done|]. intros c n Hin E Hlen.
    rewrite (Hinfos c n Hin E). by rewrite decide_True.
Qed.

(** *** Features absent from the wide/deep map *)

Lemma is_wide_absent config self name :
  primary_name config = Ok name → _wide_deep_dict self !! name = None →
  is_wide config self = (Raise (FeatureKeyError name), self).
Proof. intros Hn Hd. unfold is_wide. run_method. rewrite Hn. simpl. by rewrite Hd. Qed.

Lemma tables_dict self self' :
  tables self' = tables self → _wide_deep_dict self' = _wide_deep_dict self.
Proof. unfold tables. by intros [= ]. Qed.

Lemma bind_lift_ok {A B} (a : A) (f : A → Method (num:=num) B) self :
  (lift (Ok a) ≫= f) self = f a self.
Proof. done. Qed.

Lemma bind_mret {A B} (a : A) (f : A → Method (num:=num) B) self :
  (mret a ≫= f) self = f a self.
Proof. done. Qed.

Lemma bind_bind {A B C} (m : Method (num:=num) A) (f : A → Method B)
    (g : B → Method C) self :
  ((m ≫= f) ≫= g) self = (m ≫= λ a, f a ≫= g) self.
Proof.
  unfold mbind, method_bind. destruct (m self) as [[a|e] self1]; [|done].
  by destruct (f a self1) as [[b|e] self2].
Qed.

Lemma parse_features_cons config rest self :
  parse_features column_ok gfile_line_count (config :: rest) self =
    match parse_feature column_ok gfile_line_count config self with
    | (Ok _, self') | (Raise (FeatureKeyError _), self') =>
        parse_features column_ok gfile_line_count rest self'
    | (Raise e, self') => (Raise e, self')
    end.
Proof.
  unfold parse_features. rewrite for_each_m_cons. unfold try_except_FeatureKeyError.
  destruct (parse_feature _ _ config self) as [[[]|[]] self']; done.
Qed.

(** *** The method monad *)

Lemma bind_run {A B} (m : Method (num:=num) A) (f : A → Method B) self :
  (m ≫= f) self
  = match m self with
    | (Ok a, self1) => f a self1
    | (Raise e, self1) => (Raise e, self1)
    end.
Proof. done. Qed.

Lemma bind_lift {A B} (r : result A) (f : A → Method (num:=num) B) self :
  (lift r ≫= f) self
  = match r with Ok a => f a self | Raise e => (Raise e, self) end.
Proof. by destruct r. Qed.

Lemma bind_build_run {B} (fc : FeatureColumn num) (f : _ → Method (num:=num) B) self :
  (build column_ok fc ≫= f) self
  = if column_ok fc then f fc self
    else (Raise (ValueError "invalid feature column arguments"), self).
Proof. unfold build. by destruct (column_ok fc). Qed.

Lemma build_run (fc : FeatureColumn num) self :
  build column_ok fc self
  = if column_ok fc then (Ok fc, self)
    else (Raise (ValueError "invalid feature column arguments"), self).
Proof. unfold build. by destruct (column_ok fc). Qed.

Lemma bind_if {A B} (b : bool) (m1 m2 : Method (num:=num) A) (f : A → Method B) self :
  ((if b then m1 else m2) ≫= f) self = (if b then m1 ≫= f else m2 ≫= f) self.
Proof. by destruct b. Qed.

(** *** Methods that touch the cache of vocabulary sizes only *)

Lemma same_but_vocab_refl self : same_but_vocab self self.
Proof. by destruct self. Qed.

Lemma same_but_vocab_trans self self1 self2 :
  same_but_vocab self self1 → same_but_vocab self1 self2 → same_but_vocab self self2.
Proof. unfold same_but_vocab. intros -> ->. done. Qed.

Lemma same_but_vocab_tables self self1 :
  same_but_vocab self self1 → tables self1 = tables self.
Proof. unfold same_but_vocab. by intros ->. Qed.

Lemma same_but_vocab_dims self self1 :
  same_but_vocab self self1 →
  _wide_output_dim self1 = _wide_output_dim self
  ∧ _wide_deep_dict self1 = _wide_deep_dict self
  ∧ _use_embedding_variable self1 = _use_embedding_variable self.
Proof. unfold same_but_vocab. by intros ->. Qed.

Lemma vocab_only_lift {A} (r : result A) : vocab_only (num:=num) (lift r).
Proof. intros self r' self1 [= <- <-]. apply same_but_vocab_refl. Qed.

Lemma vocab_only_mret {A} (a : A) : vocab_only (num:=num) (mret a).
Proof. intros self r' self1 [= <- <-]. apply same_but_vocab_refl. Qed.

Lemma vocab_only_build fc : vocab_only (build column_ok fc).
Proof.
  intros self r' self1. unfold build.
  destruct (column_ok fc); intros [= <- <-]; apply same_but_vocab_refl.
Qed.

Lemma vocab_only_get_vocab_size path :
  vocab_only (num:=num) (_get_vocab_size gfile_line_count path).
Proof.
  intros self r' self1. unfold _get_vocab_size. run_method.
  destruct (_vocab_size self !! path).
  { intros [= <- <-]. apply same_but_vocab_refl. }
  destruct (gfile_line_count path); intros [= <- <-]; [done|].
  apply same_but_vocab_refl.
Qed.

Lemma vocab_only_bind {A B} (m : Method (num:=num) A) (f : A → Method B) :
  vocab_only m → (∀ a, vocab_only (f a)) → vocab_only (m ≫= f).
Proof.
  intros Hm Hf self r self2. unfold mbind, method_bind.
  destruct (m self) as [[a|e] self1] eqn:E.
  - intros Hrun. eapply same_but_vocab_trans; [by eapply Hm|by eapply Hf].
  - intros [= <- <-]. by eapply Hm.
Qed.

Ltac vocab_only_step :=
  first
    [ apply vocab_only_lift | apply vocab_only_mret | apply vocab_only_build
    | apply vocab_only_get_vocab_size
    | apply vocab_only_bind; [|intros ?]
    | match goal with |- vocab_only (if ?b then _ else _) => destruct b end ].

Lemma own_column_vocab_only config :
  vocab_only (own_column column_ok gfile_line_count config).
Proof.
  unfold own_column, id_categorical_column.
  destruct (feature_type config); repeat vocab_only_step.
Qed.

(** *** The column of a feature and the rest of its parse method *)

Lemma bind_prefix {A B} (m : Method (num:=num) A) (k : A → Method B) self x :
  x = (m ≫= k) self →
  match m self with
  | (Ok a, self1) => x = k a self1
  | (Raise e, self1) => x = (Raise e, self1)
  end.
Proof. intros ->. rewrite bind_run. by destruct (m self) as [[a|e] self1]. Qed.

Lemma not_embedded_raw : ¬ embedded_type RawFeature.
Proof.
  intros Hin. repeat (apply elem_of_cons in Hin as [Hin|Hin]; [done|]).
  by apply elem_of_nil in Hin.
Qed.

Lemma not_embedded_expr : ¬ embedded_type ExprFeature.
Proof.
  intros Hin. repeat (apply elem_of_cons in Hin as [Hin|Hin]; [done|]).
  by apply elem_of_nil in Hin.
Qed.

(** Every feature type but Sequence builds its column and ends in the two
    tests on the wide/deep map; when the column cannot be built, the
    method fails as the construction of the column does. *)
Lemma parse_feature_prefix config self :
  feature_type config ≠ SequenceFeature →
  match own_column column_ok gfile_line_count config self with
  | (Ok fc, self1) =>
      ∃ deep_action,
        parse_feature column_ok gfile_line_count config self
        = wide_deep_tail column_ok config fc deep_action self1
        ∧ (embedded_type (feature_type config) →
           deep_action = _add_deep_embedding_column column_ok fc config)
  | (Raise e, self1) =>
      parse_feature column_ok gfile_line_count config self = (Raise e, self1)
  end.
Proof.
  intros Hty. unfold parse_feature, own_column.
  destruct (feature_type config) eqn:E; [| | | | |done|].
  - (* Id *)
    unfold parse_id_feature. rewrite bind_run.
    destruct (id_categorical_column _ _ config self) as [[fc|e] self1]; [|done].
    by eexists.
  - (* Tag *)
    unfold parse_tag_feature.
    match goal with
    | |- match (?a ≫= ?b) self with _ => _ end =>
        pose proof (bind_prefix (a ≫= b)
          (λ tag_fc, wide_deep_tail column_ok config tag_fc
                       (_add_deep_embedding_column column_ok tag_fc config)) self
          (parse_tag_feature column_ok gfile_line_count config self)) as Hp;
        destruct ((a ≫= b) self) as [[fc|e] self1]
    end.
    + eexists. split; [|done]. apply Hp. unfold parse_tag_feature.
      by rewrite bind_bind.
    + apply Hp. unfold parse_tag_feature. by rewrite bind_bind.
  - (* Raw *)
    unfold parse_raw_feature. rewrite !bind_lift.
    destruct (primary_name config) as [feature_name|]; [|done].
    rewrite !bind_lift.
    destruct (subscript (input_names config) 0) as [input_0|]; [|done].
    rewrite bind_build_run. rewrite (bind_build_run (numeric_column _ _)).
    destruct (column_ok (numeric_column _ _)); [|done].
    cbv zeta. destruct (negb (is_empty _)).
    + rewrite bind_build_run, build_run. destruct (column_ok _); [|done].
      eexists. by split.
    + rewrite bind_build_run. rewrite (bind_build_run (categorical_column_with_identity _ _ _)).
      destruct (column_ok (categorical_column_with_identity _ _ _)); [|done].
      rewrite bind_build_run, build_run. destruct (column_ok _); [|done].
      eexists. split; [reflexivity|]. intros Hin. by destruct (not_embedded_raw).
  - (* Combo *)
    unfold parse_combo_feature. rewrite !bind_lift.
    destruct (py_assert _ _); [|done].
    rewrite bind_build_run, build_run. destruct (column_ok _); [|done].
    eexists. by split.
  - (* Lookup *)
    unfold parse_lookup_feature. rewrite !bind_lift.
    destruct (primary_name config) as [feature_name|]; [|done].
    rewrite !bind_lift. destruct (py_assert _ _); [|done].
    rewrite bind_build_run, build_run. destruct (column_ok _); [|done].
    eexists. by split.
  - (* Expr *)
    unfold parse_expr_feature. rewrite !bind_lift.
    destruct (primary_name config) as [feature_name|]; [|done].
    rewrite bind_build_run, build_run. destruct (column_ok _); [|done].
    eexists. split; [reflexivity|]. intros Hin. by destruct (not_embedded_expr).
Qed.

(** *** Sequence features *)

Lemma never_lift {A} (r : result A) :
  (∀ n, r ≠ Raise (FeatureKeyError n)) → never_unconfigured (num:=num) (lift r).
Proof. intros Hr self r' self1 [= <- <-]. done. Qed.

Lemma never_subscript {A} (l : list A) i :
  never_unconfigured (num:=num) (lift (subscript l i)).
Proof. apply never_lift. intros n. unfold subscript. by destruct (l !! i). Qed.

Lemma never_getitem {A} (d : gmap string A) k :
  never_unconfigured (num:=num) (lift (getitem d k)).
Proof. apply never_lift. intros n. unfold getitem. by destruct (d !! k). Qed.

Lemma never_assert cond message :
  never_unconfigured (num:=num) (lift (py_assert cond message)).
Proof. apply never_lift. intros n. by destruct cond. Qed.

Lemma never_primary_name config :
  never_unconfigured (num:=num) (lift (primary_name config)).
Proof.
  apply never_lift. intros n. unfold primary_name, subscript.
  destruct (feature_name_field config); [done|]. by destruct (_ !! _).
Qed.

Lemma never_mret {A} (a : A) : never_unconfigured (num:=num) (mret a).
Proof. by intros self r' self1 [= <- <-]. Qed.

Lemma never_get_self : never_unconfigured (num:=num) get_self.
Proof. by intros self r' self1 [= <- <-]. Qed.

Lemma never_update f : never_unconfigured (num:=num) (update f).
Proof. by intros self r' self1 [= <- <-]. Qed.

Lemma never_build fc : never_unconfigured (build column_ok fc).
Proof.
  intros self r' self1. unfold build. by destruct (column_ok fc); intros [= <- <-].
Qed.

Lemma never_get_vocab_size path :
  never_unconfigured (num:=num) (_get_vocab_size gfile_line_count path).
Proof.
  intros self r' self1. unfold _get_vocab_size. run_method.
  destruct (_vocab_size self !! path); [by intros [= <- <-]|].
  by destruct (gfile_line_count path); intros [= <- <-].
Qed.

Lemma never_bind {A B} (m : Method (num:=num) A) (f : A → Method B) :
  never_unconfigured m → (∀ a, never_unconfigured (f a)) →
  never_unconfigured (m ≫= f).
Proof.
  intros Hm Hf self r self2. unfold mbind, method_bind.
  destruct (m self) as [[a|e] self1] eqn:E.
  - by apply Hf.
  - intros [= <- <-] n [= ->]. by destruct (Hm self _ _ E n).
Qed.

Ltac never_step :=
  first
    [ apply never_subscript | apply never_getitem | apply never_assert
    | apply never_primary_name | apply never_mret | apply never_get_self
    | apply never_update | apply never_build | apply never_get_vocab_size
    | apply never_bind; [|intros ?]
    | match goal with
      | |- never_unconfigured (if ?b then _ else _) => destruct b
      | |- never_unconfigured (match ?x with _ => _ end) => destruct x
      end ].

Lemma never_add_deep_embedding_column fc config :
  never_unconfigured (_add_deep_embedding_column column_ok fc config).
Proof.
  unfold _add_deep_embedding_column, _add_shared_embedding_column, _build_partitioner.
  repeat never_step.
Qed.

(** The method of a Sequence feature reads the wide/deep map nowhere. *)
Lemma never_parse_sequence_feature config :
  never_unconfigured (parse_sequence_feature column_ok gfile_line_count config).
Proof.
  unfold parse_sequence_feature.
  repeat first [ apply never_add_deep_embedding_column | never_step ].
Qed.

Lemma parse_sequence_prefix config name self :
  primary_name config = Ok name →
  match own_column column_ok gfile_line_count config self with
  | (Ok fc, self1) =>
      feature_type config = SequenceFeature →
      parse_feature column_ok gfile_line_count config self
      = (if bool_decide (embedding_dim config > 0) then
           _add_deep_embedding_column column_ok fc config
         else
           self ← get_self;
           update (set_sequence_columns
                     (<[name := Column fc None]> (_sequence_columns self)))) self1
  | (Raise e, self1) =>
      feature_type config = SequenceFeature →
      parse_feature column_ok gfile_line_count config self = (Raise e, self1)
  end.
Proof.
  intros Hname.
  assert (feature_type config = SequenceFeature →
    parse_feature column_ok gfile_line_count config self
    = (own_column column_ok gfile_line_count config ≫= λ fc,
         if bool_decide (embedding_dim config > 0) then
           _add_deep_embedding_column column_ok fc config
         else
           self ← get_self;
           update (set_sequence_columns
                     (<[name := Column fc None]> (_sequence_columns self)))) self)
    as Hp.
  { intros E. unfold parse_feature, own_column. rewrite E.
    unfold parse_sequence_feature. rewrite Hname.
    rewrite bind_bind, !bind_lift.
    rewrite bind_bind, !bind_lift.
    by destruct (py_assert _ _). }
  destruct (own_column _ _ config self) as [[fc|e] self1] eqn:Hown;
    intros E; rewrite (Hp E), bind_run, Hown; done.
Qed.

Lemma never_own_column config :
  never_unconfigured (own_column column_ok gfile_line_count config).
Proof.
  unfold own_column, id_categorical_column.
  destruct (feature_type config); repeat never_step.
Qed.

Lemma wide_deep_tail_absent config name fc deep_action self1 :
  primary_name config = Ok name → _wide_deep_dict self1 !! name = None →
  wide_deep_tail column_ok config fc deep_action self1
  = (Raise (FeatureKeyError name), self1).
Proof.
  intros Hname Hd. unfold wide_deep_tail. rewrite bind_run.
  by rewrite (is_wide_absent _ _ name).
Qed.

(** A column that joins a sequence table: the deep and the wide table are
    not touched. *)
Lemma add_deep_of_sequence fc config name self self' :
  feature_type config = SequenceFeature →
  primary_name config = Ok name →
  _add_deep_embedding_column column_ok fc config self = (Ok (), self') →
  _deep_columns self' = _deep_columns self
  ∧ _wide_columns self' = _wide_columns self
  ∧ _wide_share_embed_columns self' = _wide_share_embed_columns self
  ∧ ∃ entry, _sequence_columns self' = <[name := entry]> (_sequence_columns self).
Proof.
  intros Hty Hname. unfold _add_deep_embedding_column, _add_shared_embedding_column.
  rewrite Hty. run_method. rewrite Hname. simpl.
  destruct (py_assert _ _); [|done].
  destruct (bool_decide (is_Some _)).
  - unfold getitem. destruct (_deep_share_embed_columns self !! _); [|done].
    simpl. intros [= <-]. simpl. by eauto.
  - unfold build. destruct (column_ok _); [|done]. simpl.
    intros [= <-]. simpl. by eauto.
Qed.

Lemma parse_sequence_registers config name self self' :
  feature_type config = SequenceFeature →
  primary_name config = Ok name →
  parse_feature column_ok gfile_line_count config self = (Ok (), self') →
  _deep_columns self' = _deep_columns self
  ∧ _wide_columns self' = _wide_columns self
  ∧ _wide_share_embed_columns self' = _wide_share_embed_columns self
  ∧ ∃ entry, _sequence_columns self' = <[name := entry]> (_sequence_columns self).
Proof.
  intros Hty Hname Hrun.
  pose proof (parse_sequence_prefix config name self Hname) as Hp.
  destruct (own_column _ _ config self) as [[fc|e] self1] eqn:Hown.
  2:{ rewrite (Hp Hty) in Hrun. done. }
  rewrite (Hp Hty) in Hrun.
  pose proof (own_column_vocab_only config self _ _ Hown) as Hs.
  unfold same_but_vocab in Hs.
  destruct (bool_decide (embedding_dim config > 0)).
  - destruct (add_deep_of_sequence fc config name self1 self' Hty Hname Hrun)
      as (Hd & Hw & Hws & entry & Hseq).
    rewrite Hd, Hw, Hws, Hseq, Hs. simpl. by eauto.
  - run_method. injection Hrun as <-. rewrite Hs. simpl. by eauto.
Qed.

(** C5, as the code has it.  Let the primary name of a feature (its
    [feature_name], or its first input name when that is unset) be absent
    from the wide/deep map.  A feature of any type but Sequence is skipped
    once its own column is built: when the statements of its parse method
    that precede the test on the map succeed, parsing it raises the
    unconfigured-feature condition and leaves the wide, deep and sequence
    tables and the shared groups as they were, and the loop of the
    constructor goes on with the remaining features; when they fail, the
    feature adds nothing either and the loop stops with their exception.
    A Sequence feature never raises the unconfigured-feature condition,
    whatever the map holds: once its column is built it goes to the plain
    or to the embedded registration, and when its parse method returns the
    feature is in the sequence table under its name and the loop goes on. *)
Theorem unconfigured_feature_skipped config rest self name :
  primary_name config = Ok name →
  (feature_type config ≠ SequenceFeature → _wide_deep_dict self !! name = None →
     (∀ fc self1, own_column column_ok gfile_line_count config self = (Ok fc, self1) →
        parse_feature column_ok gfile_line_count config self
          = (Raise (FeatureKeyError name), self1)
        ∧ tables self1 = tables self
        ∧ parse_features column_ok gfile_line_count (config :: rest) self
          = parse_features column_ok gfile_line_count rest self1)
     ∧ (∀ e self1, own_column column_ok gfile_line_count config self = (Raise e, self1) →
        parse_feature column_ok gfile_line_count config self = (Raise e, self1)
        ∧ tables self1 = tables self
        ∧ parse_features column_ok gfile_line_count (config :: rest) self
          = (Raise e, self1)))
  ∧ (feature_type config = SequenceFeature →
     (∀ r self', parse_feature column_ok gfile_line_count config self = (r, self') →
        ∀ n, r ≠ Raise (FeatureKeyError n))
     ∧ (∀ fc self1, own_column column_ok gfile_line_count config self = (Ok fc, self1) →
        parse_feature column_ok gfile_line_count config self
        = (if bool_decide (embedding_dim config > 0) then
             _add_deep_embedding_column column_ok fc config
           else
             self ← get_self;
             update (set_sequence_columns
                       (<[name := Column fc None]> (_sequence_columns self)))) self1)
     ∧ (∀ self', parse_feature column_ok gfile_line_count config self = (Ok (), self') →
        (∃ entry, _sequence_columns self' = <[name := entry]> (_sequence_columns self))
        ∧ _deep_columns self' = _deep_columns self
        ∧ _wide_columns self' = _wide_columns self
        ∧ parse_features column_ok gfile_line_count (config :: rest) self
          = parse_features column_ok gfile_line_count rest self')).
Proof.
  intros Hname. split.
  - intros Hty Hd. pose proof (parse_feature_prefix config self Hty) as Hp. split.
    + intros fc self1 Hown. rewrite Hown in Hp. destruct Hp as (da & Hrun & _).
      pose proof (own_column_vocab_only config self _ _ Hown) as Hs.
      destruct (same_but_vocab_dims _ _ Hs) as (_ & Hd1 & _).
      rewrite (wide_deep_tail_absent config name) in Hrun by (by rewrite ?Hd1).
      split; [done|]. split; [by apply same_but_vocab_tables|].
      rewrite parse_features_cons. by rewrite Hrun.
    + intros e self1 Hown. rewrite Hown in Hp.
      pose proof (own_column_vocab_only config self _ _ Hown) as Hs.
      split; [done|]. split; [by apply same_but_vocab_tables|].
      rewrite parse_features_cons, Hp.
      pose proof (never_own_column config self _ _ Hown) as Hne.
      destruct e as [n|?| |?| | |?|?|?]; try done. by destruct (Hne n).
  - intros Hty. split; [|split].
    + intros r self' Hrun. unfold parse_feature in Hrun. rewrite Hty in Hrun.
      by eapply never_parse_sequence_feature.
    + intros fc self1 Hown.
      pose proof (parse_sequence_prefix config name self Hname) as Hp.
      rewrite Hown in Hp. by apply Hp.
    + intros self' Hrun.
      destruct (parse_sequence_registers config name self self' Hty Hname Hrun)
        as (Hdc & Hwc & _ & Hseq).
      split; [done|]. split; [done|]. split; [done|].
      rewrite parse_features_cons. by rewrite Hrun.
Qed.

End Parsing.
End RegistryFacts.

(** * Properties of the preprocessor *)

Module PreprocessFacts.
Import Preprocess PreprocessSpec.

Section Preprocessing.
Context {num : Type} `{TFNum num}.
Implicit Types (fc : FeatureConfig num) (self : Input (num:=num))
  (env : Env (num:=num)) (field : DenseTensor num).

Lemma append_nonempty_ne (s t : string) : t ≠ "" → s +:+ t ≠ s.
Proof.
  intros Ht E. apply Ht. induction s as [|a s IH]; [done|].
  simpl in E. injection E. done.
Qed.

Lemma raw_proj_id_ne (s : string) : s +:+ "_raw_proj_id" ≠ s.
Proof. by apply append_nonempty_ne. Qed.

Lemma raw_proj_val_ne (s : string) : s +:+ "_raw_proj_val" ≠ s.
Proof. by apply append_nonempty_ne. Qed.

Lemma first_input_ok fc input_0 :
  input_names fc !! 0%nat = Some input_0 → subscript (input_names fc) 0 = Ok input_0.
Proof. intros E. unfold subscript. by rewrite E. Qed.

Lemma subscript_ok {A} (l : list A) i a : l !! i = Some a → subscript l i = Ok a.
Proof. intros E. unfold subscript. by rewrite E. Qed.

Lemma getitem_ok {A} (d : gmap string A) k a : d !! k = Some a → getitem d k = Ok a.
Proof. intros E. unfold getitem. by rewrite E. Qed.

Lemma bind_Ok {A B} (a : A) (f : A → result B) : (Ok a ≫= f) = f a.
Proof. done. Qed.

Lemma bind_Raise {A B} (e : exn) (f : A → result B) : (Raise e ≫= f) = Raise e.
Proof. done. Qed.


Lemma map_result_cons {A B} (f : A → result B) a l :
  map_result f (a :: l) = (b ← f a; bs ← map_result f l; Ok (b :: bs)).
Proof. done. Qed.

Lemma for_each_cons {A S} (body : A → S → result S) a l s :
  for_each body (a :: l) s = (s' ← body a s; for_each body l s').
Proof. done. Qed.

(** ** Id features with a floating field *)

(** C8.  For an Id feature with hash bucketing requested, a field of a
    floating dtype makes preprocessing fail exactly when the precision of
    the configuration is not positive; with a positive precision the field
    becomes its strings at that precision, and a field of another numeric
    dtype becomes its strings with no precision asked for. *)
Theorem id_float_to_string_needs_precision fc env input_0 field :
  input_names fc !! 0%nat = Some input_0 →
  field_dict env !! input_0 = Some field →
  is_Some (hash_bucket_size_field fc) →
  (is_floating (dtype_of (data field)) = true →
     (is_Raise (preprocess_id fc env) ↔ precision fc ≤ 0)
     ∧ (precision fc > 0 →
        ∃ env', preprocess_id fc env = Ok env'
          ∧ parsed_dict env' !! input_0
            = Some (Dense {| shape := shape field;
                             data := as_string (data field) (Some (precision fc)) |})))
  ∧ (dtype_of (data field) ∈ [tf_int32; tf_int64] →
     ∃ env', preprocess_id fc env = Ok env'
       ∧ parsed_dict env' !! input_0
         = Some (Dense {| shape := shape field;
                          data := as_string (data field) None |})).
Proof.
  intros Hin Hfield Hhash. unfold preprocess_id.
  rewrite (first_input_ok _ _ Hin), bind_Ok, (getitem_ok _ _ _ Hfield), bind_Ok.
  rewrite bool_decide_eq_true_2 by done.
  split.
  - intros Hfl. assert (dtype_of (data field) ≠ tf_string) as Hns.
    { intros E. rewrite E in Hfl. done. }
    rewrite bool_decide_eq_true_2 by done. rewrite Hfl. simpl.
    destruct (decide (precision fc > 0)) as [Hp|Hp].
    + rewrite bool_decide_eq_true_2 by done. simpl. split.
      * split; [intros [e He]; done | lia].
      * intros _. eexists; split; [done|]. simpl. by rewrite lookup_insert_eq.
    + rewrite bool_decide_eq_false_2 by done. simpl. split; [|done].
      split; [lia | intros _; by eexists].
  - intros Hd.
    assert (dtype_of (data field) ≠ tf_string
            ∧ is_floating (dtype_of (data field)) = false) as [Hns Hnf].
    { repeat (apply elem_of_cons in Hd as [Hd|Hd]; [by rewrite Hd|]).
      by apply elem_of_nil in Hd. }
    rewrite bool_decide_eq_true_2 by done. rewrite Hnf. simpl.
    eexists; split; [done|]. simpl. by rewrite lookup_insert_eq.
Qed.

(** ** The sample-weight field is not projected *)

Lemma preprocess_raw_eq self fc env input_0 field :
  input_names fc !! 0%nat = Some input_0 →
  field_dict env !! input_0 = Some field →
  preprocess_raw self fc env =
    parsed ← raw_parse fc field;
    let env := set_parsed input_0 (Dense parsed) env in
    if is_empty (boundaries fc) && bool_decide (num_buckets fc ≤ 1)
       && bool_decide (sample_weight self ≠ input_0)
    then raw_project fc input_0 parsed env else Ok env.
Proof.
  intros Hin Hfield. unfold preprocess_raw.
  by rewrite (first_input_ok _ _ Hin), bind_Ok, (getitem_ok _ _ _ Hfield), bind_Ok.
Qed.

Lemma preprocess_sequence_eq self fc env input_0 field :
  input_names fc !! 0%nat = Some input_0 →
  field_dict env !! input_0 = Some field →
  preprocess_sequence self fc env =
    parsed ← sequence_parse fc field;
    let env := set_parsed input_0 parsed env in
    if sequence_raw_unbucketed self fc input_0 && bool_decide (raw_input_dim fc = 1)
    then sequence_project_2d fc input_0 env
    else if sequence_raw_unbucketed self fc input_0 && bool_decide (raw_input_dim fc > 1)
    then sequence_project_3d fc input_0 env
    else Ok env.
Proof.
  intros Hin Hfield. unfold preprocess_sequence.
  by rewrite (first_input_ok _ _ Hin), bind_Ok, (getitem_ok _ _ _ Hfield), bind_Ok.
Qed.

(** C10.  When the input field of a Raw feature is the sample-weight field
    of the data configuration, preprocessing only stores the parsed field:
    no [_raw_proj_id] and no [_raw_proj_val] field is written or appended,
    whatever the boundaries and the number of buckets are; the same holds
    for the raw projection of a Sequence feature. *)
Theorem sample_weight_field_not_projected self fc env input_0 field :
  input_names fc !! 0%nat = Some input_0 →
  field_dict env !! input_0 = Some field →
  sample_weight_field self = Some input_0 →
  preprocess_raw self fc env
    = (parsed ← raw_parse fc field; Ok (set_parsed input_0 (Dense parsed) env))
  ∧ preprocess_sequence self fc env
    = (parsed ← sequence_parse fc field; Ok (set_parsed input_0 parsed env))
  ∧ ∀ env', preprocess_raw self fc env = Ok env'
            ∨ preprocess_sequence self fc env = Ok env' →
      _appended_fields env' = _appended_fields env
      ∧ parsed_dict env' !! (input_0 +:+ "_raw_proj_id")
        = parsed_dict env !! (input_0 +:+ "_raw_proj_id")
      ∧ parsed_dict env' !! (input_0 +:+ "_raw_proj_val")
        = parsed_dict env !! (input_0 +:+ "_raw_proj_val").
Proof.
  intros Hin Hfield Hsw.
  assert (sample_weight self = input_0) as Hsame.
  { unfold sample_weight. by rewrite Hsw. }
  assert (preprocess_raw self fc env
    = (parsed ← raw_parse fc field; Ok (set_parsed input_0 (Dense parsed) env))) as Hraw.
  { rewrite (preprocess_raw_eq _ _ _ _ _ Hin Hfield).
    rewrite (bool_decide_eq_false_2 (sample_weight self ≠ input_0)) by (by intros []).
    by rewrite !andb_false_r. }
  assert (preprocess_sequence self fc env
    = (parsed ← sequence_parse fc field; Ok (set_parsed input_0 parsed env))) as Hseq.
  { rewrite (preprocess_sequence_eq _ _ _ _ _ Hin Hfield).
    unfold sequence_raw_unbucketed.
    rewrite (bool_decide_eq_false_2 (sample_weight self ≠ input_0)) by (by intros []).
    by rewrite !andb_false_r. }
  split; [done|]. split; [done|].
  intros env' [Hrun|Hrun].
  - rewrite Hraw in Hrun. destruct (raw_parse fc field) as [parsed|]; [|done].
    injection Hrun as <-. simpl.
    by rewrite !lookup_insert_ne by (apply not_eq_sym; by apply append_nonempty_ne).
  - rewrite Hseq in Hrun. destruct (sequence_parse fc field) as [parsed|]; [|done].
    injection Hrun as <-. simpl.
    by rewrite !lookup_insert_ne by (apply not_eq_sym; by apply append_nonempty_ne).
Qed.

(** ** The raw projection *)

Lemma tile_rows_lookup n d (i j : nat) :
  Z.of_nat i < n → Z.of_nat j < d →
  tile_rows n d !! (i * Z.to_nat d + j)%nat = Some (Z.of_nat i).
Proof.
  intros Hi Hj. unfold tile_rows.
  apply join_lookup_Some_same_length'; [|lia|].
  - apply Forall_fmap, Forall_forall. intros x _. simpl. apply length_replicate.
  - exists (replicate (Z.to_nat d) (Z.of_nat i)). split.
    + rewrite list_lookup_fmap, lookup_seqZ_lt by done. done.
    + apply lookup_replicate_2. lia.
Qed.

Lemma tile_cols_lookup n d (i j : nat) :
  Z.of_nat i < n → Z.of_nat j < d →
  tile_cols n d !! (i * Z.to_nat d + j)%nat = Some (Z.of_nat j).
Proof.
  intros Hi Hj. unfold tile_cols.
  apply join_lookup_Some_same_length'; [|lia|].
  - apply Forall_forall. intros x Hx%elem_of_replicate. destruct Hx as [-> _].
    apply length_seqZ.
  - exists (seqZ 0 d). split.
    + apply lookup_replicate_2. lia.
    + rewrite lookup_seqZ_lt by done. done.
Qed.

Lemma length_tile_rows n d :
  length (tile_rows n d) = (Z.to_nat n * Z.to_nat d)%nat.
Proof.
  unfold tile_rows. rewrite length_join, <- list_fmap_compose.
  rewrite (sum_list_fmap_same (Z.to_nat d)).
  - by rewrite length_seqZ.
  - apply Forall_forall. intros x _. simpl. apply length_replicate.
Qed.

Lemma length_tile_cols n d :
  length (tile_cols n d) = (Z.to_nat n * Z.to_nat d)%nat.
Proof.
  unfold tile_cols. rewrite length_join.
  rewrite (sum_list_fmap_same (Z.to_nat d)).
  - by rewrite length_replicate.
  - apply Forall_forall. intros x Hx%elem_of_replicate. destruct Hx as [-> _].
    apply length_seqZ.
Qed.

Lemma grid_lookup n d (i j : nat) :
  Z.of_nat i < n → Z.of_nat j < d →
  concat_columns (tile_rows n d) (tile_cols n d) !! (i * Z.to_nat d + j)%nat
    = Some [Z.of_nat i; Z.of_nat j].
Proof.
  intros Hi Hj. unfold concat_columns.
  by rewrite lookup_zip_with, tile_rows_lookup, tile_cols_lookup.
Qed.

Lemma length_grid n d :
  length (concat_columns (tile_rows n d) (tile_cols n d))
    = (Z.to_nat n * Z.to_nat d)%nat.
Proof.
  unfold concat_columns.
  rewrite length_zip_with, length_tile_rows, length_tile_cols. lia.
Qed.

Lemma flat_index_2d n d i j :
  0 ≤ i < n → 0 ≤ j < d → flat_index [n; d] [i; j] = Some (i * d + j).
Proof.
  intros Hi Hj. simpl. rewrite !bool_decide_eq_true_2 by done. simpl.
  f_equal. unfold shape_size. simpl. lia.
Qed.

Lemma mapM_grid n d :
  mapM (flat_index [n; d]) (concat_columns (tile_rows n d) (tile_cols n d))
    = Some (seqZ 0 (Z.of_nat (Z.to_nat n * Z.to_nat d))).
Proof.
  apply mapM_Some. apply Forall2_same_length_lookup. split.
  { rewrite length_grid, length_seqZ. lia. }
  intros k x y Hx Hy.
  assert (k < Z.to_nat n * Z.to_nat d)%nat as Hk.
  { apply lookup_lt_Some in Hx. by rewrite length_grid in Hx. }
  assert (0 < Z.to_nat d)%nat as Hd by nia.
  pose proof (Nat.div_mod_eq k (Z.to_nat d)) as Hdiv.
  pose proof (Nat.mod_upper_bound k (Z.to_nat d)) as Hmod.
  assert (k `div` Z.to_nat d < Z.to_nat n)%nat as Hq.
  { apply Nat.Div0.div_lt_upper_bound. lia. }
  assert (k = (k `div` Z.to_nat d) * Z.to_nat d + k `mod` Z.to_nat d)%nat as Hk' by lia.
  rewrite Hk' in Hx. rewrite grid_lookup in Hx by lia. injection Hx as <-.
  apply lookup_seqZ in Hy as [-> _].
  rewrite flat_index_2d by lia. f_equal. nia.
Qed.

Lemma strictly_increasing_seqZ s m : strictly_increasing (seqZ s m) = true.
Proof.
  remember (Z.to_nat m) as k eqn:Hk. revert s m Hk.
  induction k as [|k IH]; intros s m Hk.
  { rewrite seqZ_nil by lia. done. }
  rewrite seqZ_cons by lia. specialize (IH (Z.succ s) (Z.pred m) ltac:(lia)).
  destruct (decide (0 < Z.pred m)) as [Hp|Hp].
  - rewrite seqZ_cons in IH |- * by done. simpl in *.
    rewrite bool_decide_eq_true_2 by lia. done.
  - rewrite seqZ_nil by lia. done.
Qed.

Lemma foldr_insert_seq {A} (vals base : list A) (s : nat) :
  (s + length vals ≤ length base)%nat →
  foldr (λ '(p, v) acc, <[Z.to_nat p := v]> acc) base
    (zip (seqZ (Z.of_nat s) (Z.of_nat (length vals))) vals)
  = take s base ++ vals ++ drop (s + length vals) base.
Proof.
  revert s. induction vals as [|v vals IH]; intros s Hlen; simpl in *.
  { rewrite Nat.add_0_r. by rewrite take_drop. }
  rewrite seqZ_cons by lia. simpl.
  replace (Z.succ (Z.of_nat s)) with (Z.of_nat (S s)) by lia.
  replace (Z.pred (Z.of_nat (S (length vals))))
    with (Z.of_nat (length vals)) by lia.
  rewrite IH by lia. rewrite Nat2Z.id.
  destruct (lookup_lt_is_Some_2 base s ltac:(lia)) as [b Hb].
  rewrite (take_S_r _ _ _ Hb), <- app_assoc.
  rewrite insert_app_r_alt by (rewrite length_take; lia).
  rewrite length_take. replace (s - s `min` length base)%nat with 0%nat by lia.
  simpl. replace (S (s + length vals)) with (s + S (length vals))%nat by lia.
  done.
Qed.

Lemma scatter_grid {A} n d (vals : list A) (default_value : A) :
  length vals = (Z.to_nat n * Z.to_nat d)%nat →
  0 ≤ n → 0 ≤ d →
  scatter (concat_columns (tile_rows n d) (tile_cols n d)) [n; d] vals default_value
    = Ok vals.
Proof.
  intros Hlen Hn Hd. unfold scatter. rewrite mapM_grid.
  rewrite strictly_increasing_seqZ. simpl.
  rewrite bool_decide_eq_true_2 by (rewrite length_seqZ; lia). simpl.
  f_equal. rewrite <- Hlen.
  rewrite (foldr_insert_seq vals _ 0).
  - simpl. rewrite drop_ge, app_nil_r; [done|].
    rewrite length_replicate. unfold shape_size. simpl. lia.
  - rewrite length_replicate. unfold shape_size. simpl. lia.
Qed.

Lemma sparse_to_dense_grid n d (v : Values num) :
  num_values v = (Z.to_nat n * Z.to_nat d)%nat →
  0 ≤ n → 0 ≤ d →
  sparse_to_dense (concat_columns (tile_rows n d) (tile_cols n d)) [n; d] v
    = Ok {| shape := [n; d]; data := v |}.
Proof.
  intros Hlen Hn Hd. unfold sparse_to_dense.
  destruct v; simpl in Hlen; by rewrite scatter_grid.
Qed.

Lemma append_inj_l (s a b : string) : s +:+ a = s +:+ b → a = b.
Proof. induction s as [|c s IH]; simpl; [done|]. intros [= E]. by apply IH. Qed.

Lemma raw_proj_keys_ne (s : string) : s +:+ "_raw_proj_val" ≠ s +:+ "_raw_proj_id".
Proof. intros E. by apply append_inj_l in E. Qed.

(** A [float32] field that is not normalised is parsed to itself, and the
    parsing of a numeric field cannot fail. *)
Lemma raw_parse_float32 fc field :
  dtype_of (data field) = tf_float32 → num_ltb (min_val fc) (max_val fc) = false →
  raw_parse fc field = Ok field.
Proof.
  intros Hd Hn. unfold raw_parse. rewrite Hd, Hn. simpl.
  destruct field as [sh [| | | |l|]]; try done.
Qed.

Lemma raw_parse_numeric fc field :
  is_numeric (dtype_of (data field)) = true → is_Ok (raw_parse fc field).
Proof.
  intros Hd. unfold raw_parse.
  destruct field as [sh [l|l|l|l|l|l]]; try done; simpl;
    destruct (num_ltb _ _); simpl; by eexists.
Qed.

(** C3, as the code has it.  For a Raw feature with no boundaries and at
    most one bucket whose input is not the sample-weight field,
    preprocessing stores the parsed field (the numeric value of the input,
    normalised when [max_val > min_val]) and appends two sparse containers
    over the full grid of (example, position) indices: [_raw_proj_id],
    whose value at (i, j) is j, so that the ids of every example are
    0, ..., d-1 in order, and [_raw_proj_val], whose values are the entries
    of the parsed field in the same order.  Scattering the values at their
    indices gives the parsed field back, and the parsed field is the input
    itself when the input is a [float32] tensor that is not normalised. *)
Theorem raw_projection_invariant self fc env input_0 field parsed n :
  input_names fc !! 0%nat = Some input_0 →
  field_dict env !! input_0 = Some field →
  boundaries fc = [] → num_buckets fc ≤ 1 → sample_weight self ≠ input_0 →
  raw_parse fc field = Ok parsed →
  shape parsed !! 0%nat = Some n →
  ∃ env' grid ids,
    preprocess_raw self fc env = Ok env'
    ∧ parsed_dict env' !! input_0 = Some (Dense parsed)
    ∧ _appended_fields env'
      = _appended_fields env
          ++ [input_0 +:+ "_raw_proj_id"; input_0 +:+ "_raw_proj_val"]
    ∧ parsed_dict env' !! (input_0 +:+ "_raw_proj_id")
      = Some (Sparse {| indices := grid; values := VInt64 ids;
                        dense_shape := [n; raw_input_dim fc] |})
    ∧ parsed_dict env' !! (input_0 +:+ "_raw_proj_val")
      = Some (Sparse {| indices := grid; values := data parsed;
                        dense_shape := [n; raw_input_dim fc] |})
    ∧ length grid = (Z.to_nat n * Z.to_nat (raw_input_dim fc))%nat
    ∧ length ids = (Z.to_nat n * Z.to_nat (raw_input_dim fc))%nat
    ∧ (∀ i j : nat, Z.of_nat i < n → Z.of_nat j < raw_input_dim fc →
         grid !! (i * Z.to_nat (raw_input_dim fc) + j)%nat
           = Some [Z.of_nat i; Z.of_nat j]
         ∧ ids !! (i * Z.to_nat (raw_input_dim fc) + j)%nat = Some (Z.of_nat j))
    ∧ (0 ≤ n → 0 ≤ raw_input_dim fc →
       num_values (data parsed) = (Z.to_nat n * Z.to_nat (raw_input_dim fc))%nat →
       sparse_to_dense grid [n; raw_input_dim fc] (data parsed)
         = Ok {| shape := [n; raw_input_dim fc]; data := data parsed |})
    ∧ (dtype_of (data field) = tf_float32 →
       num_ltb (min_val fc) (max_val fc) = false → parsed = field).
Proof.
  intros Hin Hfield Hb Hnb Hsw Hparse Hn.
  exists (append_field (input_0 +:+ "_raw_proj_val")
            (append_field (input_0 +:+ "_raw_proj_id")
               (set_parsed (input_0 +:+ "_raw_proj_val")
                  (Sparse {| indices := concat_columns (tile_rows n (raw_input_dim fc))
                                          (tile_cols n (raw_input_dim fc));
                             values := data parsed;
                             dense_shape := [n; raw_input_dim fc] |})
                  (set_parsed (input_0 +:+ "_raw_proj_id")
                     (Sparse {| indices := concat_columns (tile_rows n (raw_input_dim fc))
                                             (tile_cols n (raw_input_dim fc));
                                values := VInt64 (tile_cols n (raw_input_dim fc));
                                dense_shape := [n; raw_input_dim fc] |})
                     (set_parsed input_0 (Dense parsed) env))))),
    (concat_columns (tile_rows n (raw_input_dim fc)) (tile_cols n (raw_input_dim fc))),
    (tile_cols n (raw_input_dim fc)).
  split.
  { rewrite (preprocess_raw_eq _ _ _ _ _ Hin Hfield), Hparse, bind_Ok. simpl.
    rewrite Hb. simpl. rewrite !bool_decide_eq_true_2 by done. simpl.
    unfold raw_project, subscript. rewrite Hn. done. }
  pose proof (raw_proj_id_ne input_0). pose proof (raw_proj_val_ne input_0).
  pose proof (raw_proj_keys_ne input_0).
  split; [simpl; by rewrite !lookup_insert_ne by done; rewrite lookup_insert_eq|].
  split; [simpl; by rewrite <- app_assoc|].
  split; [simpl; by rewrite lookup_insert_ne by done; rewrite lookup_insert_eq|].
  split; [simpl; by rewrite lookup_insert_eq|].
  split; [apply length_grid|]. split; [apply length_tile_cols|].
  split; [intros i j Hi Hj; by rewrite grid_lookup, tile_cols_lookup|].
  split; [intros; by apply sparse_to_dense_grid|].
  intros Hd Hnorm. rewrite raw_parse_float32 in Hparse by done. congruence.
Qed.

(** ** Tag features with a key-value separator *)

Lemma string_split_vector (t : DenseTensor num) strs delimiter skip_empty n :
  data t = VString strs → shape t = [n] →
  string_split t delimiter skip_empty
    = Ok (ragged_to_sparse (split_element delimiter skip_empty <$> strs)).
Proof. intros Hd Hs. unfold string_split. rewrite Hd, Hs. done. Qed.

Lemma parse_all_Forall2 {A} (f : string → option A) l ws :
  Forall2 (λ s w, f s = Some w) l ws → parse_all f l = Ok ws.
Proof.
  unfold parse_all. induction 1 as [|s w l ws Hs _ IH]; simpl; [done|].
  rewrite Hs, bind_Ok, IH. done.
Qed.









(** ** Sequences of multi-valued steps *)

Lemma map_result_app {A B} (f : A → result B) l1 l2 :
  map_result f (l1 ++ l2)
  = (a ← map_result f l1; b ← map_result f l2; Ok (a ++ b)).
Proof.
  induction l1 as [|x l1 IH]; simpl.
  - by destruct (map_result f l2).
  - destruct (f x); simpl; [|done]. rewrite IH.
    destruct (map_result f l1); simpl; [|done].
    by destruct (map_result f l2).
Qed.

Lemma gather_replicate (all : list (list Z)) (k : nat) p n :
  all !! k = Some p →
  gather_rows all (replicate n (Z.of_nat k)) = Ok (replicate n p).
Proof.
  intros Hk. unfold gather_rows. induction n as [|n IH]; simpl; [done|].
  rewrite bool_decide_eq_true_2 by lia.
  rewrite Nat2Z.id, (subscript_ok _ _ _ Hk), bind_Ok. by rewrite IH.
Qed.

Lemma heads_of_block (k : nat) s n :
  (λ ix, default 0 (head ix)) <$> ((λ j, [Z.of_nat k; Z.of_nat j]) <$> seq s n)
  = replicate n (Z.of_nat k).
Proof. revert s. induction n as [|n IH]; intros s; simpl; [done|]. by rewrite IH. Qed.

Lemma ragged_indices_from_cons {A} k (r : list A) rows :
  ragged_indices_from k (r :: rows)
  = ((λ j, [Z.of_nat k; Z.of_nat j]) <$> seq 0 (length r))
      ++ ragged_indices_from (S k) rows.
Proof.
  unfold ragged_indices_from. csimpl. rewrite Nat.add_0_r. f_equal. f_equal.
  apply imap_ext. intros i x _. simpl.
  by replace (k + S i)%nat with (S (k + i)) by lia.
Qed.

Lemma gather_ragged {A} (all : list (list Z)) (rows : list (list A)) k :
  length (drop k all) = length rows →
  gather_rows all ((λ ix, default 0 (head ix)) <$> ragged_indices_from k rows)
  = Ok (mjoin (zip_with (λ pidx row, replicate (length row) pidx) (drop k all) rows)).
Proof.
  revert k. induction rows as [|r rows IH]; intros k Hlen.
  { destruct (drop k all); done. }
  destruct (drop k all) as [|p rest] eqn:Hdrop; [done|].
  assert (all !! k = Some p) as Hk.
  { rewrite <- (Nat.add_0_r k), <- lookup_drop. by rewrite Hdrop. }
  assert (drop (S k) all = rest) as Hrest.
  { rewrite <- Nat.add_1_r, <- drop_drop, Hdrop. done. }
  rewrite ragged_indices_from_cons, fmap_app, heads_of_block.
  unfold gather_rows in *. rewrite map_result_app.
  pose proof (gather_replicate all k p (length r) Hk) as Hg. unfold gather_rows in Hg.
  rewrite Hg, bind_Ok. rewrite IH by (rewrite Hrest; simpl in Hlen; lia).
  rewrite bind_Ok, Hrest. done.
Qed.

Lemma zip_inherit_block (p : list Z) (k : nat) s n :
  zip_with (λ a b : list Z, a ++ tail b) (replicate n p)
    ((λ j, [Z.of_nat k; Z.of_nat j]) <$> seq s n)
  = (λ q, p ++ [Z.of_nat q]) <$> seq s n.
Proof. revert s. induction n as [|n IH]; intros s; simpl; [done|]. by rewrite IH. Qed.

Lemma zip_inherit {A} (pidxs : list (list Z)) (rows : list (list A)) k :
  zip_with (λ a b : list Z, a ++ tail b)
    (mjoin (zip_with (λ pidx row, replicate (length row) pidx) pidxs rows))
    (ragged_indices_from k rows)
  = mjoin (zip_with (λ pidx row, (λ q, pidx ++ [Z.of_nat q]) <$> seq 0 (length row))
             pidxs rows).
Proof.
  revert pidxs k. induction rows as [|r rows IH]; intros pidxs k.
  { by destruct pidxs. }
  destruct pidxs as [|p pidxs]; csimpl.
  { done. }
  rewrite ragged_indices_from_cons, zip_with_app.
  - by rewrite zip_inherit_block, IH.
  - by rewrite length_replicate, length_fmap, length_seq.
Qed.

(** C6.  The second split of a sequence feature keeps, for every inner
    token, the coordinates of the token it was split from and adds the
    position of the inner token within that split as the last coordinate:
    the indices of the result are, parent token by parent token and in
    order, the index of the parent followed by 0, 1, ...; so the row of an
    inner token is the row of its parent and rows are never renumbered.
    The values are the inner tokens in the same order and the dense shape
    is the shape of the parent followed by the largest number of inner
    tokens. *)
Theorem seq_multi_split_inherits_parent (parent : SparseTensor num) multi_sep toks :
  values parent = VString toks →
  length (indices parent) = length toks →
  ∃ out,
    seq_multi_split parent multi_sep = Ok out
    ∧ indices out
      = mjoin (zip_with (λ pidx row, (λ q, pidx ++ [Z.of_nat q]) <$> seq 0 (length row))
                 (indices parent) (split_element multi_sep true <$> toks))
    ∧ values out = VString (mjoin (split_element multi_sep true <$> toks))
    ∧ dense_shape out
      = dense_shape parent ++ [max_row_length (split_element multi_sep true <$> toks)]
    ∧ ∀ idx, idx ∈ indices out →
        ∃ (p q : nat) pidx tok inner,
          indices parent !! p = Some pidx ∧ toks !! p = Some tok
          ∧ split_element multi_sep true tok !! q = Some inner
          ∧ idx = pidx ++ [Z.of_nat q].
Proof.
  intros Hv Hlen. set (rows := split_element multi_sep true <$> toks).
  assert (seq_multi_split parent multi_sep
    = Ok {| indices := mjoin (zip_with
                         (λ pidx row, (λ q, pidx ++ [Z.of_nat q]) <$> seq 0 (length row))
                         (indices parent) rows);
            values := VString (mjoin rows);
            dense_shape := dense_shape parent ++ [max_row_length rows] |}) as Hrun.
  { unfold seq_multi_split.
    rewrite (string_split_vector _ toks _ _ (Z.of_nat (length toks)))
      by (by rewrite Hv).
    rewrite bind_Ok. fold rows. simpl.
    change (ragged_indices rows) with (ragged_indices_from 0 rows).
    rewrite (gather_ragged (indices parent) rows 0)
      by (unfold rows; by rewrite drop_0, Hlen, length_fmap).
    rewrite bind_Ok, drop_0, zip_inherit. done. }
  eexists. split; [exact Hrun|]. simpl. do 3 (split; [done|]).
  intros idx Hidx. apply list_elem_of_join in Hidx as (blk & Hidx & Hblk).
  apply elem_of_lookup_zip_with in Hblk as (p & pidx & row & -> & Hp & Hrow).
  apply list_elem_of_fmap in Hidx as (q & -> & Hq).
  unfold rows in Hrow. rewrite list_lookup_fmap in Hrow.
  destruct (toks !! p) as [tok|] eqn:Htok; [|done]. injection Hrow as <-.
  apply elem_of_seq in Hq.
  destruct (lookup_lt_is_Some_2 (split_element multi_sep true tok) q ltac:(lia))
    as [inner Hinner].
  by exists p, q, pidx, tok, inner.
Qed.

(** ** Labels *)

Lemma enumerate_snd {A} (l : list A) : (enumerate l).*2 = l.
Proof.
  unfold enumerate.
  enough (∀ g : nat → nat, (imap (λ i a, (g i, a)) l).*2 = l) as Hg by apply (Hg id).
  induction l as [|a l IH]; intros g; csimpl; [done|]. f_equal. apply (IH (g ∘ S)).
Qed.

Lemma elem_of_enumerate {A} (l : list A) i a :
  (i, a) ∈ enumerate l ↔ l !! i = Some a.
Proof.
  unfold enumerate. rewrite elem_of_lookup_imap. split.
  - by intros (j & b & [= -> ->] & Hl).
  - intros Hl. by exists i, a.
Qed.

Lemma preprocess_label_present self i name field env :
  field_dict env !! name = Some field →
  preprocess_label self (i, name) env
  = (parsed ← parse_label self i field; Ok (set_parsed name (Dense parsed) env)).
Proof. intros Hf. unfold preprocess_label. by rewrite Hf. Qed.

Lemma preprocess_label_absent self i name env :
  field_dict env !! name = None → preprocess_label self (i, name) env = Ok env.
Proof. intros Hf. unfold preprocess_label. by rewrite Hf. Qed.

(** The loop over the labels: what it leaves in [parsed_dict]. *)
Lemma labels_loop_output self (labels : list (nat * string)) : ∀ env env',
  NoDup labels.*2 →
  for_each (preprocess_label self) labels env = Ok env' →
  field_dict env' = field_dict env
  ∧ _appended_fields env' = _appended_fields env
  ∧ (∀ k, k ∉ labels.*2 → parsed_dict env' !! k = parsed_dict env !! k)
  ∧ (∀ i name field, (i, name) ∈ labels → field_dict env !! name = Some field →
       ∃ parsed, parse_label self i field = Ok parsed
                 ∧ parsed_dict env' !! name = Some (Dense parsed)).
Proof.
  induction labels as [|[i name] labels IH]; intros env env' Hnd Hrun.
  { injection Hrun as <-. repeat split; try done.
    intros i name field Hin. by apply elem_of_nil in Hin. }
  apply NoDup_cons in Hnd as [Hfresh Hnd]. rewrite for_each_cons in Hrun.
  destruct (preprocess_label self (i, name) env) as [env1|] eqn:Hstep; [|done].
  rewrite bind_Ok in Hrun.
  destruct (IH env1 env' Hnd Hrun) as (Hfd & Hap & Hother & Hlab).
  assert (field_dict env1 = field_dict env ∧ _appended_fields env1 = _appended_fields env
          ∧ (∀ k, k ≠ name → parsed_dict env1 !! k = parsed_dict env !! k)
          ∧ (∀ field, field_dict env !! name = Some field →
               ∃ parsed, parse_label self i field = Ok parsed
                         ∧ parsed_dict env1 !! name = Some (Dense parsed)))
    as (Hfd1 & Hap1 & Hother1 & Hlab1).
  { destruct (field_dict env !! name) as [field|] eqn:Hf.
    - rewrite (preprocess_label_present _ _ _ _ _ Hf) in Hstep.
      destruct (parse_label self i field) as [parsed|] eqn:Hp; [|done].
      injection Hstep as <-. simpl. repeat split; try done.
      + intros k Hk. by rewrite lookup_insert_ne.
      + intros ? [= <-]. exists parsed. split; [done|]. by rewrite lookup_insert_eq.
    - rewrite (preprocess_label_absent _ _ _ _ Hf) in Hstep. injection Hstep as <-.
      repeat split; done. }
  split; [congruence|]. split; [congruence|]. split.
  - intros k Hk. simpl in Hk. rewrite not_elem_of_cons in Hk. destruct Hk as [Hk1 Hk2].
    rewrite Hother by done. by apply Hother1.
  - intros j name' field Hin Hf. apply elem_of_cons in Hin as [[= -> ->]|Hin].
    + destruct (Hlab1 field Hf) as (parsed & Hp & Hd). exists parsed.
      split; [done|]. by rewrite Hother.
    + apply (Hlab j name' field Hin). by rewrite Hfd1.
Qed.

(** The loop succeeds when every label that is present can be parsed. *)
Lemma labels_loop_succeeds self (labels : list (nat * string)) : ∀ env,
  (∀ i name field, (i, name) ∈ labels → field_dict env !! name = Some field →
     is_Ok (parse_label self i field)) →
  is_Ok (for_each (preprocess_label self) labels env).
Proof.
  induction labels as [|[i name] labels IH]; intros env Hok.
  { by eexists. }
  rewrite for_each_cons.
  destruct (field_dict env !! name) as [field|] eqn:Hf.
  - rewrite (preprocess_label_present _ _ _ _ _ Hf).
    destruct (Hok i name field ltac:(left) Hf) as [parsed ->]. rewrite !bind_Ok.
    apply IH. intros j name' field' Hin Hf'. apply (Hok j name' field'); [by right|done].
  - rewrite (preprocess_label_absent _ _ _ _ Hf), bind_Ok.
    apply IH. intros j name' field' Hin Hf'. apply (Hok j name' field'); [by right|done].
Qed.

Lemma string_to_float32_ok strs ws :
  Forall2 (λ s w, string_to_float32 s = Some w) strs ws →
  string_to_number (VString strs) tf_float32 = Ok (VFloat32 ws).
Proof.
  intros Hws. unfold string_to_number. simpl. by rewrite (parse_all_Forall2 _ _ _ Hws).
Qed.

(** A string label of dimension at most 1 is parsed element by element. *)
Lemma parse_label_string_scalar self i field dim strs ws :
  data field = VString strs → _label_dim self !! i = Some dim → dim ≤ 1 →
  Forall2 (λ s w, string_to_float32 s = Some w) strs ws →
  parse_label self i field = Ok {| shape := shape field; data := VFloat32 ws |}.
Proof.
  intros Hd Hdim Hle Hws. unfold parse_label. rewrite Hd. simpl.
  rewrite (subscript_ok _ _ _ Hdim), bind_Ok.
  rewrite bool_decide_eq_false_2 by lia. rewrite bind_Ok, Hd.
  by rewrite (string_to_float32_ok _ _ Hws).
Qed.

(** A string label of dimension [dim > 1] is split on its separator,
    reshaped to rows of [dim] values and then parsed. *)
Lemma parse_label_string_vector self i field dim sep strs n ws :
  data field = VString strs → shape field = [n] →
  _label_dim self !! i = Some dim → dim > 1 →
  _label_sep self !! i = Some sep →
  Z.of_nat (length (mjoin (split_element sep true <$> strs))) `mod` dim = 0 →
  Forall2 (λ s w, string_to_float32 s = Some w)
    (mjoin (split_element sep true <$> strs)) ws →
  parse_label self i field
  = Ok {| shape := [Z.of_nat (length (mjoin (split_element sep true <$> strs)))
                      `div` dim; dim];
          data := VFloat32 ws |}.
Proof.
  intros Hd Hs Hdim Hgt Hsep Hmod Hws. unfold parse_label. rewrite Hd. simpl.
  rewrite (subscript_ok _ _ _ Hdim), bind_Ok.
  rewrite bool_decide_eq_true_2 by done.
  rewrite (subscript_ok _ _ _ Hsep), bind_Ok.
  rewrite (string_split_vector _ strs _ _ n) by done. rewrite bind_Ok.
  unfold reshape_rows. simpl. rewrite bool_decide_eq_true_2 by (split; [lia|done]).
  rewrite bind_Ok. simpl. by rewrite (string_to_float32_ok _ _ Hws).
Qed.

(** A numeric label is passed through as it is, with its dtype. *)
Lemma parse_label_numeric self i field :
  is_numeric (dtype_of (data field)) = true → parse_label self i field = Ok field.
Proof.
  intros Hn. unfold parse_label.
  rewrite bool_decide_eq_false_2 by (intros E; by rewrite E in Hn).
  by rewrite Hn.
Qed.

Lemma parse_label_other self i field :
  dtype_of (data field) = tf_bool → is_Raise (parse_label self i field).
Proof.
  intros Hb. unfold parse_label. rewrite Hb. simpl. by eexists.
Qed.

Lemma parse_all_inv {A} (f : string → option A) l ws :
  parse_all f l = Ok ws → Forall2 (λ s w, f s = Some w) l ws.
Proof.
  unfold parse_all. revert ws. induction l as [|s l IH]; intros ws; simpl.
  { intros [= <-]. constructor. }
  destruct (f s) as [w|] eqn:Hs; [|done]. rewrite bind_Ok.
  destruct (map_result _ l) as [ws'|]; [|done]. rewrite bind_Ok.
  intros [= <-]. constructor; [done|]. by apply IH.
Qed.

(** The result of [tf.string_to_number(t, tf.float32)] on a tensor. *)
Lemma string_to_float32_inv (t parsed : DenseTensor num) :
  (v ← string_to_number (data t) tf_float32; Ok {| shape := shape t; data := v |})
    = Ok parsed →
  ∃ strs ws, data t = VString strs
    ∧ Forall2 (λ s w, string_to_float32 s = Some w) strs ws
    ∧ parsed = {| shape := shape t; data := VFloat32 ws |}.
Proof.
  unfold string_to_number. intros Ht.
  destruct (data t) as [| |strs| | |] eqn:Hd; simpl in Ht; try done.
  destruct (parse_all string_to_float32 strs) as [ws|] eqn:Hp; simpl in Ht; [|done].
  injection Ht as <-. exists strs, ws. split; [done|]. split; [|done].
  by apply parse_all_inv.
Qed.

(** What a parsed label is, read off a successful parse. *)
Lemma parse_label_inv self i field parsed :
  parse_label self i field = Ok parsed →
  (dtype_of (data field) = tf_string →
     ∃ dim tokens ws,
       _label_dim self !! i = Some dim
       ∧ parsed = {| shape := shape parsed; data := VFloat32 ws |}
       ∧ Forall2 (λ s w, string_to_float32 s = Some w) tokens ws
       ∧ (dim ≤ 1 → data field = VString tokens ∧ shape parsed = shape field)
       ∧ (dim > 1 →
          ∃ sep sp, _label_sep self !! i = Some sep
            ∧ string_split field sep true = Ok sp
            ∧ values sp = VString tokens
            ∧ shape parsed = [Z.of_nat (length tokens) `div` dim; dim]))
  ∧ (dtype_of (data field) ≠ tf_string →
     parsed = field ∧ is_numeric (dtype_of (data field)) = true).
Proof.
  unfold parse_label. intros Hrun. split.
  - intros Hd. rewrite Hd in Hrun. simpl in Hrun. unfold subscript in Hrun.
    destruct (_label_dim self !! i) as [dim|] eqn:Hdim; [|done].
    rewrite bind_Ok in Hrun. exists dim.
    case_bool_decide as Hgt.
    + destruct (_label_sep self !! i) as [sep|] eqn:Hsep; [|done].
      rewrite bind_Ok in Hrun.
      destruct (string_split field sep true) as [sp|] eqn:Hsp; [|done].
      rewrite bind_Ok in Hrun.
      unfold reshape_rows in Hrun. case_bool_decide; [|done]. rewrite bind_Ok in Hrun.
      apply string_to_float32_inv in Hrun as (tokens & ws & Hv & Hws & ->).
      simpl in Hv. exists tokens, ws. split; [done|]. split; [done|]. split; [done|].
      split; [lia|]. intros _. exists sep, sp. split; [done|]. split; [done|].
      split; [done|]. simpl. by rewrite Hv.
    + rewrite bind_Ok in Hrun.
      apply string_to_float32_inv in Hrun as (tokens & ws & Hv & Hws & ->).
      exists tokens, ws. split; [done|]. split; [done|]. split; [done|].
      split; [done|]. lia.
  - intros Hd. rewrite bool_decide_eq_false_2 in Hrun by done.
    unfold py_assert in Hrun. destruct (is_numeric _); [|done].
    by injection Hrun as <-.
Qed.

(** C9, as the code has it.  Every configured label that is present in the
    batch is stored in the output.  A string label is parsed to [float32]:
    with a dimension of at most 1 its values are the numbers its strings
    denote, in order and in the shape of the field; with a dimension above
    1 it is first split on its separator and reshaped to rows of
    [label_dim] values, and its values are the numbers the tokens denote.
    A label that is already numeric ([float32], [double], [int32] or
    [int64]) is passed through unchanged, so an integer label stays an
    integer; any other dtype fails. *)
Theorem labels_parsed_or_passed_through self env :
  NoDup (_label_fields self) →
  (∀ i name field, _label_fields self !! i = Some name →
     field_dict env !! name = Some field → is_Ok (parse_label self i field)) →
  (∃ env',
     preprocess_labels self env = Ok env'
     ∧ ∀ i name field, _label_fields self !! i = Some name →
         field_dict env !! name = Some field →
         ∃ parsed,
           parsed_dict env' !! name = Some (Dense parsed)
           ∧ (dtype_of (data field) = tf_string →
                ∃ dim tokens ws,
                  _label_dim self !! i = Some dim
                  ∧ parsed = {| shape := shape parsed; data := VFloat32 ws |}
                  ∧ Forall2 (λ s w, string_to_float32 s = Some w) tokens ws
                  ∧ (dim ≤ 1 →
                     data field = VString tokens ∧ shape parsed = shape field)
                  ∧ (dim > 1 →
                     ∃ sep sp, _label_sep self !! i = Some sep
                       ∧ string_split field sep true = Ok sp
                       ∧ values sp = VString tokens
                       ∧ shape parsed = [Z.of_nat (length tokens) `div` dim; dim]))
           ∧ (dtype_of (data field) ≠ tf_string →
                parsed = field ∧ is_numeric (dtype_of (data field)) = true))
  ∧ (∀ i field dim strs ws,
       data field = VString strs → _label_dim self !! i = Some dim → dim ≤ 1 →
       Forall2 (λ s w, string_to_float32 s = Some w) strs ws →
       parse_label self i field = Ok {| shape := shape field; data := VFloat32 ws |})
  ∧ (∀ i field dim sep strs n ws,
       data field = VString strs → shape field = [n] →
       _label_dim self !! i = Some dim → dim > 1 →
       _label_sep self !! i = Some sep →
       Z.of_nat (length (mjoin (split_element sep true <$> strs))) `mod` dim = 0 →
       Forall2 (λ s w, string_to_float32 s = Some w)
         (mjoin (split_element sep true <$> strs)) ws →
       parse_label self i field
       = Ok {| shape := [Z.of_nat (length (mjoin (split_element sep true <$> strs)))
                           `div` dim; dim];
               data := VFloat32 ws |})
  ∧ (∀ i field, is_numeric (dtype_of (data field)) = true →
       parse_label self i field = Ok field)
  ∧ (∀ i field, dtype_of (data field) = tf_bool →
       is_Raise (parse_label self i field)).
Proof.
  intros Hnd Hok. split; [|split; [|split; [|split]]].
  - assert (NoDup (enumerate (_label_fields self)).*2) as Hnd'
      by (by rewrite enumerate_snd).
    destruct (labels_loop_succeeds self (enumerate (_label_fields self)) env)
      as [env' Hrun].
    { intros i name field Hin. apply Hok. by apply elem_of_enumerate. }
    exists env'. split; [done|].
    destruct (labels_loop_output self _ env env' Hnd' Hrun) as (_ & _ & _ & Hlab).
    intros i name field Hi Hf.
    destruct (Hlab i name field) as (parsed & Hp & Hd); [by apply elem_of_enumerate|done|].
    exists parsed. split; [done|]. by apply parse_label_inv.
  - intros. by eapply parse_label_string_scalar.
  - intros. by eapply parse_label_string_vector.
  - intros. by apply parse_label_numeric.
  - intros. by apply parse_label_other.
Qed.

(** ** Lookup features *)

Lemma kv_parts_length kv_sep tokens :
  Forall (λ tok, length (split_element kv_sep true tok) = 2%nat) tokens →
  length (mjoin (split_element kv_sep true <$> tokens)) = (length tokens * 2)%nat.
Proof.
  intros Hwf. rewrite length_join, <- list_fmap_compose.
  by rewrite (sum_list_fmap_same 2).
Qed.

Lemma lookup_select_scalar fc one_key one_map :
  well_formed_map fc one_map →
  lookup_select fc one_key (scalar_string one_map) = Ok (selected fc one_key one_map).
Proof.
  intros Hwf. unfold lookup_select. rewrite bool_decide_eq_true_2 by done.
  rewrite (string_split_vector _ [one_map] _ _ 1) by done. rewrite bind_Ok.
  change (values (ragged_to_sparse (split_element (separator fc) true <$> [one_map])))
    with (VString (num:=num) (split_element (separator fc) true one_map ++ [])).
  rewrite app_nil_r.
  rewrite (string_split_vector _ (split_element (separator fc) true one_map) _ _
             (Z.of_nat (length (split_element (separator fc) true one_map)))) by done.
  rewrite bind_Ok. simpl. unfold reshape_pairs.
  rewrite (kv_parts_length _ _ Hwf).
  rewrite bool_decide_eq_true_2; [done|].
  rewrite Nat2Z.inj_mul. apply Z.mod_mul. done.
Qed.

(** The mask and the index row that [_lookup] builds for [n] selections. *)
Lemma mask_split n m :
  0 ≤ n ≤ m →
  (λ i, bool_decide (i < n)) <$> seqZ 0 m
  = replicate (Z.to_nat n) true ++ replicate (Z.to_nat (m - n)) false.
Proof.
  intros Hn. replace m with (n + (m - n)) at 1 by lia.
  rewrite seqZ_app, fmap_app by lia. f_equal.
  - apply list_eq. intros i. rewrite list_lookup_fmap.
    destruct (decide (i < Z.to_nat n)%nat).
    + rewrite lookup_seqZ_lt, lookup_replicate_2 by lia. simpl.
      by rewrite bool_decide_eq_true_2 by lia.
    + rewrite lookup_seqZ_ge by lia. symmetry. apply lookup_replicate_None. lia.
  - apply list_eq. intros i. rewrite list_lookup_fmap.
    destruct (decide (i < Z.to_nat (m - n))%nat).
    + rewrite lookup_seqZ_lt, lookup_replicate_2 by lia. simpl.
      by rewrite bool_decide_eq_false_2 by lia.
    + rewrite lookup_seqZ_ge by lia. symmetry. apply lookup_replicate_None. lia.
Qed.

Lemma index_row_split n m :
  0 ≤ n ≤ m →
  (λ i, i * (if bool_decide (i < n) then 1 else 0)) <$> seqZ 0 m
  = seqZ 0 n ++ replicate (Z.to_nat (m - n)) 0.
Proof.
  intros Hn. replace m with (n + (m - n)) at 1 by lia.
  rewrite seqZ_app, fmap_app by lia. f_equal.
  - apply list_eq. intros i. rewrite list_lookup_fmap.
    destruct (decide (i < Z.to_nat n)%nat).
    + rewrite lookup_seqZ_lt by lia. simpl.
      rewrite bool_decide_eq_true_2 by lia. f_equal. lia.
    + by rewrite lookup_seqZ_ge by lia.
  - apply list_eq. intros i. rewrite list_lookup_fmap.
    destruct (decide (i < Z.to_nat (m - n))%nat).
    + rewrite lookup_seqZ_lt, lookup_replicate_2 by lia. simpl.
      rewrite bool_decide_eq_false_2 by lia. f_equal. lia.
    + rewrite lookup_seqZ_ge by lia. symmetry. apply lookup_replicate_None. lia.
Qed.

Lemma mask_row {A} (xs ys : list A) k :
  (filter (λ vm : A * bool, vm.2 = true)
     (zip (xs ++ ys) (replicate (length xs) true ++ replicate k false))).*1 = xs.
Proof.
  rewrite zip_with_app by (by rewrite length_replicate).
  rewrite filter_app, fmap_app.
  assert (filter (λ vm : A * bool, vm.2 = true) (zip_with pair ys (replicate k false))
          = []) as ->.
  { revert k. induction ys as [|y ys IH]; intros [|k]; simpl; try done.
    rewrite filter_cons, decide_False by done. apply IH. }
  rewrite app_nil_r. induction xs as [|x xs IH]; [done|].
  cbn [length replicate zip_with].
  rewrite filter_cons, decide_True by done. csimpl. by rewrite IH.
Qed.

Lemma lookup_row fc one_key one_map :
  well_formed_map fc one_map →
  (Z.of_nat (length (selected fc one_key one_map)) ≤ lookup_max_sel_elem_num fc →
     _lookup fc one_key (scalar_string one_map)
     = Ok (padded_row (lookup_max_sel_elem_num fc) (selected fc one_key one_map)))
  ∧ (lookup_max_sel_elem_num fc < Z.of_nat (length (selected fc one_key one_map)) →
     is_Raise (_lookup fc one_key (scalar_string one_map))).
Proof.
  intros Hwf. unfold _lookup. rewrite (lookup_select_scalar _ _ _ Hwf), bind_Ok.
  unfold pad_after. split; intros Hn.
  - rewrite bool_decide_eq_true_2 by lia. rewrite bind_Ok. unfold padded_row.
    rewrite mask_split, index_row_split by lia. by rewrite Nat2Z.id.
  - rewrite bool_decide_eq_false_2 by lia. by eexists.
Qed.

Lemma boolean_mask_cons {A} (row : list A) msk rows masks :
  boolean_mask (row :: rows) (msk :: masks)
  = (filter (λ vm : A * bool, vm.2 = true) (zip row msk)).*1 ++ boolean_mask rows masks.
Proof. done. Qed.

(** What the three masked tensors of [_lookup_preprocess] hold. *)
Lemma lookup_batch_masks max_sel_num (sels : list (list string)) : ∀ k : Z,
  Forall (λ sel, Z.of_nat (length sel) ≤ max_sel_num) sels →
  boolean_mask (padded_row max_sel_num <$> sels).*1.*1
    (padded_row max_sel_num <$> sels).*1.*2 = mjoin sels
  ∧ boolean_mask (padded_row max_sel_num <$> sels).*2
      (padded_row max_sel_num <$> sels).*1.*2
    = mjoin ((λ sel, seqZ 0 (Z.of_nat (length sel))) <$> sels)
  ∧ boolean_mask
      ((λ i, replicate (Z.to_nat max_sel_num) i) <$> seqZ k (Z.of_nat (length sels)))
      (padded_row max_sel_num <$> sels).*1.*2
    = mjoin (zip_with (λ i sel, replicate (length sel) i)
               (seqZ k (Z.of_nat (length sels))) sels).
Proof.
  induction sels as [|sel sels IH]; intros k Hle; [done|].
  apply Forall_cons in Hle as [Hsel Hle].
  destruct (IH (Z.succ k) Hle) as (IH1 & IH2 & IH3).
  rewrite seqZ_cons by (simpl; lia).
  replace (Z.pred (Z.of_nat (length (sel :: sels)))) with (Z.of_nat (length sels))
    by (simpl; lia).
  csimpl. rewrite !boolean_mask_cons. rewrite IH1, IH2, IH3.
  split; [|split]; f_equal.
  - apply mask_row.
  - pose proof (mask_row (seqZ 0 (Z.of_nat (length sel)))
      (replicate (Z.to_nat (max_sel_num - Z.of_nat (length sel))) 0)
      (Z.to_nat (max_sel_num - Z.of_nat (length sel)))) as Hm.
    by rewrite length_seqZ, Nat2Z.id in Hm.
  - replace (Z.to_nat max_sel_num)
      with (length sel + Z.to_nat (max_sel_num - Z.of_nat (length sel)))%nat by lia.
    rewrite replicate_add.
    pose proof (mask_row (replicate (length sel) k)
      (replicate (Z.to_nat (max_sel_num - Z.of_nat (length sel))) k)
      (Z.to_nat (max_sel_num - Z.of_nat (length sel)))) as Hm.
    by rewrite length_replicate in Hm.
Qed.

Lemma index_block (i : Z) s n :
  zip_with (λ x y, [x; y]) (replicate n i) (seqZ (Z.of_nat s) (Z.of_nat n))
  = (λ j, [i; Z.of_nat j]) <$> seq s n.
Proof.
  revert s. induction n as [|n IH]; intros s; [done|].
  rewrite seqZ_cons by lia.
  replace (Z.succ (Z.of_nat s)) with (Z.of_nat (S s)) by lia.
  replace (Z.pred (Z.of_nat (S n))) with (Z.of_nat n) by lia.
  csimpl. by rewrite IH.
Qed.

Lemma lookup_indices (sels : list (list string)) : ∀ k : nat,
  concat_columns
    (mjoin (zip_with (λ i sel, replicate (length sel) i)
              (seqZ (Z.of_nat k) (Z.of_nat (length sels))) sels))
    (mjoin ((λ sel, seqZ 0 (Z.of_nat (length sel))) <$> sels))
  = ragged_indices_from k sels.
Proof.
  induction sels as [|sel sels IH]; intros k; [done|].
  rewrite seqZ_cons by (simpl; lia).
  replace (Z.pred (Z.of_nat (length (sel :: sels)))) with (Z.of_nat (length sels))
    by (simpl; lia).
  replace (Z.succ (Z.of_nat k)) with (Z.of_nat (S k)) by lia.
  rewrite ragged_indices_from_cons. csimpl. unfold concat_columns in *.
  rewrite zip_with_app by (by rewrite length_replicate, length_seqZ, Nat2Z.id).
  rewrite IH. f_equal. apply (index_block (Z.of_nat k) 0).
Qed.

Lemma lookup_rows fc (batch : list (string * string)) :
  Forall (λ km, well_formed_map fc km.2) batch →
  (Forall (λ km, Z.of_nat (length (selected fc km.1 km.2)) ≤ lookup_max_sel_elem_num fc)
     batch →
   map_result (λ km, _lookup fc km.1 (scalar_string km.2)) batch
   = Ok (padded_row (lookup_max_sel_elem_num fc)
           <$> ((λ km, selected fc km.1 km.2) <$> batch)))
  ∧ (Exists (λ km, lookup_max_sel_elem_num fc
                     < Z.of_nat (length (selected fc km.1 km.2))) batch →
     is_Raise (map_result (λ km, _lookup fc km.1 (scalar_string km.2)) batch)).
Proof.
  induction 1 as [|km batch Hwf _ IH]; split.
  - done.
  - intros Hex. by apply Exists_nil in Hex.
  - intros [Hle Hles]%Forall_cons. rewrite map_result_cons.
    destruct (lookup_row fc km.1 km.2 Hwf) as [Hr _]. rewrite (Hr Hle), bind_Ok.
    destruct IH as [IH _]. by rewrite (IH Hles).
  - intros Hex. rewrite map_result_cons.
    destruct (decide (lookup_max_sel_elem_num fc
                        < Z.of_nat (length (selected fc km.1 km.2)))) as [Hgt|Hle].
    + destruct (lookup_row fc km.1 km.2 Hwf) as [_ Hr].
      destruct (Hr Hgt) as [e ->]. by eexists.
    + destruct (lookup_row fc km.1 km.2 Hwf) as [Hr _].
      rewrite (Hr ltac:(lia)), bind_Ok.
      apply Exists_cons in Hex as [Hex|Hex]; [done|].
      destruct IH as [_ IH]. destruct (IH Hex) as [e ->]. by eexists.
Qed.

(** C4, as the code has it.  For a batch (a vector of keys and a vector of
    serialized maps of the same length) whose maps are well formed:
    when no example matches more than [lookup_max_sel_elem_num] entries,
    the result is the sparse container whose row i holds, in map order,
    the values of all entries of the i-th map whose key is the i-th key,
    at positions 0, 1, ...; it has one row per example, and an example
    without a match contributes no entry and no error.  The number of
    selections is not capped: when an example matches more than
    [lookup_max_sel_elem_num] entries the call fails. *)
Theorem lookup_selects_matching_entries fc
    (fd : gmap string (DenseTensor num)) key_field map_field kf mf
    (batch : list (string * string)) nk nm :
  input_names fc !! 0%nat = Some key_field →
  input_names fc !! 1%nat = Some map_field →
  fd !! key_field = Some kf → fd !! map_field = Some mf →
  shape kf = [nk] → shape mf = [nm] →
  data kf = VString batch.*1 → data mf = VString batch.*2 →
  Forall (λ km, well_formed_map fc km.2) batch →
  (Forall (λ km, Z.of_nat (length (selected fc km.1 km.2)) ≤ lookup_max_sel_elem_num fc)
     batch →
   _lookup_preprocess fc fd
   = Ok (Sparse
           {| indices := ragged_indices ((λ km, selected fc km.1 km.2) <$> batch);
              values := VString (mjoin ((λ km, selected fc km.1 km.2) <$> batch));
              dense_shape :=
                [Z.of_nat (length batch);
                 reduce_max (mjoin ((λ sel, seqZ 0 (Z.of_nat (length sel)))
                                      <$> ((λ km, selected fc km.1 km.2) <$> batch)))
                 + 1] |}))
  ∧ (Exists (λ km, lookup_max_sel_elem_num fc
                     < Z.of_nat (length (selected fc km.1 km.2))) batch →
     is_Raise (_lookup_preprocess fc fd)).
Proof.
  intros Hk Hm Hkf Hmf Hsk Hsm Hdk Hdm Hwf.
  unfold _lookup_preprocess.
  rewrite (subscript_ok _ _ _ Hk), bind_Ok, (subscript_ok _ _ _ Hm), bind_Ok.
  rewrite (getitem_ok _ _ _ Hkf), bind_Ok, (getitem_ok _ _ _ Hmf), bind_Ok.
  rewrite Hdk, Hdm, Hsk, Hsm. simpl strings_of. rewrite !bind_Ok.
  rewrite bool_decide_eq_false_2 by done.
  rewrite bool_decide_eq_true_2 by (by rewrite !length_fmap).
  rewrite zip_fst_snd.
  destruct (lookup_rows fc batch Hwf) as [Hok Hfail]. split.
  - intros Hle. rewrite (Hok Hle), bind_Ok.
    set (sels := (λ km, selected fc km.1 km.2) <$> batch).
    assert (Forall (λ sel, Z.of_nat (length sel) ≤ lookup_max_sel_elem_num fc) sels)
      as Hsels by (by apply Forall_fmap).
    assert (length (padded_row (lookup_max_sel_elem_num fc) <$> sels).*1.*1
            = length sels) as Hlen by (by rewrite !length_fmap).
    rewrite Hlen.
    destruct (lookup_batch_masks (lookup_max_sel_elem_num fc) sels 0 Hsels)
      as (-> & -> & ->).
    change 0 with (Z.of_nat 0) at 1. rewrite lookup_indices.
    assert (length sels = length batch) as -> by apply length_fmap. done.
  - intros Hex. destruct (Hfail Hex) as [e ->]. by eexists.
Qed.

End Preprocessing.
End PreprocessFacts.

(** * Examples

    The theorems at the configurations and batches of [Samples], and the
    inputs on which the code departs from a reading of the
    specification. *)

Module Examples.
Import Registry Preprocess Exact Samples.

(** X1 at a catalogue with a mismatch and at a consistent one. *)
Lemma shared_embedding_info_checked_witness :
  (∃ msg,
     __init__ accept_all no_file shared_columns
       [item_config "item_id" 16; item_config "seller_item" 32] ∅ 8 false
     = Raise (AssertionError msg))
  ∧ (∃ self',
       init_share_embed [item_config "item_id" 16; item_config "click_item" 16]
         (new_parser [item_config "item_id" 16; item_config "click_item" 16] ∅ 8 false)
       = (Ok (), self')
       ∧ _share_embed_infos self' !! "item"
         = Some (embed_info_of (item_config "click_item" 16))).
Proof.
  split.
  - destruct (proj1 (RegistryFacts.shared_embedding_info_checked
      accept_all no_file shared_columns
      [item_config "item_id" 16; item_config "seller_item" 32] ∅ 8 false))
      as (msg & Hinit & _).
    + exists (item_config "item_id" 16), (item_config "seller_item" 32), "item".
      repeat split; [left | right; left | discriminate].
    + by exists msg.
  - destruct (proj2 (RegistryFacts.shared_embedding_info_checked
      accept_all no_file shared_columns
      [item_config "item_id" 16; item_config "click_item" 16] ∅ 8 false))
      as (self' & Hrun & Hinfo).
    + intros c1 c2 n H1 H2 _ _.
      apply elem_of_cons in H1 as [->|H1]; [|apply elem_of_cons in H1 as [->|H1]];
        [| |by apply elem_of_nil in H1];
        (apply elem_of_cons in H2 as [->|H2]; [|apply elem_of_cons in H2 as [->|H2]];
          [| |by apply elem_of_nil in H2]); reflexivity.
    + exists self'. split; [done|].
      apply Hinfo; [right; left | reflexivity | vm_compute; lia].
Defined.

(** C1 fails on the code.  The features [item_id] and [click_item] declare
    the embedding name [item] with the same information.  When both are
    deep, each resolves to its own column of the group.  When [item_id] is
    deep and [click_item] wide, the handle of [click_item] carries the
    index 1, the length of the deep list of the group; its own list has
    one member, and the constructor raises [IndexError].  When both are
    wide, both handles carry the index 0, and [click_item] resolves to the
    shared column of [item_id]. *)
Lemma shared_wide_member_misresolved :
  RegistrySpec.consistent [item_config "item_id" 16; item_config "click_item" 16]
  ∧ (∃ self,
       __init__ accept_all no_file shared_columns
         [item_config "item_id" 16; item_config "click_item" 16]
         (wide_deep_of [("item_id", DEEP); ("click_item", DEEP)]) 8 false = Ok self
       ∧ _deep_columns self !! "item_id"
         = Some (Column (categorical_column_with_hash_bucket "item_id" 1000) None)
       ∧ _deep_columns self !! "click_item"
         = Some (Column (categorical_column_with_hash_bucket "click_item" 1000) None))
  ∧ __init__ accept_all no_file shared_columns
      [item_config "item_id" 16; item_config "click_item" 16]
      (wide_deep_of [("item_id", DEEP); ("click_item", WIDE)]) 8 false
    = Raise IndexError
  ∧ ∃ self,
      __init__ accept_all no_file shared_columns
        [item_config "item_id" 16; item_config "click_item" 16]
        (wide_deep_of [("item_id", WIDE); ("click_item", WIDE)]) 8 false = Ok self
      ∧ _wide_columns self !! "item_id"
        = Some (Column (categorical_column_with_hash_bucket "item_id" 1000) None)
      ∧ _wide_columns self !! "click_item"
        = Some (Column (categorical_column_with_hash_bucket "item_id" 1000) None).
Proof.
  split; [|split; [|split]].
  - intros c1 c2 n H1 H2 _ _.
    apply elem_of_cons in H1 as [->|H1]; [|apply elem_of_cons in H1 as [->|H1]];
      [| |by apply elem_of_nil in H1];
      (apply elem_of_cons in H2 as [->|H2]; [|apply elem_of_cons in H2 as [->|H2]];
        [| |by apply elem_of_nil in H2]); reflexivity.
  - eexists. split; [vm_compute; reflexivity|]. split; vm_compute; reflexivity.
  - vm_compute. reflexivity.
  - eexists. split; [vm_compute; reflexivity|]. split; vm_compute; reflexivity.
Qed.

(** C2 at [uid]: the hash bucket size wins over the vocabulary list. *)
Lemma id_feature_encoding_priority_witness :
  id_categorical_column accept_all no_file uid_config empty_parser
  = build accept_all (categorical_column_with_hash_bucket "uid" 100) empty_parser.
Proof.
  apply (proj1 (RegistryFacts.id_feature_encoding_priority
                  accept_all no_file uid_config empty_parser "uid" eq_refl)).
  reflexivity.
Defined.

(** C5 at [uid], which the empty wide/deep map does not configure, under
    a library that validates its arguments; and at the Sequence feature
    [click_seq], which the map does not configure either. *)
Lemma unconfigured_feature_skipped_witness :
  (∃ self',
     parse_feature strict_library no_file uid_config empty_parser
       = (Raise (FeatureKeyError "uid"), self')
     ∧ RegistrySpec.tables self' = RegistrySpec.tables empty_parser
     ∧ parse_features strict_library no_file [uid_config; click_seq_config] empty_parser
       = parse_features strict_library no_file [click_seq_config] self')
  ∧ ∃ self' entry,
      parse_feature strict_library no_file click_seq_config empty_parser = (Ok (), self')
      ∧ _sequence_columns self' = {[ "click_seq" := entry ]}.
Proof.
  split.
  - destruct (proj1 (RegistryFacts.unconfigured_feature_skipped strict_library no_file
                uid_config [click_seq_config] empty_parser "uid" eq_refl)
                ltac:(discriminate) eq_refl) as [Hskip _].
    exists empty_parser.
    apply (Hskip (categorical_column_with_hash_bucket "uid" 100) empty_parser).
    vm_compute. reflexivity.
  - destruct (proj2 (RegistryFacts.unconfigured_feature_skipped strict_library no_file
                click_seq_config [] empty_parser "click_seq" eq_refl) eq_refl)
      as (_ & _ & Hreg).
    destruct (Hreg (parse_feature strict_library no_file click_seq_config
                      empty_parser).2 ltac:(vm_compute; reflexivity))
      as ([entry Hseq] & _).
    eexists _, entry. split; [vm_compute; reflexivity|exact Hseq].
Defined.

(** C5 does not hold for Sequence features: [click_seq] is absent from the
    (empty) wide/deep map, and the constructor still registers its
    sequence column.  Nor is a feature skipped whose own column cannot be
    built: the Combo feature [uid_x] is absent from the map too, has one
    input, and makes the constructor fail on the assertion that precedes
    the look-up in the map. *)
Lemma unconfigured_feature_not_always_skipped :
  (primary_name click_seq_config = Ok "click_seq"
   ∧ (∅ : gmap string WideOrDeep) !! "click_seq" = None
   ∧ ∃ self,
       __init__ accept_all no_file shared_columns [click_seq_config] ∅ (-1) false
         = Ok self
       ∧ _sequence_columns self !! "click_seq"
         = Some (Column (sequence_categorical_column_with_hash_bucket "click_seq" 100)
                   None))
  ∧ primary_name lone_combo_config = Ok "uid_x"
  ∧ (∅ : gmap string WideOrDeep) !! "uid_x" = None
  ∧ __init__ accept_all no_file shared_columns [lone_combo_config; uid_config] ∅ 8 false
    = Raise (AssertionError "").
Proof.
  split.
  - split; [reflexivity|]. split; [reflexivity|].
    eexists. split; vm_compute; reflexivity.
  - split; [reflexivity|]. split; [reflexivity|]. vm_compute. reflexivity.
Qed.

(** ** The preprocessor *)

(** C3 at two examples of dimension 2. *)
Lemma raw_projection_invariant_witness :
  ∃ env' grid ids,
    preprocess_raw (plain_input []) (raw_config "ctr" 2 0 0)
      (batch_of [("ctr", {| shape := [2; 2]; data := VFloat32 [1; 2; 3; 4]%Q |})])
      = Ok env'
    ∧ parsed_dict env' !! "ctr_raw_proj_id"
      = Some (Sparse {| indices := grid; values := VInt64 ids; dense_shape := [2; 2] |})
    ∧ parsed_dict env' !! "ctr_raw_proj_val"
      = Some (Sparse {| indices := grid; values := VFloat32 [1; 2; 3; 4]%Q;
                        dense_shape := [2; 2] |})
    ∧ grid = [[0; 0]; [0; 1]; [1; 0]; [1; 1]] ∧ ids = [0; 1; 0; 1].
Proof.
  destruct (PreprocessFacts.raw_projection_invariant
    (plain_input []) (raw_config "ctr" 2 0 0)
    (batch_of [("ctr", {| shape := [2; 2]; data := VFloat32 [1; 2; 3; 4]%Q |})])
    "ctr" {| shape := [2; 2]; data := VFloat32 [1; 2; 3; 4]%Q |}
    {| shape := [2; 2]; data := VFloat32 [1; 2; 3; 4]%Q |} 2)
    as (env' & grid & ids & Hrun & _ & _ & Hid & Hval & Hg & Hi & Hpoint & _).
  - reflexivity.
  - reflexivity.
  - reflexivity.
  - simpl. lia.
  - discriminate.
  - reflexivity.
  - reflexivity.
  - exists env', grid, ids. split; [exact Hrun|]. split; [exact Hid|].
    split; [exact Hval|].
    destruct (Hpoint 0%nat 0%nat ltac:(simpl; lia) ltac:(simpl; lia)) as [G00 I00].
    destruct (Hpoint 0%nat 1%nat ltac:(simpl; lia) ltac:(simpl; lia)) as [G01 I01].
    destruct (Hpoint 1%nat 0%nat ltac:(simpl; lia) ltac:(simpl; lia)) as [G10 I10].
    destruct (Hpoint 1%nat 1%nat ltac:(simpl; lia) ltac:(simpl; lia)) as [G11 I11].
    simpl in *.
    destruct grid as [|g0 [|g1 [|g2 [|g3 [|]]]]]; try discriminate Hg.
    destruct ids as [|i0 [|i1 [|i2 [|i3 [|]]]]]; try discriminate Hi.
    simpl in *. by simplify_eq.
Defined.

(** C3 does not hold as stated: the Raw feature [weight] has no boundaries
    and no buckets, but its input is the sample-weight field and nothing is
    appended; and the Raw feature [ctr] is normalised from [0, 2], so the
    values of its projection are not the entries of the input. *)
Lemma raw_projection_suppressed_or_normalised :
  (boundaries (raw_config "weight" 1 0 0) = []
   ∧ num_buckets (raw_config "weight" 1 0 0) ≤ 1
   ∧ ∃ env',
       preprocess_raw (weighted_input []) (raw_config "weight" 1 0 0)
         (batch_of [("weight", floats [1; 2]%Q)]) = Ok env'
       ∧ parsed_dict env' !! "weight_raw_proj_id" = None
       ∧ parsed_dict env' !! "weight_raw_proj_val" = None
       ∧ _appended_fields env' = [])
  ∧ ∃ env' grid,
      preprocess_raw (plain_input []) (raw_config "ctr" 1 0 2)
        (batch_of [("ctr", floats [1; 3]%Q)]) = Ok env'
      ∧ parsed_dict env' !! "ctr_raw_proj_val"
        = Some (Sparse {| indices := grid; values := VFloat32 [1 # 2; 3 # 2]%Q;
                          dense_shape := [2; 1] |}).
Proof.
  split.
  - split; [reflexivity|]. split; [simpl; lia|].
    eexists. split; [vm_compute; reflexivity|].
    repeat split; vm_compute; reflexivity.
  - eexists _, _. split; vm_compute; reflexivity.
Qed.

(** C4 at the example of the specification: the key [x] against the map
    [x:1,y:2,x:3]. *)
Lemma lookup_selects_matching_entries_witness :
  _lookup_preprocess (lookup_config 10)
    (fields_of [("key", strings ["x"]); ("map", strings ["x:1,y:2,x:3"])])
  = Ok (Sparse {| indices := [[0; 0]; [0; 1]]; values := VString ["1"; "3"];
                  dense_shape := [1; 2] |}).
Proof.
  apply (proj1 (PreprocessFacts.lookup_selects_matching_entries (lookup_config 10)
    (fields_of [("key", strings ["x"]); ("map", strings ["x:1,y:2,x:3"])])
    "key" "map" (strings ["x"]) (strings ["x:1,y:2,x:3"]) [("x", "x:1,y:2,x:3")] 1 1
    eq_refl eq_refl ltac:(vm_compute; reflexivity) ltac:(vm_compute; reflexivity)
    eq_refl eq_refl eq_refl eq_refl ltac:(repeat constructor))).
  repeat constructor. vm_compute. discriminate.
Defined.

(** C4 does not hold as stated: with [lookup_max_sel_elem_num = 2] and
    three entries under the key, a batch of one example fails, and a
    scalar key selects all three values. *)
Lemma lookup_selection_is_not_capped :
  lookup_max_sel_elem_num (lookup_config 2) = 2
  ∧ _lookup_preprocess (lookup_config 2)
      (fields_of [("key", strings ["x"]); ("map", strings ["x:1,x:2,x:3"])])
    = Raise (InvalidArgumentError "Paddings must be non-negative")
  ∧ _lookup_preprocess (lookup_config 2)
      (fields_of [("key", scalar_string "x"); ("map", scalar_string "x:1,x:2,x:3")])
    = Ok (Sparse {| indices := [[0; 0]; [0; 1]; [0; 2]];
                    values := VString ["1"; "2"; "3"]; dense_shape := [1; 3] |}).
Proof. repeat split; vm_compute; reflexivity. Qed.

(** C6 at the steps [a#b] and [c] of one example. *)
Lemma seq_multi_split_inherits_parent_witness :
  ∃ out,
    seq_multi_split
      {| indices := [[0; 0]; [0; 1]]; values := VString (num:=Q) ["a#b"; "c"];
         dense_shape := [1; 2] |} "#" = Ok out
    ∧ indices out = [[0; 0; 0]; [0; 0; 1]; [0; 1; 0]]
    ∧ values out = VString ["a"; "b"; "c"]
    ∧ dense_shape out = [1; 2; 2].
Proof.
  destruct (PreprocessFacts.seq_multi_split_inherits_parent
    {| indices := [[0; 0]; [0; 1]]; values := VString (num:=Q) ["a#b"; "c"];
       dense_shape := [1; 2] |} "#" ["a#b"; "c"] eq_refl eq_refl)
    as (out & Hrun & Hidx & Hval & Hshape & _).
  exists out. split; [exact Hrun|]. split; [exact Hidx|]. split; [exact Hval|].
  exact Hshape.
Defined.



(** C8 at the price 1.5: with precision 2 it becomes the string [1.50],
    without a precision preprocessing fails. *)
Lemma id_float_to_string_needs_precision_witness :
  (∃ env',
     preprocess_id (price_config 2) (batch_of [("price", floats [3 # 2]%Q)]) = Ok env'
     ∧ parsed_dict env' !! "price"
       = Some (Dense {| shape := [1]; data := VString ["1.50"] |}))
  ∧ is_Raise (preprocess_id (price_config 0) (batch_of [("price", floats [3 # 2]%Q)])).
Proof.
  split.
  - destruct (proj1 (PreprocessFacts.id_float_to_string_needs_precision
      (price_config 2) (batch_of [("price", floats [3 # 2]%Q)]) "price"
      (floats [3 # 2]%Q) eq_refl ltac:(vm_compute; reflexivity)
      ltac:(by eexists)) eq_refl) as [_ Hok].
    destruct (Hok ltac:(simpl; lia)) as (env' & Hrun & Hval).
    exists env'. split; [exact Hrun|]. rewrite Hval. vm_compute. reflexivity.
  - apply (proj1 (PreprocessFacts.id_float_to_string_needs_precision
      (price_config 0) (batch_of [("price", floats [3 # 2]%Q)]) "price"
      (floats [3 # 2]%Q) eq_refl ltac:(vm_compute; reflexivity)
      ltac:(by eexists)) eq_refl).
    simpl. lia.
Defined.

(** C9 at a string label. *)
Lemma labels_parsed_or_passed_through_witness :
  ∃ env',
    preprocess_labels labelled_input (batch_of [("clk", strings ["1"; "0"])]) = Ok env'
    ∧ parsed_dict env' !! "clk"
      = Some (Dense {| shape := [2]; data := VFloat32 [1; 0]%Q |}).
Proof.
  destruct (proj1 (PreprocessFacts.labels_parsed_or_passed_through labelled_input
    (batch_of [("clk", strings ["1"; "0"])]) (NoDup_singleton "clk")
    ltac:(intros [|i] name field Hi Hf;
          [injection Hi as <-; vm_compute in Hf; injection Hf as <-;
           eexists; vm_compute; reflexivity
          | by destruct i])))
    as (env' & Hrun & Hlab).
  exists env'. split; [exact Hrun|].
  destruct (Hlab 0%nat "clk" (strings ["1"; "0"]) eq_refl
              ltac:(vm_compute; reflexivity)) as (parsed & Hp & Hstr & _).
  destruct (Hstr eq_refl) as (dim & tokens & ws & Hdim & Hparsed & Hws & Hscalar & _).
  injection Hdim as <-.
  destruct (Hscalar ltac:(lia)) as [Htok Hshape]. injection Htok as <-.
  apply Forall2_cons_inv_l in Hws as (w1 & ws1 & H1 & Hws & ->).
  apply Forall2_cons_inv_l in Hws as (w2 & ws2 & H2 & Hws & ->).
  apply Forall2_nil_inv_l in Hws as ->.
  vm_compute in H1. injection H1 as <-. vm_compute in H2. injection H2 as <-.
  rewrite Hp, Hparsed, Hshape. reflexivity.
Defined.

(** C9 does not hold as stated: an [int64] label leaves [_preprocess] as
    an [int64] tensor, which is not of a floating type. *)
Lemma integer_label_stays_integer :
  is_floating tf_int64 = false
  ∧ ∃ env',
      _preprocess "SAMPLE_WEIGHT" no_expression labelled_input []
        (fields_of [("clk", {| shape := [2]; data := VInt64 [1; 0] |})]) = Ok env'
      ∧ parsed_dict env' !! "clk"
        = Some (Dense {| shape := [2]; data := VInt64 [1; 0] |}).
Proof.
  split; [reflexivity|]. eexists. split; vm_compute; reflexivity.
Qed.

(** C10 at the Raw feature [weight], the sample-weight field. *)
Lemma sample_weight_field_not_projected_witness :
  preprocess_raw (weighted_input []) (raw_config "weight" 1 0 0)
    (batch_of [("weight", floats [1; 2]%Q)])
  = (parsed ← raw_parse (raw_config "weight" 1 0 0) (floats [1; 2]%Q);
     Ok (set_parsed "weight" (Dense parsed) (batch_of [("weight", floats [1; 2]%Q)]))).
Proof.
  apply (proj1 (PreprocessFacts.sample_weight_field_not_projected
    (weighted_input []) (raw_config "weight" 1 0 0)
    (batch_of [("weight", floats [1; 2]%Q)]) "weight" (floats [1; 2]%Q)
    eq_refl ltac:(vm_compute; reflexivity) eq_refl)).
Defined.

End Examples.

(** * Further properties of the registry *)

Module RegistryMore.
Import Registry RegistrySpec RegistryVocabulary RegistryFacts.

Section Registry.
Context {num : Type} `{TFNum num}.
Variable column_ok : FeatureColumn num → bool.
Variable gfile_line_count : string → option Z.
Implicit Types (config : FeatureConfig num) (self : FeatureColumnParser (num:=num)).

(** ** The cache of vocabulary sizes *)

(** X2.  [_get_vocab_size] answers from the cache without looking at the
    file; on a miss it fails with the error of the file when the file cannot
    be read, and otherwise it returns the number of lines, stores it under
    the path and changes nothing else of the parser, so that a second call
    answers from the cache whatever the files have become. *)
Theorem vocab_size_read_once path self :
  (∀ m, _vocab_size self !! path = Some m →
     _get_vocab_size gfile_line_count path self = (Ok m, self))
  ∧ (_vocab_size self !! path = None → gfile_line_count path = None →
     _get_vocab_size gfile_line_count path self = (Raise (IOError path), self))
  ∧ (∀ n, _vocab_size self !! path = None → gfile_line_count path = Some n →
     ∃ self',
       _get_vocab_size gfile_line_count path self = (Ok n, self')
       ∧ _vocab_size self' = <[path := n]> (_vocab_size self)
       ∧ same_but_vocab self self'
       ∧ ∀ (any_files : string → option Z),
           _get_vocab_size any_files path self' = (Ok n, self')).
Proof.
  unfold _get_vocab_size. split; [|split].
  - intros m Hm. run_method. by rewrite Hm.
  - intros Hc Hf. run_method. by rewrite Hc, Hf.
  - intros n Hc Hf. run_method. rewrite Hc, Hf. eexists. split; [done|].
    simpl. split; [done|]. split; [done|].
    intros any_files. by rewrite lookup_insert_eq.
Qed.

(** ** The assertions on the dimensions *)

Lemma DEEP_not_wide : DEEP ∉ [WIDE; WIDE_AND_DEEP].
Proof.
  intros Hin. repeat (apply elem_of_cons in Hin as [Hin|Hin]; [done|]).
  by apply elem_of_nil in Hin.
Qed.

(** A wide feature without a positive [wide_output_dim]. *)
Lemma wide_tail_raises config name fc deep_action self1 v :
  primary_name config = Ok name →
  _wide_deep_dict self1 !! name = Some v → v ∈ [WIDE; WIDE_AND_DEEP] →
  _wide_output_dim self1 ≤ 0 →
  wide_deep_tail column_ok config fc deep_action self1
  = (Raise (AssertionError "wide_output_dim is not set"), self1).
Proof.
  intros Hname Hd Hv Hw. unfold wide_deep_tail, is_wide, _add_wide_embedding_column.
  run_method. rewrite Hname. simpl. rewrite Hd. simpl.
  rewrite bool_decide_eq_true_2 by done.
  unfold py_assert. by rewrite bool_decide_eq_false_2 by lia.
Qed.

(** A deep-only feature without a positive [embedding_dim]. *)
Lemma deep_tail_raises config name fc self1 :
  primary_name config = Ok name →
  _wide_deep_dict self1 !! name = Some DEEP → embedding_dim config ≤ 0 →
  wide_deep_tail column_ok config fc
    (_add_deep_embedding_column column_ok fc config) self1
  = (Raise (AssertionError ("embedding_dim is not set for " +:+ name)), self1).
Proof.
  intros Hname Hd He.
  unfold wide_deep_tail, is_wide, is_deep, _add_deep_embedding_column.
  run_method. rewrite Hname. simpl. rewrite Hd. simpl.
  rewrite Hd. simpl. unfold py_assert. by rewrite bool_decide_eq_false_2 by lia.
Qed.

(** X3.  A feature of any type but Sequence that the wide/deep map puts on
    the wide side, on a parser whose [wide_output_dim] is not positive: once
    its own column is built, parsing it fails with the assertion on
    [wide_output_dim], the column tables and the shared groups stay as they
    were, and the loop of the constructor stops with that error. *)
Theorem wide_feature_needs_wide_output_dim config rest self name v fc self1 :
  feature_type config ≠ SequenceFeature →
  primary_name config = Ok name →
  _wide_deep_dict self !! name = Some v → v ∈ [WIDE; WIDE_AND_DEEP] →
  _wide_output_dim self ≤ 0 →
  own_column column_ok gfile_line_count config self = (Ok fc, self1) →
  parse_feature column_ok gfile_line_count config self
    = (Raise (AssertionError "wide_output_dim is not set"), self1)
  ∧ tables self1 = tables self
  ∧ parse_features column_ok gfile_line_count (config :: rest) self
    = (Raise (AssertionError "wide_output_dim is not set"), self1).
Proof.
  intros Hty Hname Hd Hv Hw Hown.
  pose proof (parse_feature_prefix column_ok gfile_line_count config self Hty) as Hp.
  rewrite Hown in Hp. destruct Hp as (da & Hrun & _).
  pose proof (own_column_vocab_only column_ok gfile_line_count config self _ _ Hown)
    as Hs.
  destruct (same_but_vocab_dims _ _ Hs) as (Hw1 & Hd1 & _).
  rewrite (wide_tail_raises config name fc da self1 v) in Hrun
    by (by rewrite ?Hd1, ?Hw1).
  split; [done|]. split; [by apply same_but_vocab_tables|].
  rewrite parse_features_cons. by rewrite Hrun.
Qed.

(** X4.  An Id, Tag, Combo or Lookup feature that the wide/deep map puts on
    the deep side only and whose [embedding_dim] is not positive: once its
    own column is built, parsing it fails with the assertion on
    [embedding_dim], which names the feature; the column tables and the
    shared groups stay as they were, and the loop of the constructor stops
    with that error. *)
Theorem deep_feature_needs_embedding_dim config rest self name fc self1 :
  embedded_type (feature_type config) →
  primary_name config = Ok name →
  _wide_deep_dict self !! name = Some DEEP →
  embedding_dim config ≤ 0 →
  own_column column_ok gfile_line_count config self = (Ok fc, self1) →
  parse_feature column_ok gfile_line_count config self
    = (Raise (AssertionError ("embedding_dim is not set for " +:+ name)), self1)
  ∧ tables self1 = tables self
  ∧ parse_features column_ok gfile_line_count (config :: rest) self
    = (Raise (AssertionError ("embedding_dim is not set for " +:+ name)), self1).
Proof.
  intros Hty Hname Hd He Hown.
  assert (feature_type config ≠ SequenceFeature) as Hns.
  { intros E. rewrite E in Hty. unfold embedded_type in Hty.
    repeat (apply elem_of_cons in Hty as [Hty|Hty]; [done|]).
    by apply elem_of_nil in Hty. }
  pose proof (parse_feature_prefix column_ok gfile_line_count config self Hns) as Hp.
  rewrite Hown in Hp. destruct Hp as (da & Hrun & Hda).
  pose proof (own_column_vocab_only column_ok gfile_line_count config self _ _ Hown)
    as Hs.
  destruct (same_but_vocab_dims _ _ Hs) as (Hw1 & Hd1 & _).
  rewrite (Hda Hty) in Hrun.
  rewrite (deep_tail_raises config name fc self1) in Hrun by (by rewrite ?Hd1).
  split; [done|]. split; [by apply same_but_vocab_tables|].
  rewrite parse_features_cons. by rewrite Hrun.
Qed.

(** ** Raw features without an embedding *)

(** X5.  A deep Raw feature without bucket boundaries and without an
    embedding dimension: when the library accepts its numeric column and the
    two columns of the projection, the numeric column of its input is
    registered under its name in the deep table and nothing else changes,
    although the method has built the projection columns; when the library
    refuses the identity column of the projection, the method fails with the
    error of the library and registers nothing. *)
Theorem raw_feature_without_embedding_is_numeric config self name input_0 :
  feature_type config = RawFeature →
  primary_name config = Ok name →
  input_names config !! 0%nat = Some input_0 →
  _wide_deep_dict self !! name = Some DEEP →
  raw_bounds config = [] →
  embedding_dim config ≤ 0 →
  column_ok (numeric_column input_0 (raw_input_dim config)) = true →
  (column_ok (categorical_column_with_identity (input_0 +:+ "_raw_proj_id")
                (raw_input_dim config) 0) = true
   ∧ column_ok (weighted_categorical_column
                  (categorical_column_with_identity (input_0 +:+ "_raw_proj_id")
                     (raw_input_dim config) 0)
                  (input_0 +:+ "_raw_proj_val")) = true →
   parse_feature column_ok gfile_line_count config self
   = (Ok (),
      set_deep_columns
        (<[name := Column (numeric_column input_0 (raw_input_dim config)) None]>
           (_deep_columns self)) self))
  ∧ (column_ok (categorical_column_with_identity (input_0 +:+ "_raw_proj_id")
                  (raw_input_dim config) 0) = false →
     parse_feature column_ok gfile_line_count config self
     = (Raise (ValueError "invalid feature column arguments"), self)).
Proof.
  intros Hty Hname Hin Hd Hb He Hnum.
  unfold parse_feature. rewrite Hty. unfold parse_raw_feature.
  fold (raw_bounds config). rewrite Hb, Hname. simpl negb. cbv iota.
  rewrite bind_lift. unfold subscript. rewrite Hin, bind_lift.
  rewrite (bind_build_run column_ok), Hnum.
  rewrite (bind_build_run column_ok). split.
  - intros [Hid Hwgt]. rewrite Hid, (bind_build_run column_ok), Hwgt.
    unfold is_wide, is_deep. run_method.
    rewrite Hname. simpl. rewrite Hd. simpl. rewrite Hd. simpl.
    by rewrite bool_decide_eq_false_2 by lia.
  - intros Hid. by rewrite Hid.
Qed.

(** ** Handles of shared embeddings *)

(** X6.  [_add_shared_embedding_column] on the deep side of a group whose
    deep list is [dl] returns a handle with the name of the group and the
    index [length dl], appends the column to the deep list and leaves the
    wide lists alone; [_get_shared_embedding_column] gives the column back
    from that handle in every later state in which the deep list of the
    group still begins with [dl] and the column. *)
Theorem shared_deep_handle_round_trip embedding_name fc self dl :
  _deep_share_embed_columns self !! embedding_name = Some dl →
  ∃ h self',
    _add_shared_embedding_column embedding_name fc true self = (Ok (Handle h), self')
    ∧ se_embedding_name h = embedding_name ∧ se_index h = length dl
    ∧ _deep_share_embed_columns self'
      = <[embedding_name := dl ++ [fc]]> (_deep_share_embed_columns self)
    ∧ _wide_share_embed_columns self' = _wide_share_embed_columns self
    ∧ ∀ later more,
        _deep_share_embed_columns later !! embedding_name = Some (dl ++ fc :: more) →
        _get_shared_embedding_column h true later = (Ok (Column fc None), later).
Proof.
  intros Hdl. unfold _add_shared_embedding_column, getitem. run_method.
  rewrite Hdl. simpl. eexists _, _. split; [done|]. simpl.
  do 4 (split; [done|]). intros later more Hl.
  unfold _get_shared_embedding_column, getitem, subscript. run_method.
  rewrite Hl. simpl.
  by rewrite lookup_app_r, Nat.sub_diag by done.
Qed.

(** X7.  [_add_shared_embedding_column] on the wide side appends the column
    to the wide list [wl] of the group, but the index of the handle is the
    length of the deep list [dl].  Resolved on the wide side right
    afterwards, the handle gives the column back when the two lists had the
    same length, raises [IndexError] when the wide list was the shorter one,
    and gives another member of the wide list when [wl] has an element at
    the position [length dl]. *)
Theorem shared_wide_handle_indexed_by_deep_group embedding_name fc self dl wl :
  _deep_share_embed_columns self !! embedding_name = Some dl →
  _wide_share_embed_columns self !! embedding_name = Some wl →
  ∃ h self',
    _add_shared_embedding_column embedding_name fc false self = (Ok (Handle h), self')
    ∧ se_embedding_name h = embedding_name ∧ se_index h = length dl
    ∧ _wide_share_embed_columns self'
      = <[embedding_name := wl ++ [fc]]> (_wide_share_embed_columns self)
    ∧ _deep_share_embed_columns self' = _deep_share_embed_columns self
    ∧ (length dl = length wl →
       _get_shared_embedding_column h false self' = (Ok (Column fc None), self'))
    ∧ (length wl < length dl →
       _get_shared_embedding_column h false self' = (Raise IndexError, self'))%nat
    ∧ (∀ other, wl !! length dl = Some other →
       _get_shared_embedding_column h false self' = (Ok (Column other None), self')).
Proof.
  intros Hdl Hwl. unfold _add_shared_embedding_column, getitem. run_method.
  rewrite Hdl. simpl. rewrite Hwl. simpl. eexists _, _. split; [done|]. simpl.
  do 4 (split; [done|]).
  unfold _get_shared_embedding_column, getitem, subscript. run_method.
  rewrite lookup_insert_eq. simpl. split; [|split].
  - intros ->. by rewrite lookup_app_r, Nat.sub_diag by done.
  - intros Hlt. rewrite lookup_ge_None_2; [done|].
    rewrite length_app. simpl. lia.
  - intros other Ho. by rewrite (lookup_app_l_Some _ _ _ _ Ho).
Qed.

End Registry.
End RegistryMore.

(** * Further properties of the preprocessor *)

Module PreprocessMore.
Import Preprocess PreprocessSpec PreprocessVocabulary.

Section Preprocessing.
Context {num : Type} `{TFNum num}.
Variable SAMPLE_WEIGHT : string.
Variable eval_expression :
  string → list string → string → gmap string (Tensor num) → result (Tensor num).
Implicit Types (fc : FeatureConfig num) (self : Input (num:=num))
  (env : Env (num:=num)) (field : DenseTensor num).

Lemma bind_eq_Ok {A B} (m : result A) (f : A → result B) b :
  m ≫= f = Ok b → ∃ a, m = Ok a ∧ f a = Ok b.
Proof. destruct m as [a|e]; [|done]. intros Hf. by exists a. Qed.

Ltac inv_bind H :=
  let a := fresh "a" in
  let Ha := fresh "Ha" in
  apply bind_eq_Ok in H as (a & Ha & H).

(** ** What preprocessing keeps *)

Lemma grows_refl env : grows env env.
Proof.
  split; [done|]. split; [done|]. exists []. split; [by rewrite app_nil_r|].
  intros k Hk. by apply elem_of_nil in Hk.
Qed.

Lemma grows_trans env1 env2 env3 : grows env1 env2 → grows env2 env3 → grows env1 env3.
Proof.
  intros (Hf1 & Hp1 & m1 & Ha1 & Hm1) (Hf2 & Hp2 & m2 & Ha2 & Hm2).
  split; [intros k; by rewrite Hf2, Hf1|]. split; [by auto|].
  exists (m1 ++ m2). split; [by rewrite Ha2, Ha1, app_assoc|].
  intros k Hk. apply elem_of_app in Hk as [Hk|Hk]; auto.
Qed.

Lemma extends_refl env : extends env env.
Proof. split; [done|apply grows_refl]. Qed.

Lemma extends_trans env1 env2 env3 :
  extends env1 env2 → extends env2 env3 → extends env1 env3.
Proof.
  intros [Hf1 Hg1] [Hf2 Hg2]. split; [by rewrite Hf2|by eapply grows_trans].
Qed.

Lemma extends_set_parsed k t env : extends env (set_parsed k t env).
Proof.
  split; [done|]. split; [done|]. split.
  - intros k' Hk'. simpl. destruct (decide (k = k')) as [->|Hne].
    + by rewrite lookup_insert_eq.
    + by rewrite lookup_insert_ne.
  - exists []. simpl. split; [by rewrite app_nil_r|].
    intros k' Hk'. by apply elem_of_nil in Hk'.
Qed.

Lemma extends_append_field k env :
  is_Some (parsed_dict env !! k) → extends env (append_field k env).
Proof.
  intros Hk. split; [done|]. split; [done|]. split; [done|].
  exists [k]. split; [done|]. intros k' Hk'.
  apply list_elem_of_singleton in Hk' as ->. done.
Qed.

Ltac solve_extends :=
  repeat match goal with
  | |- extends ?e ?e => apply extends_refl
  | |- extends _ (set_parsed _ _ _) =>
      eapply extends_trans; [|apply extends_set_parsed]
  | |- extends _ (append_field _ _) =>
      eapply extends_trans;
        [|apply extends_append_field; simpl;
          rewrite ?lookup_insert_eq;
          repeat (rewrite lookup_insert_ne by
                    first [ apply PreprocessFacts.raw_proj_keys_ne
                          | apply not_eq_sym, PreprocessFacts.raw_proj_keys_ne ];
                  rewrite ?lookup_insert_eq);
          done]
  end.

Lemma for_each_extends {A} (body : A → Env (num:=num) → result Env) l :
  (∀ a env env', body a env = Ok env' → extends env env') →
  ∀ env env', for_each body l env = Ok env' → extends env env'.
Proof.
  intros Hbody. induction l as [|a l IH]; intros env env' Hrun.
  { injection Hrun as <-. apply extends_refl. }
  simpl in Hrun. inv_bind Hrun.
  eapply extends_trans; [by eapply Hbody|by eapply IH].
Qed.

Lemma tag_kv_split_extends kv_sep input_0 sp env env' :
  tag_kv_split kv_sep input_0 sp env = Ok env' → extends env env'.
Proof.
  unfold tag_kv_split. intros Hrun. repeat inv_bind Hrun.
  injection Hrun as <-. solve_extends.
Qed.

Lemma preprocess_tag_extends fc env env' :
  preprocess_tag fc env = Ok env' → extends env env'.
Proof.
  unfold preprocess_tag. intros Hrun. inv_bind Hrun. inv_bind Hrun.
  destruct (_ || _).
  - inv_bind Hrun. inv_bind Hrun. inv_bind Hrun.
    assert (extends env a3) as H3.
    { destruct (kv_separator fc).
      - eapply extends_trans; [|by eapply tag_kv_split_extends]. solve_extends.
      - injection Ha3 as <-. solve_extends. }
    inv_bind Hrun.
    assert (extends a3 a4) as H4.
    { destruct (bool_decide (is_Some (hash_bucket_size_field fc))).
      - injection Ha4 as <-. apply extends_refl.
      - repeat inv_bind Ha4. injection Ha4 as <-. solve_extends. }
    eapply extends_trans; [exact H3|]. eapply extends_trans; [exact H4|].
    destruct (bool_decide (1 < length (input_names fc))%nat).
    + repeat inv_bind Hrun.
      match type of Hrun with (if ?b then _ else _) = _ => destruct b end; [|done].
      injection Hrun as <-. solve_extends.
    + injection Hrun as <-. apply extends_refl.
  - destruct (bool_decide (1 < length (input_names fc))%nat).
    + repeat inv_bind Hrun. injection Hrun as <-. solve_extends.
    + injection Hrun as <-. solve_extends.
Qed.

Lemma preprocess_lookup_extends fc env env' :
  preprocess_lookup fc env = Ok env' → extends env env'.
Proof.
  unfold preprocess_lookup. intros Hrun. repeat inv_bind Hrun.
  injection Hrun as <-. solve_extends.
Qed.

Lemma raw_project_extends fc input_0 parsed env env' :
  raw_project fc input_0 parsed env = Ok env' → extends env env'.
Proof.
  unfold raw_project. intros Hrun. inv_bind Hrun. injection Hrun as <-.
  solve_extends.
Qed.

Lemma preprocess_raw_extends self fc env env' :
  preprocess_raw self fc env = Ok env' → extends env env'.
Proof.
  unfold preprocess_raw. intros Hrun. repeat inv_bind Hrun.
  destruct (_ && _).
  - eapply extends_trans; [|by eapply raw_project_extends]. solve_extends.
  - injection Hrun as <-. solve_extends.
Qed.

Lemma preprocess_id_extends fc env env' :
  preprocess_id fc env = Ok env' → extends env env'.
Proof.
  unfold preprocess_id. intros Hrun. repeat inv_bind Hrun.
  repeat match type of Hrun with
         | (if ?b then _ else _) = _ => destruct b
         | (_ ≫= _) = _ => inv_bind Hrun
         end;
    injection Hrun as <-; solve_extends.
Qed.

Lemma sequence_project_2d_extends fc input_0 env env' :
  sequence_project_2d fc input_0 env = Ok env' → extends env env'.
Proof.
  unfold sequence_project_2d. intros Hrun. repeat inv_bind Hrun.
  injection Hrun as <-. solve_extends.
Qed.

Lemma sequence_project_3d_extends fc input_0 env env' :
  sequence_project_3d fc input_0 env = Ok env' → extends env env'.
Proof.
  unfold sequence_project_3d. intros Hrun. repeat inv_bind Hrun.
  injection Hrun as <-. solve_extends.
Qed.

Lemma preprocess_sequence_extends self fc env env' :
  preprocess_sequence self fc env = Ok env' → extends env env'.
Proof.
  unfold preprocess_sequence. intros Hrun. repeat inv_bind Hrun.
  destruct (_ && _).
  { eapply extends_trans; [|by eapply sequence_project_2d_extends]. solve_extends. }
  destruct (_ && _).
  { eapply extends_trans; [|by eapply sequence_project_3d_extends]. solve_extends. }
  injection Hrun as <-. solve_extends.
Qed.

Lemma expr_input_extends prefix input_name env env' :
  expr_input prefix input_name env = Ok env' → extends env env'.
Proof.
  unfold expr_input. intros Hrun. inv_bind Hrun.
  repeat match type of Hrun with
         | (if ?b then _ else _) = _ => destruct b
         | (_ ≫= _) = _ => inv_bind Hrun
         end; try done;
    injection Hrun as <-; solve_extends.
Qed.

Lemma preprocess_expr_extends fc env env' :
  preprocess_expr eval_expression fc env = Ok env' → extends env env'.
Proof.
  unfold preprocess_expr. intros Hrun. inv_bind Hrun. inv_bind Hrun.
  injection Hrun as <-.
  eapply extends_trans.
  { eapply for_each_extends; [|exact Ha]. intros ???. apply expr_input_extends. }
  solve_extends.
Qed.

Lemma preprocess_other_extends fc env env' :
  preprocess_other fc env = Ok env' → extends env env'.
Proof.
  unfold preprocess_other. apply for_each_extends.
  intros input_name env1 env2 Hrun. inv_bind Hrun. injection Hrun as <-.
  solve_extends.
Qed.

Lemma preprocess_feature_extends self fc env env' :
  preprocess_feature eval_expression self fc env = Ok env' → extends env env'.
Proof.
  unfold preprocess_feature. intros Hrun. inv_bind Hrun.
  destruct (feature_type fc).
  - by eapply preprocess_id_extends.
  - by eapply preprocess_tag_extends.
  - by eapply preprocess_raw_extends.
  - by eapply preprocess_other_extends.
  - by eapply preprocess_lookup_extends.
  - by eapply preprocess_sequence_extends.
  - by eapply preprocess_expr_extends.
Qed.

Lemma preprocess_labels_extends self env env' :
  preprocess_labels self env = Ok env' → extends env env'.
Proof.
  unfold preprocess_labels. apply for_each_extends.
  intros [i name] env1 env2. unfold preprocess_label.
  destruct (field_dict env1 !! name).
  - intros Hrun. inv_bind Hrun. injection Hrun as <-. solve_extends.
  - intros [= <-]. apply extends_refl.
Qed.

Lemma preprocess_sample_weight_extends self env env' :
  preprocess_sample_weight SAMPLE_WEIGHT self env = Ok env' → extends env env'.
Proof.
  unfold preprocess_sample_weight.
  destruct (sample_weight_field self); [|intros [= <-]; apply extends_refl].
  destruct (bool_decide _); [|intros [= <-]; apply extends_refl].
  intros Hrun. inv_bind Hrun. injection Hrun as <-. solve_extends.
Qed.

Lemma extends_grows env env' : extends env env' → grows env env'.
Proof. by intros [_ Hg]. Qed.

Lemma for_each_grows {A} (body : A → Env (num:=num) → result Env) l :
  (∀ a env env', body a env = Ok env' → grows env env') →
  ∀ env env', for_each body l env = Ok env' → grows env env'.
Proof.
  intros Hbody. induction l as [|a l IH]; intros env env' Hrun.
  { injection Hrun as <-. apply grows_refl. }
  simpl in Hrun. inv_bind Hrun.
  eapply grows_trans; [by eapply Hbody|by eapply IH].
Qed.

Lemma preprocess_sampler_grows self env env' :
  preprocess_sampler self env = Ok env' → grows env env'.
Proof.
  unfold preprocess_sampler.
  destruct (_sampler self) as [sampler|]; [|intros [= <-]; apply grows_refl].
  intros Hrun. inv_bind Hrun. inv_bind Hrun. revert Hrun.
  apply for_each_grows. intros [k v] env1 env2.
  destruct (field_dict env1 !! k) as [f|] eqn:Hk.
  - intros Hrun. inv_bind Hrun. injection Hrun as <-.
    split; [|split; [done|]].
    + intros k'. simpl. destruct (decide (k = k')) as [<-|Hne].
      * rewrite lookup_insert_eq, Hk. by split.
      * by rewrite lookup_insert_ne.
    + exists []. simpl. split; [by rewrite app_nil_r|].
      intros k' Hk'. by apply elem_of_nil in Hk'.
  - intros [= <-]. apply extends_grows.
    eapply extends_trans; [apply extends_set_parsed|].
    apply extends_append_field. simpl. by rewrite lookup_insert_eq.
Qed.

Lemma preprocess_grows self appended_fields (fd : gmap string (DenseTensor num)) env' :
  _preprocess SAMPLE_WEIGHT eval_expression self appended_fields fd = Ok env' →
  grows {| field_dict := fd; parsed_dict := ∅; _appended_fields := appended_fields |}
    env'.
Proof.
  unfold _preprocess. intros Hrun.
  inv_bind Hrun. inv_bind Hrun. inv_bind Hrun.
  eapply grows_trans; [by eapply preprocess_sampler_grows|].
  apply extends_grows. eapply extends_trans.
  { eapply for_each_extends; [|exact Ha0].
    intros ???. apply preprocess_feature_extends. }
  eapply extends_trans; [by eapply preprocess_labels_extends|].
  by eapply preprocess_sample_weight_extends.
Qed.

(** X8.  When [_preprocess] returns, the batch has the same field names as
    before (and is the same batch when no sampler is configured), and the
    names it has added to [_appended_fields] are all keys of the parsed
    dictionary it returns. *)
Theorem appended_fields_are_parsed self appended_fields
    (fd : gmap string (DenseTensor num)) env' :
  _preprocess SAMPLE_WEIGHT eval_expression self appended_fields fd = Ok env' →
  (∀ k, is_Some (field_dict env' !! k) ↔ is_Some (fd !! k))
  ∧ (_sampler self = None → field_dict env' = fd)
  ∧ ∃ more, _appended_fields env' = appended_fields ++ more
            ∧ ∀ k, k ∈ more → is_Some (parsed_dict env' !! k).
Proof.
  intros Hrun.
  destruct (preprocess_grows _ _ _ _ Hrun) as (Hdom & _ & Hmore).
  split; [done|]. split; [|done].
  intros Hnone. unfold _preprocess, preprocess_sampler in Hrun. rewrite Hnone in Hrun.
  rewrite PreprocessFacts.bind_Ok in Hrun.
  inv_bind Hrun. inv_bind Hrun.
  assert (extends {| field_dict := fd; parsed_dict := ∅;
                     _appended_fields := appended_fields |} env') as [Hfd _]; [|done].
  eapply extends_trans.
  { eapply for_each_extends; [|exact Ha].
    intros ???. apply preprocess_feature_extends. }
  eapply extends_trans; [by eapply preprocess_labels_extends|].
  by eapply preprocess_sample_weight_extends.
Qed.

(** ** A feature whose first input is missing from the batch *)

Lemma missing_input_feature self fc env input_0 :
  input_names fc !! 0%nat = Some input_0 → field_dict env !! input_0 = None →
  is_Raise (preprocess_feature eval_expression self fc env)
  ∧ (feature_type fc ≠ LookupFeature →
     preprocess_feature eval_expression self fc env = Raise (KeyError input_0)).
Proof.
  intros Hin Hfd.
  assert (getitem (field_dict env) input_0 = Raise (KeyError input_0)) as Hget.
  { unfold getitem. by rewrite Hfd. }
  assert (∃ rest, input_names fc = input_0 :: rest) as [rest Hnames].
  { destruct (input_names fc) as [|i l]; [done|]. injection Hin as ->. by eexists. }
  unfold preprocess_feature.
  rewrite (PreprocessFacts.first_input_ok _ _ Hin), PreprocessFacts.bind_Ok.
  destruct (feature_type fc).
  - unfold preprocess_id.
    rewrite (PreprocessFacts.first_input_ok _ _ Hin), PreprocessFacts.bind_Ok, Hget.
    split; [by eexists|done].
  - unfold preprocess_tag.
    rewrite (PreprocessFacts.first_input_ok _ _ Hin), PreprocessFacts.bind_Ok, Hget.
    split; [by eexists|done].
  - unfold preprocess_raw.
    rewrite (PreprocessFacts.first_input_ok _ _ Hin), PreprocessFacts.bind_Ok, Hget.
    split; [by eexists|done].
  - unfold preprocess_other. rewrite Hnames. simpl. rewrite Hget.
    split; [by eexists|done].
  - split; [|done]. unfold preprocess_lookup.
    destruct (py_assert (str_nonempty _) _) as [[]|];
      [|rewrite PreprocessFacts.bind_Raise; by eexists].
    rewrite PreprocessFacts.bind_Ok.
    destruct (py_assert _ _) as [[]|];
      [|rewrite PreprocessFacts.bind_Raise; by eexists].
    rewrite PreprocessFacts.bind_Ok.
    unfold _lookup_preprocess.
    rewrite (PreprocessFacts.first_input_ok _ _ Hin), PreprocessFacts.bind_Ok.
    destruct (subscript (input_names fc) 1); [|rewrite PreprocessFacts.bind_Raise; by eexists].
    rewrite PreprocessFacts.bind_Ok, Hget, !PreprocessFacts.bind_Raise. by eexists.
  - unfold preprocess_sequence.
    rewrite (PreprocessFacts.first_input_ok _ _ Hin), PreprocessFacts.bind_Ok, Hget.
    split; [by eexists|done].
  - unfold preprocess_expr. rewrite Hnames, PreprocessFacts.for_each_cons.
    assert (expr_input "expr_" input_0 env = Raise (KeyError input_0)) as ->.
    { unfold expr_input. by rewrite Hget. }
    split; [by eexists|done].
Qed.

(** X9.  When the first input of a configured feature is not a field of the
    batch, [_preprocess] fails; for every feature type but Lookup the step
    of that feature fails with [KeyError] on the name of the input. *)
Theorem missing_input_field_fails self fc appended_fields
    (fd : gmap string (DenseTensor num)) input_0 :
  fc ∈ _feature_configs self →
  input_names fc !! 0%nat = Some input_0 → fd !! input_0 = None →
  is_Raise (_preprocess SAMPLE_WEIGHT eval_expression self appended_fields fd)
  ∧ ∀ env, field_dict env !! input_0 = None → feature_type fc ≠ LookupFeature →
      preprocess_feature eval_expression self fc env = Raise (KeyError input_0).
Proof.
  intros Hfc Hin Hfd. split.
  2:{ intros env Henv. by apply missing_input_feature. }
  unfold _preprocess.
  destruct (preprocess_sampler self _) as [env1|e] eqn:Hs; [|by eexists].
  rewrite PreprocessFacts.bind_Ok.
  assert (field_dict env1 !! input_0 = None) as H1.
  { apply preprocess_sampler_grows in Hs as (Hdom & _). simpl in Hdom.
    apply eq_None_not_Some. rewrite Hdom. by rewrite Hfd; intros []. }
  assert (is_Raise (for_each (preprocess_feature eval_expression self)
                      (_feature_configs self) env1)) as [e ->]; [|by eexists].
  clear Hs. revert env1 H1 Hfc. generalize (_feature_configs self).
  intros l. induction l as [|c l IH]; intros env1 H1 Hfc.
  { by apply elem_of_nil in Hfc. }
  rewrite PreprocessFacts.for_each_cons.
  destruct (preprocess_feature eval_expression self c env1) as [env2|e] eqn:Hc;
    [|by eexists].
  rewrite PreprocessFacts.bind_Ok.
  apply elem_of_cons in Hfc as [<-|Hfc].
  - destruct (missing_input_feature self fc env1 input_0 Hin H1) as [[e He] _].
    by rewrite He in Hc.
  - apply IH; [|done].
    destruct (preprocess_feature_extends _ _ _ _ Hc) as [-> _]. done.
Qed.

(** ** The dtype of a Raw feature *)

Lemma string_to_float32_dtype (v parsed : Values num) :
  string_to_number v tf_float32 = Ok parsed →
  dtype_of parsed = tf_float32 ∧ num_values parsed = num_values v.
Proof.
  unfold string_to_number. intros Hrun. inv_bind Hrun.
  destruct v; try done. injection Ha as <-.
  destruct (parse_all string_to_float32 l) as [ws|] eqn:Hp; [|done].
  injection Hrun as <-. split; [done|]. simpl.
  revert ws Hp. unfold parse_all. induction l as [|s l IH]; intros ws Hp.
  { by injection Hp as <-. }
  simpl in Hp. destruct (string_to_float32 s); [|done]. simpl in Hp.
  destruct (map_result _ l) as [ws'|]; [|done]. injection Hp as <-.
  simpl. f_equal. by apply IH.
Qed.

Lemma raw_parse_dtype fc field parsed :
  raw_parse fc field = Ok parsed →
  dtype_of (data parsed) = tf_float32
  ∧ (if bool_decide (dtype_of (data field) = tf_string)
        && bool_decide (raw_input_dim fc > 1)
     then ∃ n, shape field !! 0%nat = Some n ∧ shape parsed = [n; raw_input_dim fc]
     else shape parsed = shape field).
Proof.
  unfold raw_parse. intros Hrun. inv_bind Hrun.
  assert (dtype_of (data a) = tf_float32
    ∧ (if bool_decide (dtype_of (data field) = tf_string)
          && bool_decide (raw_input_dim fc > 1)
       then ∃ n, shape field !! 0%nat = Some n ∧ shape a = [n; raw_input_dim fc]
       else shape a = shape field)) as [Hd Hs].
  { destruct (bool_decide (dtype_of (data field) = tf_string)); simpl.
    - destruct (bool_decide (raw_input_dim fc > 1)).
      + apply bind_eq_Ok in Ha as (tmp_fea & Hsplit & Ha).
        apply bind_eq_Ok in Ha as (tmp_vals & Hvals & Ha).
        apply bind_eq_Ok in Ha as (n & Hn & Ha).
        apply string_to_float32_dtype in Hvals as [Hd _].
        unfold subscript in Hn. destruct (shape field !! 0%nat) as [n'|] eqn:Hn'; [|done].
        injection Hn as <-.
        unfold sparse_to_dense in Ha.
        apply bind_eq_Ok in Ha as (d & Hsc & Ha). injection Ha as <-. simpl.
        split; [|by exists n'].
        destruct tmp_vals; try done. simpl in Hsc.
        destruct (scatter _ _ _ _); [|done]. by injection Hsc as <-.
      + inv_bind Ha. injection Ha as <-. simpl.
        by apply string_to_float32_dtype in Ha0 as [Hd _].
    - destruct (bool_decide (_ ∈ _)); [|done]. inv_bind Ha. injection Ha as <-.
      simpl. split; [|done]. destruct (data field); try done; by injection Ha0 as <-. }
  destruct (num_ltb _ _).
  - inv_bind Hrun. injection Hrun as <-. simpl. split; [|done].
    destruct (data a); try done. by injection Ha0 as <-.
  - by injection Hrun as <-.
Qed.

(** X10.  For a Raw feature whose input is a field of the batch: whenever
    its step returns, the parsed field stored under the name of the input is
    a dense [float32] tensor, of shape [[n; raw_input_dim]] when the field
    is of strings and [raw_input_dim > 1] and of the shape of the field
    otherwise; a field of a numeric dtype with at least one dimension always
    goes through; a [bool] field fails with the assertion on the dtype. *)
Theorem raw_feature_is_float32 self fc env input_0 field :
  input_names fc !! 0%nat = Some input_0 →
  field_dict env !! input_0 = Some field →
  (∀ env', preprocess_raw self fc env = Ok env' →
     ∃ parsed,
       parsed_dict env' !! input_0 = Some (Dense parsed)
       ∧ dtype_of (data parsed) = tf_float32
       ∧ (if bool_decide (dtype_of (data field) = tf_string)
             && bool_decide (raw_input_dim fc > 1)
          then ∃ n, shape field !! 0%nat = Some n
                    ∧ shape parsed = [n; raw_input_dim fc]
          else shape parsed = shape field))
  ∧ (is_numeric (dtype_of (data field)) = true → shape field ≠ [] →
     is_Ok (preprocess_raw self fc env))
  ∧ (dtype_of (data field) = tf_bool →
     preprocess_raw self fc env = Raise (AssertionError "invalid dtype for raw feature")).
Proof.
  intros Hin Hfield. rewrite (PreprocessFacts.preprocess_raw_eq _ _ _ _ _ Hin Hfield).
  split; [|split].
  - intros env' Hrun. inv_bind Hrun. exists a.
    destruct (raw_parse_dtype _ _ _ Ha) as [Hd Hs]. split; [|done].
    destruct (_ && _).
    + unfold raw_project in Hrun. inv_bind Hrun. injection Hrun as <-. simpl.
      rewrite !lookup_insert_ne
        by (apply PreprocessFacts.raw_proj_val_ne || apply PreprocessFacts.raw_proj_id_ne).
      by rewrite lookup_insert_eq.
    + injection Hrun as <-. simpl. by rewrite lookup_insert_eq.
  - intros Hnum Hsh.
    destruct (PreprocessFacts.raw_parse_numeric fc field Hnum) as [parsed Hp].
    rewrite Hp, PreprocessFacts.bind_Ok.
    destruct (_ && _); [|by eexists].
    unfold raw_project.
    destruct (raw_parse_dtype _ _ _ Hp) as [_ Hs].
    rewrite bool_decide_eq_false_2 in Hs.
    2:{ intros E. rewrite E in Hnum. done. }
    simpl in Hs. rewrite Hs. unfold subscript.
    destruct (shape field) as [|n sh]; [done|]. simpl. by eexists.
  - intros Hb. unfold raw_parse. rewrite Hb. done.
Qed.

(** ** Labels that are not in the batch *)

(** X11.  When every label that is present in the batch can be parsed, the
    loop over the labels returns; a configured label that the batch does not
    have is skipped without an error, nothing is stored under its name, and
    when the batch has none of the labels the state is left as it was. *)
Theorem absent_labels_are_skipped self env :
  (∀ i name field, _label_fields self !! i = Some name →
     field_dict env !! name = Some field → is_Ok (parse_label self i field)) →
  ∃ env',
    preprocess_labels self env = Ok env'
    ∧ (∀ name, field_dict env !! name = None →
         parsed_dict env' !! name = parsed_dict env !! name)
    ∧ ((∀ name, name ∈ _label_fields self → field_dict env !! name = None) →
       env' = env).
Proof.
  intros Hok. unfold preprocess_labels.
  destruct (PreprocessFacts.labels_loop_succeeds self
              (enumerate (_label_fields self)) env) as [env' Hrun].
  { intros i name field Hin. apply Hok. by apply PreprocessFacts.elem_of_enumerate. }
  exists env'. split; [done|].
  assert (∀ labels env env',
    for_each (preprocess_label self) labels env = Ok env' →
    field_dict env' = field_dict env
    ∧ (∀ name, field_dict env !! name = None →
         parsed_dict env' !! name = parsed_dict env !! name)
    ∧ ((∀ name, name ∈ labels.*2 → field_dict env !! name = None) → env' = env))
    as Hloop.
  { clear. intros labels. induction labels as [|[i name] labels IH]; intros env env' Hrun.
    { by injection Hrun as <-. }
    rewrite PreprocessFacts.for_each_cons in Hrun. inv_bind Hrun.
    destruct (IH _ _ Hrun) as (Hfd & Hp & Hall).
    unfold preprocess_label in Ha.
    destruct (field_dict env !! name) as [field|] eqn:Hf.
    - inv_bind Ha. injection Ha as <-. simpl in *.
      split; [done|]. split.
      + intros name' Hn. rewrite Hp by done. apply lookup_insert_ne. congruence.
      + intros Hnone. specialize (Hnone name ltac:(left)). congruence.
    - injection Ha as <-. split; [done|]. split; [done|].
      intros Hnone. apply Hall. intros name' Hin. apply Hnone. by right. }
  destruct (Hloop _ _ _ Hrun) as (_ & Hp & Hall). split; [done|].
  intros Hnone. apply Hall. intros name Hin. apply Hnone.
  by rewrite PreprocessFacts.enumerate_snd in Hin.
Qed.

(** ** A Lookup feature with a scalar key *)

Lemma zip_with_replicate_l {A B C} (f : A → B → C) a (l : list B) :
  zip_with f (replicate (length l) a) l = f a <$> l.
Proof. induction l as [|b l IH]; simpl; [done|]. by rewrite IH. Qed.

(** X12.  For a Lookup feature whose key and map are scalar strings and
    whose map is well formed, [_lookup_preprocess] returns one sparse row
    with every value of the map whose key is the key, in the order of the
    map, at the indices [[0; j]] and with the dense shape [[1; number of
    matches]]: it pads nothing and does not look at
    [lookup_max_sel_elem_num]. *)
Theorem lookup_scalar_key_selects_all fc (fd : gmap string (DenseTensor num))
    key_field map_field one_key one_map :
  input_names fc !! 0%nat = Some key_field →
  input_names fc !! 1%nat = Some map_field →
  fd !! key_field = Some (scalar_string one_key) →
  fd !! map_field = Some (scalar_string one_map) →
  well_formed_map fc one_map →
  _lookup_preprocess fc fd
  = Ok (Sparse
          {| indices := (λ j, [0; j])
                          <$> seqZ 0 (Z.of_nat (length (selected fc one_key one_map)));
             values := VString (selected fc one_key one_map);
             dense_shape := [1; Z.of_nat (length (selected fc one_key one_map))] |}).
Proof.
  intros Hk Hm Hkf Hmf Hwf. unfold _lookup_preprocess.
  rewrite (PreprocessFacts.subscript_ok _ _ _ Hk), PreprocessFacts.bind_Ok,
    (PreprocessFacts.subscript_ok _ _ _ Hm), PreprocessFacts.bind_Ok.
  rewrite (PreprocessFacts.getitem_ok _ _ _ Hkf), PreprocessFacts.bind_Ok,
    (PreprocessFacts.getitem_ok _ _ _ Hmf), PreprocessFacts.bind_Ok.
  simpl. rewrite (PreprocessFacts.lookup_select_scalar _ _ _ Hwf).
  rewrite PreprocessFacts.bind_Ok. do 3 f_equal.
  unfold concat_columns. rewrite Nat2Z.id.
  set (sel := selected fc one_key one_map).
  replace (length sel) with (length (seqZ 0 (Z.of_nat (length sel)))) at 1
    by (rewrite length_seqZ; lia).
  apply zip_with_replicate_l.
Qed.

(** ** A Tag feature with a field of weights *)

(** X13.  For a Tag feature with a value input and a weight input, no
    [kv_separator] and a hash bucket size, on two vectors of strings whose
    weight tokens are numbers: when the batch has as many value tokens as
    weight tokens in total, the values are stored as their split sparse
    container and the weights as a sparse [float32] container with the
    indices and the shape of the split weight field; when the two totals
    differ, the step fails with the invalid-argument error
    [tag_feature_kv_size_not_eq_] followed by the name of the value input. *)
Theorem tag_weight_count_is_checked fc env input_0 input_1 field_0 field_1
    strs_0 strs_1 n_0 n_1 ws :
  input_names fc = [input_0; input_1] →
  kv_separator fc = None → is_Some (hash_bucket_size_field fc) →
  field_dict env !! input_0 = Some field_0 →
  field_dict env !! input_1 = Some field_1 →
  data field_0 = VString strs_0 → shape field_0 = [n_0] →
  data field_1 = VString strs_1 → shape field_1 = [n_1] →
  Forall2 (λ s w, string_to_float32 s = Some w) (tag_tokens fc strs_1) ws →
  (length (tag_tokens fc strs_0) = length (tag_tokens fc strs_1) →
   preprocess_tag fc env
   = Ok (set_parsed input_1
           (Sparse {| indices :=
                        ragged_indices (split_element (separator fc) true <$> strs_1);
                      values := VFloat32 ws;
                      dense_shape :=
                        [Z.of_nat (length strs_1);
                         max_row_length (split_element (separator fc) true <$> strs_1)] |})
           (set_parsed input_0
              (Sparse (ragged_to_sparse (split_element (separator fc) true <$> strs_0)))
              env)))
  ∧ (length (tag_tokens fc strs_0) ≠ length (tag_tokens fc strs_1) →
     preprocess_tag fc env
     = Raise (InvalidArgumentError ("tag_feature_kv_size_not_eq_" +:+ input_0))).
Proof.
  intros Hin Hkv Hh Hf0 Hf1 Hd0 Hs0 Hd1 Hs1 Hws.
  unfold preprocess_tag. rewrite Hin. simpl.
  rewrite (PreprocessFacts.getitem_ok _ _ _ Hf0), PreprocessFacts.bind_Ok.
  rewrite Hs0. simpl.
  rewrite (PreprocessFacts.string_split_vector _ strs_0 _ _ n_0) by done.
  rewrite PreprocessFacts.bind_Ok, Hkv, PreprocessFacts.bind_Ok.
  rewrite bool_decide_eq_true_2 by done. rewrite PreprocessFacts.bind_Ok.
  simpl. rewrite (PreprocessFacts.getitem_ok _ _ _ Hf1), PreprocessFacts.bind_Ok.
  rewrite Hs1. simpl.
  rewrite (PreprocessFacts.string_split_vector _ strs_1 _ _ n_1) by done.
  rewrite PreprocessFacts.bind_Ok. simpl.
  fold (tag_tokens fc strs_1).
  assert (string_to_number (VString (tag_tokens fc strs_1)) tf_float32
          = Ok (VFloat32 ws)) as ->.
  { unfold string_to_number. simpl.
    by rewrite (PreprocessFacts.parse_all_Forall2 _ _ _ Hws). }
  rewrite PreprocessFacts.bind_Ok. unfold getitem. rewrite lookup_insert_eq.
  rewrite !PreprocessFacts.bind_Ok. simpl. fold (tag_tokens fc strs_0).
  rewrite length_fmap.
  assert (length ws = length (tag_tokens fc strs_1)) as Hlen
    by (symmetry; by eapply Forall2_length).
  split; intros Hcount.
  - by rewrite bool_decide_eq_true_2 by congruence.
  - by rewrite bool_decide_eq_false_2 by congruence.
Qed.

End Preprocessing.
End PreprocessMore.

(** * Properties of the input object *)

Module InputMore.
Import Preprocess InputObject.

Section InputFacts.
Context {num : Type} `{TFNum num}.
Variable auto_expand_names : string → list string.
Variable build_sampler : DatasetConfig → option (Sampler (num:=num)).
Variable set_to_list : list nat → list nat.
Implicit Types (fc : FeatureConfig num) (obj : InputObject (num:=num)).

Lemma map_result_Forall2 {A B} (f : A → result B) l bs :
  map_result f l = Ok bs ↔ Forall2 (λ a b, f a = Ok b) l bs.
Proof.
  revert bs. induction l as [|a l IH]; intros bs; simpl.
  { split; [intros [= <-]; constructor|by intros ->%Forall2_nil_inv_l]. }
  split.
  - intros Hrun. apply PreprocessMore.bind_eq_Ok in Hrun as (b & Hb & Hrun).
    apply PreprocessMore.bind_eq_Ok in Hrun as (bs' & Hbs & Hrun). injection Hrun as <-.
    constructor; [done|]. by apply IH.
  - intros (b & bs' & Hb & Hbs & ->)%Forall2_cons_inv_l.
    rewrite Hb. simpl. apply IH in Hbs. by rewrite Hbs.
Qed.

Lemma py_index_Ok (l : list string) x i :
  py_index l x = Ok i ↔ l !! i = Some x ∧ ∀ j y, l !! j = Some y → (j < i)%nat → y ≠ x.
Proof.
  unfold py_index. destruct (list_find _ l) as [[i' y]|] eqn:Hf.
  - apply list_find_Some in Hf as (Hi & -> & Hfirst). split.
    + intros [= <-]. split; [done|]. intros j y Hj Hlt. by eapply Hfirst.
    + intros [Hx Hmin]. f_equal.
      destruct (Nat.lt_trichotomy i i') as [Hlt|[->|Hlt]]; [|done|].
      * by destruct (Hfirst i x Hx Hlt).
      * by destruct (Hmin i' x Hi Hlt).
  - split; [done|]. intros [Hx _].
    apply list_find_None in Hf. rewrite Forall_forall in Hf.
    destruct (Hf x); [by eapply list_elem_of_lookup_2|done].
Qed.

Lemma py_index_elem (l : list string) x : x ∈ l → is_Ok (py_index l x).
Proof.
  intros Hx. unfold py_index.
  destruct (list_find _ l) as [[i y]|] eqn:Hf; [by eexists|].
  apply list_find_None in Hf. rewrite Forall_forall in Hf. by destruct (Hf x).
Qed.

(** ** The effective fields *)

Lemma add_effective_fields_spec input_fields fc eff eff' :
  add_effective_fields input_fields fc eff = Ok eff' →
  NoDup eff →
  NoDup eff'
  ∧ (∀ x, x ∈ eff' ↔ x ∈ eff ∨ x ∈ input_names fc)
  ∧ (∀ x, x ∈ input_names fc → x ∈ input_fields).
Proof.
  unfold add_effective_fields. generalize (input_names fc). intros names.
  revert eff. induction names as [|n names IH]; intros eff Hrun Hnd.
  { injection Hrun as <-. split; [done|]. split.
    - intros x. rewrite elem_of_nil. tauto.
    - intros x Hx. by apply elem_of_nil in Hx. }
  simpl in Hrun. apply PreprocessMore.bind_eq_Ok in Hrun as (eff1 & Hstep & Hrun).
  apply PreprocessMore.bind_eq_Ok in Hstep as ([] & Hassert & Hstep). injection Hstep as <-.
  unfold py_assert in Hassert.
  destruct (bool_decide (n ∈ input_fields)) eqn:Hin; [|done].
  apply bool_decide_eq_true in Hin.
  destruct (IH _ Hrun) as (Hnd' & Hel & Hall).
  { destruct (bool_decide (n ∈ eff)) eqn:Hmem; [done|].
    apply bool_decide_eq_false in Hmem.
    apply NoDup_app. split; [done|]. split; [|apply NoDup_singleton].
    intros x Hx ->%list_elem_of_singleton. done. }
  split; [done|]. split.
  - intros x. rewrite Hel, elem_of_cons.
    destruct (bool_decide (n ∈ eff)) eqn:Hmem.
    + apply bool_decide_eq_true in Hmem.
      split; [tauto|]. intros [?|[->|?]]; tauto.
    + rewrite elem_of_app, list_elem_of_singleton. tauto.
  - intros x [->|Hx]%elem_of_cons; [done|by apply Hall].
Qed.

Lemma effective_loop input_fields (fcs : list (FeatureConfig num)) :
  ∀ eff mvt eff' mvt',
  for_each (λ fc '(effective_fields, multi_value_types),
      effective_fields ← add_effective_fields input_fields fc effective_fields;
      multi_value_types ← add_multi_value_types fc multi_value_types;
      Ok (effective_fields, multi_value_types))
    fcs (eff, mvt) = Ok (eff', mvt') →
  NoDup eff →
  NoDup eff'
  ∧ (∀ x, x ∈ eff' ↔ x ∈ eff ∨ ∃ fc, fc ∈ fcs ∧ x ∈ input_names fc)
  ∧ (∀ fc x, fc ∈ fcs → x ∈ input_names fc → x ∈ input_fields).
Proof.
  induction fcs as [|fc fcs IH]; intros eff mvt eff' mvt' Hrun Hnd.
  { injection Hrun as <- <-. split; [done|]. split.
    - intros x. split; [tauto|]. intros [?|(fc & Hfc & _)]; [done|].
      by apply elem_of_nil in Hfc.
    - intros fc x Hfc. by apply elem_of_nil in Hfc. }
  simpl in Hrun. apply PreprocessMore.bind_eq_Ok in Hrun as ([eff1 mvt1] & Hstep & Hrun).
  apply PreprocessMore.bind_eq_Ok in Hstep as (eff1' & Hadd & Hstep).
  apply PreprocessMore.bind_eq_Ok in Hstep as (mvt1' & _ & Hstep). injection Hstep as <- <-.
  destruct (add_effective_fields_spec _ _ _ _ Hadd Hnd) as (Hnd1 & Hel1 & Hall1).
  destruct (IH _ _ _ _ Hrun Hnd1) as (Hnd' & Hel & Hall).
  split; [done|]. split.
  - intros x. rewrite Hel, Hel1. split.
    + intros [[?|?]|(fc' & Hfc' & Hx)]; [by left| |].
      * right. exists fc. split; [by left|done].
      * right. exists fc'. split; [by right|done].
    + intros [?|(fc' & [->|Hfc']%elem_of_cons & Hx)]; [by left; left|by left; right|].
      right. by exists fc'.
  - intros fc' x [->|Hfc']%elem_of_cons Hx; [by apply Hall1|by eapply Hall].
Qed.

(** X14.  Provided Python lists a set of field ids without repetition and
    with exactly its elements: when [Input.__init__] returns,
    [_effective_fields] has no duplicates and holds exactly the input names
    of the feature configurations and the sample-weight field when one is
    configured, every effective field and every label field is an input
    field, and [_effective_fids] lists the index of each effective field
    among the input fields, in the same order. *)
Theorem init_effective_fields data_config (feature_configs : list (FeatureConfig num))
    input_path task_index task_num obj :
  (∀ l, NoDup (set_to_list l) ∧ ∀ i, i ∈ set_to_list l ↔ i ∈ l) →
  __init__ auto_expand_names build_sampler set_to_list data_config feature_configs
    input_path task_index task_num = Ok obj →
  NoDup (_effective_fields obj)
  ∧ (∀ x, x ∈ _effective_fields obj ↔
       (∃ fc, fc ∈ feature_configs ∧ x ∈ input_names fc)
       ∨ dc_sample_weight data_config = Some x)
  ∧ (∀ x, x ∈ _effective_fields obj → x ∈ _input_fields obj)
  ∧ (∀ x, x ∈ label_fields data_config → x ∈ _input_fields obj)
  ∧ Forall2 (λ i x, py_index (_input_fields obj) x = Ok i)
      (_effective_fids obj) (_effective_fields obj).
Proof.
  intros Hset. unfold __init__.
  set (dc := if auto_expand_input_fields data_config then _ else data_config).
  assert (dc_sample_weight dc = dc_sample_weight data_config
          ∧ label_fields dc = label_fields data_config) as [Hsw Hlab].
  { unfold dc. by destruct (auto_expand_input_fields data_config). }
  set (fields := input_name <$> input_fields dc).
  intros Hrun.
  apply PreprocessMore.bind_eq_Ok in Hrun as ([eff mvt] & Hloop & Hrun).
  apply PreprocessMore.bind_eq_Ok in Hrun as (fids & Hfids & Hrun).
  apply PreprocessMore.bind_eq_Ok in Hrun as (eff' & Heff' & Hrun).
  apply PreprocessMore.bind_eq_Ok in Hrun as (lfids & Hlfids & Hrun).
  injection Hrun as <-. simpl.
  destruct (effective_loop _ _ _ _ _ _ Hloop (NoDup_nil_2)) as (_ & Hel & _).
  rewrite Hsw in Hfids.
  set (eff1 := match dc_sample_weight data_config with
               | Some sample_weight => eff ++ [sample_weight]
               | None => eff
               end) in *.
  assert (∀ x, x ∈ eff1 ↔ (∃ fc, fc ∈ feature_configs ∧ x ∈ input_names fc)
                          ∨ dc_sample_weight data_config = Some x) as Hel1.
  { assert (∀ x, x ∈ eff ↔ ∃ fc, fc ∈ feature_configs ∧ x ∈ input_names fc) as Hel0.
    { intros x. rewrite Hel. split; [|by right].
      intros [Hx|?]; [|done]. by apply elem_of_nil in Hx. }
    intros x. unfold eff1. destruct (dc_sample_weight data_config) as [sw|].
    - rewrite elem_of_app, list_elem_of_singleton, Hel0.
      split; [intros [?| ->]; auto|intros [?|[= ->]]; auto].
    - rewrite Hel0. split; [by left|]. by intros [?|?]. }
  apply map_result_Forall2 in Hfids, Heff', Hlfids.
  destruct (Hset fids) as [Hnd Hsame].
  assert (∀ i x, i ∈ set_to_list fids → fields !! i = Some x →
                 x ∈ eff1 ∧ py_index fields x = Ok i) as Hback.
  { intros i x Hi Hx. apply Hsame in Hi.
    apply list_elem_of_lookup in Hi as (p & Hp).
    destruct (Forall2_lookup_r _ _ _ _ _ Hfids Hp) as (y & Hy & Hidx).
    pose proof Hidx as Hidx'. apply py_index_Ok in Hidx as [Hiy _].
    assert (x = y) as -> by congruence.
    split; [by eapply list_elem_of_lookup_2|done]. }
  assert (Forall2 (λ i x, py_index fields x = Ok i) (set_to_list fids) eff') as Hpairs.
  { apply Forall2_same_length_lookup. split; [by eapply Forall2_length|].
    intros p i x Hi Hx.
    pose proof (Forall2_lookup_lr _ _ _ _ _ _ Heff' Hi Hx) as Hsub.
    unfold subscript in Hsub. destruct (fields !! i) as [x'|] eqn:Hfi; [|done].
    injection Hsub as ->.
    by apply (Hback i x); [by eapply list_elem_of_lookup_2|]. }
  split; [|split; [|split; [|split]]].
  - assert (eff' = (λ i, default "" (fields !! i)) <$> set_to_list fids) as ->.
    { apply list_eq_same_length with (length eff').
      - rewrite length_fmap. by eapply Forall2_length.
      - done.
      - intros p x y _ Hx Hy. rewrite list_lookup_fmap in Hy.
        destruct (set_to_list fids !! p) as [i|] eqn:Hi; [|done].
        injection Hy as <-.
        pose proof (Forall2_lookup_lr _ _ _ _ _ _ Hpairs Hi Hx) as Hidx.
        apply py_index_Ok in Hidx as [-> _]. done. }
    apply NoDup_fmap_2_strong; [|done].
    intros i j Hi Hj Heq.
    apply list_elem_of_lookup in Hi as (p & Hp).
    apply list_elem_of_lookup in Hj as (q & Hq).
    destruct (Forall2_lookup_l _ _ _ _ _ Heff' Hp) as (x & _ & Hx).
    destruct (Forall2_lookup_l _ _ _ _ _ Heff' Hq) as (y & _ & Hy).
    unfold subscript in Hx, Hy.
    destruct (fields !! i) as [x'|] eqn:Hfi; [|done].
    destruct (fields !! j) as [y'|] eqn:Hfj; [|done].
    simpl in Heq. subst y'.
    destruct (Hback i x') as [_ Hix]; [by eapply list_elem_of_lookup_2|done|].
    destruct (Hback j x') as [_ Hjx]; [by eapply list_elem_of_lookup_2|done|].
    congruence.
  - intros x. rewrite <- Hel1. split.
    + intros Hx. apply list_elem_of_lookup in Hx as (p & Hp).
      destruct (Forall2_lookup_r _ _ _ _ _ Hpairs Hp) as (i & Hi & Hidx).
      pose proof Hidx as Hidx'. apply py_index_Ok in Hidx' as [Hfi _].
      by apply (Hback i x); [by eapply list_elem_of_lookup_2|].
    + intros Hx. apply list_elem_of_lookup in Hx as (p & Hp).
      destruct (Forall2_lookup_l _ _ _ _ _ Hfids Hp) as (i & Hi & Hidx).
      assert (i ∈ set_to_list fids) as Hin
        by (apply Hsame; by eapply list_elem_of_lookup_2).
      apply list_elem_of_lookup in Hin as (q & Hq).
      destruct (Forall2_lookup_l _ _ _ _ _ Hpairs Hq) as (y & Hy & Hidy).
      apply py_index_Ok in Hidx as [Hfx _]. apply py_index_Ok in Hidy as [Hfy _].
      assert (x = y) as -> by congruence. by eapply list_elem_of_lookup_2.
  - intros x Hx. apply list_elem_of_lookup in Hx as (p & Hp).
    destruct (Forall2_lookup_r _ _ _ _ _ Hpairs Hp) as (i & Hi & Hidx).
    apply py_index_Ok in Hidx as [Hfi _]. by eapply list_elem_of_lookup_2.
  - intros x Hx. rewrite <- Hlab in Hx. apply list_elem_of_lookup in Hx as (p & Hp).
    destruct (Forall2_lookup_l _ _ _ _ _ Hlfids Hp) as (i & Hi & Hidx).
    apply py_index_Ok in Hidx as [Hfi _]. by eapply list_elem_of_lookup_2.
  - done.
Qed.

(** ** The dimensions and the separators of the labels *)

(** X15.  When [Input.__init__] returns, the label fields are those of the
    configuration and the label at position [i] has the dimension
    [label_dim[i]] when the configuration gives one and 1 otherwise, whereas
    the list of separators is not padded: a string label of dimension at
    most 1 is parsed as it is, and a string label of a dimension above 1
    without a separator at its position makes the parse fail with
    [IndexError]. *)
Theorem label_dims_are_padded data_config (feature_configs : list (FeatureConfig num))
    input_path task_index task_num obj :
  __init__ auto_expand_names build_sampler set_to_list data_config feature_configs
    input_path task_index task_num = Ok obj →
  _label_fields (_preprocess_self obj) = label_fields data_config
  ∧ (∀ i name, label_fields data_config !! i = Some name →
       _label_dim (_preprocess_self obj) !! i
       = Some (default 1 (label_dim data_config !! i)))
  ∧ (∀ i name field, label_fields data_config !! i = Some name →
       dtype_of (data field) = tf_string →
       default 1 (label_dim data_config !! i) ≤ 1 →
       parse_label (_preprocess_self obj) i field
       = (v ← string_to_number (data field) tf_float32;
          Ok {| shape := shape field; data := v |}))
  ∧ (∀ i name field, label_fields data_config !! i = Some name →
       dtype_of (data field) = tf_string →
       default 1 (label_dim data_config !! i) > 1 →
       label_sep data_config !! i = None →
       parse_label (_preprocess_self obj) i field = Raise IndexError).
Proof.
  unfold __init__.
  set (dc := if auto_expand_input_fields data_config then _ else data_config).
  assert (label_fields dc = label_fields data_config
          ∧ label_dim dc = label_dim data_config
          ∧ label_sep dc = label_sep data_config) as (Hlab & Hdim & Hsep).
  { unfold dc. by destruct (auto_expand_input_fields data_config). }
  intros Hrun.
  apply PreprocessMore.bind_eq_Ok in Hrun as ([eff mvt] & _ & Hrun).
  apply PreprocessMore.bind_eq_Ok in Hrun as (fids & _ & Hrun).
  apply PreprocessMore.bind_eq_Ok in Hrun as (eff' & _ & Hrun).
  apply PreprocessMore.bind_eq_Ok in Hrun as (lfids & _ & Hrun).
  injection Hrun as <-. simpl. rewrite Hlab, Hdim, Hsep.
  assert (∀ i name, label_fields data_config !! i = Some name →
    init_label_dim (label_fields data_config) (label_dim data_config) !! i
    = Some (default 1 (label_dim data_config !! i))) as Hpad.
  { intros i name Hi. unfold init_label_dim.
    apply lookup_lt_Some in Hi.
    destruct (label_dim data_config !! i) as [d|] eqn:Hd.
    - by rewrite (lookup_app_l_Some _ _ _ _ Hd).
    - apply lookup_ge_None in Hd. rewrite lookup_app_r by done. simpl.
      apply lookup_replicate_2. lia. }
  split; [done|]. split; [by apply Hpad|]. split.
  - intros i name field Hi Hd Hle. unfold parse_label. simpl.
    rewrite bool_decide_eq_true_2 by done.
    rewrite (PreprocessFacts.subscript_ok _ _ _ (Hpad i name Hi)).
    rewrite PreprocessFacts.bind_Ok.
    by rewrite bool_decide_eq_false_2 by lia.
  - intros i name field Hi Hd Hgt Hs. unfold parse_label. simpl.
    rewrite bool_decide_eq_true_2 by done.
    rewrite (PreprocessFacts.subscript_ok _ _ _ (Hpad i name Hi)).
    rewrite PreprocessFacts.bind_Ok.
    rewrite bool_decide_eq_true_2 by done.
    unfold subscript. by rewrite Hs.
Qed.

End InputFacts.

Section Batches.
Context {num : Type} `{TFNum num}.
Implicit Types (obj : InputObject (num:=num)).

(** ** [_get_features] and [_get_labels] *)

Lemma effective_part_lookup (fields : gmap string (Tensor num)) (l : list string) :
  ∀ (d : gmap string (Tensor num)) k,
    foldl (λ field_dict x, match fields !! x with
                           | Some t => <[x := t]> field_dict
                           | None => field_dict
                           end) d l !! k
    = if bool_decide (k ∈ l) then (match fields !! k with
                                   | Some t => Some t
                                   | None => d !! k
                                   end)
      else d !! k.
Proof.
  induction l as [|x l IH]; intros d k; simpl.
  { done. }
  rewrite IH. destruct (decide (k ∈ l)) as [Hl|Hl].
  - rewrite !bool_decide_eq_true_2 by (done || by right).
    destruct (fields !! k) eqn:Hk; [done|].
    destruct (fields !! x) eqn:Hx; [|done].
    rewrite lookup_insert_ne; [done|]. congruence.
  - rewrite (bool_decide_eq_false_2 (k ∈ l)) by done.
    destruct (decide (k = x)) as [->|Hne].
    + rewrite bool_decide_eq_true_2 by left.
      destruct (fields !! x); [by rewrite lookup_insert_eq|done].
    + rewrite bool_decide_eq_false_2.
      2:{ intros [?|?]%elem_of_cons; done. }
      destruct (fields !! x); [by rewrite lookup_insert_ne|done].
Qed.

Lemma appended_part (fields : gmap string (Tensor num)) (l : list string) :
  (∀ k, k ∈ l → is_Some (fields !! k)) →
  ∀ d : gmap string (Tensor num), ∃ d',
    for_each (λ k field_dict, t ← getitem fields k; Ok (<[k := t]> field_dict)) l d
    = Ok d'
    ∧ ∀ k, d' !! k = if bool_decide (k ∈ l) then fields !! k else d !! k.
Proof.
  induction l as [|x l IH]; intros Hall d.
  { exists d. split; [done|]. intros k.
    by rewrite bool_decide_eq_false_2 by apply not_elem_of_nil. }
  destruct (Hall x ltac:(left)) as [t Ht].
  destruct (IH (λ k Hk, Hall k ltac:(by right)) (<[x := t]> d)) as (d' & Hrun & Hd').
  exists d'. split.
  { rewrite PreprocessFacts.for_each_cons, (PreprocessFacts.getitem_ok _ _ _ Ht).
    by rewrite !PreprocessFacts.bind_Ok. }
  intros k. rewrite Hd'. destruct (decide (k ∈ l)) as [Hl|Hl].
  - by rewrite !bool_decide_eq_true_2 by (done || by right).
  - rewrite (bool_decide_eq_false_2 (k ∈ l)) by done.
    destruct (decide (k = x)) as [->|Hne].
    + rewrite bool_decide_eq_true_2 by left. by rewrite lookup_insert_eq.
    + rewrite bool_decide_eq_false_2.
      2:{ intros [?|?]%elem_of_cons; done. }
      by rewrite lookup_insert_ne.
Qed.

Lemma appended_part_missing (fields : gmap string (Tensor num)) (l : list string) k :
  k ∈ l → fields !! k = None →
  ∀ d : gmap string (Tensor num), is_Raise
         (for_each (λ k field_dict, t ← getitem fields k; Ok (<[k := t]> field_dict)) l d).
Proof.
  induction l as [|x l IH]; intros Hk Hnone d.
  { by apply elem_of_nil in Hk. }
  rewrite PreprocessFacts.for_each_cons.
  destruct (fields !! x) as [t|] eqn:Hx.
  - rewrite (PreprocessFacts.getitem_ok _ _ _ Hx), !PreprocessFacts.bind_Ok.
    apply IH; [|done]. apply elem_of_cons in Hk as [->|Hk]; [congruence|done].
  - unfold getitem. rewrite Hx, !PreprocessFacts.bind_Raise. by eexists.
Qed.

Lemma get_features_ok obj appended_fields SAMPLE_WEIGHT
    (fields : gmap string (Tensor num)) :
  (∀ k, k ∈ appended_fields → is_Some (fields !! k)) →
  ∃ out,
    _get_features obj appended_fields SAMPLE_WEIGHT fields = Ok out
    ∧ ∀ k, out !! k
           = if bool_decide (k ∈ _effective_fields obj ∨ k ∈ appended_fields
                             ∨ k = SAMPLE_WEIGHT)
             then fields !! k else None.
Proof.
  intros Hall. unfold _get_features.
  edestruct (appended_part fields appended_fields Hall) as (d' & -> & Hd').
  rewrite PreprocessFacts.bind_Ok.
  assert (∀ k, d' !! k
    = if bool_decide (k ∈ _effective_fields obj ∨ k ∈ appended_fields)
      then fields !! k else None) as Hd.
  { intros k. rewrite Hd', effective_part_lookup, lookup_empty.
    destruct (decide (k ∈ appended_fields)) as [Ha|Ha].
    - by rewrite !bool_decide_eq_true_2 by auto.
    - rewrite (bool_decide_eq_false_2 (k ∈ appended_fields)) by done.
      destruct (decide (k ∈ _effective_fields obj)) as [He|He].
      + rewrite !bool_decide_eq_true_2 by auto. by destruct (fields !! k).
      + rewrite !bool_decide_eq_false_2 by tauto. done. }
  destruct (fields !! SAMPLE_WEIGHT) as [t|] eqn:Hsw.
  - eexists. split; [done|]. intros k. destruct (decide (k = SAMPLE_WEIGHT)) as [->|Hne].
    + rewrite lookup_insert_eq. by rewrite bool_decide_eq_true_2 by auto.
    + rewrite lookup_insert_ne, Hd by done.
      destruct (decide (k ∈ _effective_fields obj ∨ k ∈ appended_fields)).
      * by rewrite !bool_decide_eq_true_2 by tauto.
      * by rewrite !bool_decide_eq_false_2 by tauto.
  - exists d'. split; [done|]. intros k. rewrite Hd.
    destruct (decide (k = SAMPLE_WEIGHT)) as [->|Hne].
    + rewrite Hsw. by destruct (bool_decide _), (bool_decide _).
    + destruct (decide (k ∈ _effective_fields obj ∨ k ∈ appended_fields)).
      * by rewrite !bool_decide_eq_true_2 by tauto.
      * by rewrite !bool_decide_eq_false_2 by tauto.
Qed.

(** X16.  When every appended field is a key of the dictionary it is given,
    [_get_features] returns exactly the entries of that dictionary under the
    effective fields, the appended fields and the sample-weight key,
    unchanged; an effective field that is missing is left out without an
    error, and a missing appended field makes it fail. *)
Theorem get_features_restricts_fields obj appended_fields SAMPLE_WEIGHT
    (fields : gmap string (Tensor num)) :
  ((∀ k, k ∈ appended_fields → is_Some (fields !! k)) →
   ∃ out,
     _get_features obj appended_fields SAMPLE_WEIGHT fields = Ok out
     ∧ (∀ k, out !! k
             = if bool_decide (k ∈ _effective_fields obj ∨ k ∈ appended_fields
                               ∨ k = SAMPLE_WEIGHT)
               then fields !! k else None)
     ∧ ∀ k t, out !! k = Some t → fields !! k = Some t)
  ∧ (∀ k, k ∈ appended_fields → fields !! k = None →
     is_Raise (_get_features obj appended_fields SAMPLE_WEIGHT fields)).
Proof.
  split.
  - intros Hall. destruct (get_features_ok obj _ SAMPLE_WEIGHT _ Hall) as (out & Hrun & Hout).
    exists out. split; [done|]. split; [done|].
    intros k t. rewrite Hout. by destruct (bool_decide _).
  - intros k Hk Hnone. unfold _get_features.
    edestruct (appended_part_missing fields appended_fields k Hk Hnone) as [e ->].
    by eexists.
Qed.



End Batches.
End InputMore.

(** * Properties of [input_utils] and of the table parser *)

Module InputUtilsMore.
Import InputObject.

Section Defaults.
Context {num : Type} `{TFNum num}.
Variables (py_int np_int64 : string → option Z).
Variables (py_float np_float64 : string → option num).
Variable py_trunc : num → Z.

(** X18.  [get_type_defaults] with an empty default value fails with
    [AttributeError] for a BOOL field (the default [False] has no [lower])
    and returns the default of the type for every other field type; with a
    non-empty default value a STRING field gets the string itself and a BOOL
    field whether the string in lower case is [true]. *)
Theorem type_defaults_of_empty_default :
  InputUtils.get_type_defaults py_int np_int64 py_float np_float64 py_trunc BOOL ""
  = Raise AttributeError
  ∧ (∀ field_type, field_type ≠ BOOL →
       InputUtils.get_type_defaults py_int np_int64 py_float np_float64 py_trunc field_type ""
       = Ok (InputUtils.type_defaults field_type))
  ∧ (∀ default_val, default_val ≠ "" →
       InputUtils.get_type_defaults py_int np_int64 py_float np_float64 py_trunc STRING default_val
       = Ok (InputUtils.PyStr default_val)
       ∧ InputUtils.get_type_defaults py_int np_int64 py_float np_float64 py_trunc BOOL default_val
         = Ok (InputUtils.PyBool (bool_decide (InputUtils.lower default_val = "true")))).
Proof.
  split; [done|]. split.
  - intros [] Hne; done.
  - intros default_val Hne. unfold InputUtils.get_type_defaults.
    by rewrite bool_decide_eq_false_2 by done.
Qed.

End Defaults.

Section Conversions.
Context {num : Type} `{TFNum num}.
Variables (double_to_int64 double_to_int32 : num → Z).

Lemma parse_all_Ok_iff {A} (f : string → option A) strs vs :
  parse_all f strs = Ok vs ↔ Forall2 (λ s v, f s = Some v) strs vs.
Proof.
  unfold parse_all. rewrite InputMore.map_result_Forall2.
  split; intros HF; (eapply Forall2_impl; [exact HF|]); intros s v; simpl;
    destruct (f s); naive_solver.
Qed.

Lemma parse_all_Raise {A} (f : string → option A) strs :
  Exists (λ s, f s = None) strs → is_Raise (parse_all f strs).
Proof.
  unfold parse_all. induction 1 as [s strs Hs|s strs Hex IH].
  - simpl. rewrite Hs. simpl. by eexists.
  - simpl. destruct (f s); [|simpl; by eexists]. simpl.
    destruct IH as [e ->]. simpl. by eexists.
Qed.

(** X19.  [string_to_number] converts an INT32 or INT64 field by parsing its
    strings as doubles and casting the doubles to the integer type: when
    every string is a double, the result is the list of the casts, in order;
    when some string is not a double, the conversion fails. *)
Theorem integer_fields_are_parsed_as_doubles (strs : list string) :
  (∀ ds, Forall2 (λ s d, string_to_float64 s = Some d) strs ds →
     InputUtils.string_to_number double_to_int64 double_to_int32 (VString strs) INT64
     = Ok (VInt64 (double_to_int64 <$> ds))
     ∧ InputUtils.string_to_number double_to_int64 double_to_int32 (VString strs) INT32
       = Ok (VInt32 (double_to_int32 <$> ds)))
  ∧ (Exists (λ s, string_to_float64 s = None) strs →
     is_Raise (InputUtils.string_to_number double_to_int64 double_to_int32 (VString strs) INT64)
     ∧ is_Raise (InputUtils.string_to_number double_to_int64 double_to_int32 (VString strs) INT32)).
Proof.
  split.
  - intros ds Hds. apply parse_all_Ok_iff in Hds.
    unfold InputUtils.string_to_number, string_to_number. simpl. by rewrite Hds.
  - intros Hex. destruct (parse_all_Raise _ _ Hex) as [e He].
    unfold InputUtils.string_to_number, string_to_number. simpl. rewrite He.
    split; by eexists.
Qed.

End Conversions.
End InputUtilsMore.

(** * Properties of the table parser *)

Module OdpsRTPMore.
Import Preprocess InputObject OdpsRTP.

Section OdpsRTPFacts.
Context {num : Type} `{TFNum num}.
Variables (double_to_int64 double_to_int32 : num → Z).
Implicit Types (self : InputObject (num:=num)).

(** A loop that stores one value per element. *)
Lemma for_each_insert {X V} (f1 : X → result string) (f2 : X → result V) l :
  ∀ (m0 m : gmap string V),
  for_each (λ x m, k ← f1 x; v ← f2 x; Ok (<[k := v]> m)) l m0 = Ok m →
  ∃ kvs : list (string * V),
    Forall2 (λ x kv, f1 x = Ok kv.1 ∧ f2 x = Ok kv.2) l kvs
    ∧ m = foldl (λ m kv, <[kv.1 := kv.2]> m) m0 kvs.
Proof.
  induction l as [|x l IH]; intros m0 m Hrun.
  { injection Hrun as <-. exists []. split; [constructor|done]. }
  rewrite PreprocessFacts.for_each_cons in Hrun.
  apply PreprocessMore.bind_eq_Ok in Hrun as (m1 & Hstep & Hrun).
  apply PreprocessMore.bind_eq_Ok in Hstep as (k & Hk & Hstep).
  apply PreprocessMore.bind_eq_Ok in Hstep as (v & Hv & Hstep). injection Hstep as <-.
  destruct (IH _ _ Hrun) as (kvs & Hkvs & ->).
  exists ((k, v) :: kvs). split; [by constructor|done].
Qed.

Lemma foldl_insert_dom {V} (kvs : list (string * V)) :
  ∀ (m0 : gmap string V) k,
    is_Some (foldl (λ m kv, <[kv.1 := kv.2]> m) m0 kvs !! k)
    ↔ is_Some (m0 !! k) ∨ k ∈ kvs.*1.
Proof.
  induction kvs as [|[k' v] kvs IH]; intros m0 k; csimpl.
  { rewrite elem_of_nil. tauto. }
  rewrite IH, elem_of_cons, lookup_insert_is_Some. split.
  - intros [[->|[_ ?]]|?]; auto.
  - intros [?|[->|?]]; auto. destruct (decide (k' = k)) as [->|Hne]; auto.
Qed.

Lemma foldl_insert_other {V} (kvs : list (string * V)) k :
  k ∉ kvs.*1 →
  ∀ m0 : gmap string V, foldl (λ m kv, <[kv.1 := kv.2]> m) m0 kvs !! k = m0 !! k.
Proof.
  induction kvs as [|[k' v'] kvs IH]; intros Hk m0; csimpl; [done|].
  csimpl in Hk. apply not_elem_of_cons in Hk as [Hne Hk].
  rewrite IH by done. by rewrite lookup_insert_ne.
Qed.

Lemma foldl_insert_lookup {V} (kvs : list (string * V)) k v :
  (k, v) ∈ kvs → (∀ v', (k, v') ∈ kvs → v' = v) →
  ∀ m0 : gmap string V, foldl (λ m kv, <[kv.1 := kv.2]> m) m0 kvs !! k = Some v.
Proof.
  induction kvs as [|[k' v'] kvs IH]; intros Hin Hfun m0; simpl.
  { by apply elem_of_nil in Hin. }
  destruct (decide (k ∈ kvs.*1)) as [Hk|Hk].
  - apply list_elem_of_fmap in Hk as ([k'' v''] & Heq & Hk). simpl in Heq. subst k''.
    apply IH.
    + by rewrite <- (Hfun v'') by (by right).
    + intros w Hw. apply Hfun. by right.
  - rewrite foldl_insert_other by done.
    apply elem_of_cons in Hin as [[= <- <-]|Hin].
    + by rewrite lookup_insert_eq.
    + destruct Hk. apply list_elem_of_fmap. by exists (k, v).
Qed.

(** X20.  When [_parse_table] returns: the batch has more columns than there
    are label fields; the keys of the result are exactly the effective
    fields and the label fields, and no effective field is a label field;
    when the label fields are distinct, each is bound to the column at its
    position; and each effective field is bound to its column of the split
    feature string, the one at the index of the field among the input fields
    that are not labels, converted by [string_to_number] at the declared
    type of that index. *)
Theorem parse_table_fields self (fields : list (DenseTensor num)) inputs :
  _parse_table double_to_int64 double_to_int32 self fields = Ok inputs →
  (length (_label_fields (_preprocess_self self)) < length fields)%nat
  ∧ (∀ k, is_Some (inputs !! k) ↔
       k ∈ _effective_fields self ∨ k ∈ _label_fields (_preprocess_self self))
  ∧ (∀ k, k ∈ _effective_fields self → k ∉ _label_fields (_preprocess_self self))
  ∧ (NoDup (_label_fields (_preprocess_self self)) →
     ∀ x name, _label_fields (_preprocess_self self) !! x = Some name →
       inputs !! name = fields !! x)
  ∧ ∃ last_field sp strs,
      last fields = Some last_field
      ∧ string_split last_field (dc_separator (_data_config self)) false = Ok sp
      ∧ values sp = VString strs
      ∧ ∀ k, k ∈ _effective_fields self →
          ∃ i t v,
            py_index (filter (λ x, x ∉ _label_fields (_preprocess_self self))
                        (_input_fields self)) k = Ok i
            ∧ (filter (λ xt, xt.1 ∉ _label_fields (_preprocess_self self))
                 (zip (_input_fields self) (_input_field_types self))).*2 !! i = Some t
            ∧ InputUtils.string_to_number double_to_int64 double_to_int32
                (VString
                   (column
                      (length
                         (filter (λ xt, xt.1 ∉ _label_fields (_preprocess_self self))
                            (zip (_input_fields self) (_input_field_types self))).*2)
                      i strs)) t = Ok v
            ∧ inputs !! k = Some (vector v).
Proof.
  unfold _parse_table.
  set (label_fields := _label_fields (_preprocess_self self)).
  set (record_types := (filter (λ xt, xt.1 ∉ label_fields)
                          (zip (_input_fields self) (_input_field_types self))).*2).
  set (field_keys := filter (λ x, x ∉ label_fields) (_input_fields self)).
  intros Hrun.
  apply PreprocessMore.bind_eq_Ok in Hrun as (last_field & Hlast & Hrun).
  destruct (last fields) as [lf|] eqn:Hl; [|done]. injection Hlast as ->.
  apply PreprocessMore.bind_eq_Ok in Hrun as (sp & Hsp & Hrun).
  apply PreprocessMore.bind_eq_Ok in Hrun as (tmp_fields & Htmp & Hrun).
  apply PreprocessMore.bind_eq_Ok in Hrun as (strs & Hstrs & Hrun).
  apply PreprocessMore.bind_eq_Ok in Hrun as (flds & Hflds & Hrun).
  apply PreprocessMore.bind_eq_Ok in Hrun as (efids & Hefids & Hrun).
  apply PreprocessMore.bind_eq_Ok in Hrun as (inputs1 & Hloop1 & Hloop2).
  apply for_each_insert in Hloop1 as (kvs1 & Hkvs1 & ->).
  apply for_each_insert in Hloop2 as (kvs2 & Hkvs2 & ->).
  apply InputMore.map_result_Forall2 in Hflds, Hefids.
  assert (values sp = VString strs) as Hvals.
  { unfold reshape_rows in Htmp. destruct (bool_decide _); [|done].
    injection Htmp as <-. simpl in Hstrs. unfold strings_of in Hstrs.
    destruct (values sp); try done. by injection Hstrs as ->. }
  (* the labels *)
  assert (length fields ≠ 0)%nat as Hne.
  { destruct fields; [done|]. simpl. lia. }
  assert (kvs2.*1 = label_fields
          ∧ (length label_fields < length fields)%nat
          ∧ ∀ x name, label_fields !! x = Some name →
              ∃ v, kvs2 !! x = Some (name, v) ∧ fields !! x = Some v)
    as (Hkeys2 & Hlen & Hlabels).
  { assert (∀ x name, label_fields !! x = Some name →
              ∃ v, kvs2 !! x = Some (name, v) ∧ fields !! x = Some v) as Hlabels.
    { intros x name Hx.
      assert (seq 0 (length label_fields) !! x = Some x) as Hsx.
      { apply lookup_seq. split; [done|]. by eapply lookup_lt_Some. }
      destruct (Forall2_lookup_l _ _ _ _ _ Hkvs2 Hsx) as ([k v] & Hkv & Hk & Hv).
      simpl in Hk, Hv. unfold subscript in Hk, Hv. rewrite Hx in Hk. injection Hk as <-.
      destruct (take _ fields !! x) as [v'|] eqn:Ht; [|done]. injection Hv as <-.
      exists v'. split; [done|]. apply lookup_take_Some in Ht as [Ht _]. done. }
    split; [|split; [|done]].
    - apply list_eq_same_length with (length label_fields).
      + done.
      + rewrite length_fmap. apply Forall2_length in Hkvs2.
        by rewrite length_seq in Hkvs2.
      + intros x k name Hx Hk Hname.
        destruct (Hlabels x name Hname) as (v & Hkv & _).
        rewrite list_lookup_fmap, Hkv in Hk. by injection Hk as <-.
    - destruct (decide (length label_fields = 0%nat)) as [->|Hpos]; [lia|].
      destruct (lookup_lt_is_Some_2 label_fields (length label_fields - 1))
        as [name Hname]; [lia|].
      assert (seq 0 (length label_fields) !! (length label_fields - 1)%nat
              = Some (length label_fields - 1)%nat) as Hsx.
      { apply lookup_seq. split; [done|lia]. }
      destruct (Forall2_lookup_l _ _ _ _ _ Hkvs2 Hsx) as ([k v] & Hkv & Hk & Hv).
      simpl in Hv. unfold subscript in Hv.
      destruct (take _ fields !! _) as [v'|] eqn:Ht; [|done].
      apply lookup_take_Some in Ht as [_ Ht]. lia. }
  (* the features *)
  assert (kvs1.*1 = _effective_fields self
          ∧ ∀ j k, _effective_fields self !! j = Some k →
              ∃ i v, py_index field_keys k = Ok i ∧ flds !! i = Some v
                     ∧ kvs1 !! j = Some (k, v)) as [Hkeys1 Hfeat].
  { assert (∀ j k, _effective_fields self !! j = Some k →
              ∃ i v, py_index field_keys k = Ok i ∧ flds !! i = Some v
                     ∧ kvs1 !! j = Some (k, v)) as Hfeat.
    { intros j k Hj.
      destruct (Forall2_lookup_l _ _ _ _ _ Hefids Hj) as (i & Hi & Hidx).
      destruct (Forall2_lookup_l _ _ _ _ _ Hkvs1 Hi) as ([k' v] & Hkv & Hk & Hv).
      simpl in Hk, Hv. unfold subscript in Hk, Hv.
      pose proof Hidx as Hidx'. apply InputMore.py_index_Ok in Hidx' as [Hfk _].
      rewrite Hfk in Hk. injection Hk as <-.
      destruct (flds !! i) as [v'|] eqn:Hfl; [|done]. injection Hv as <-.
      by exists i, v'. }
    split; [|done].
    apply list_eq_same_length with (length (_effective_fields self)).
    - done.
    - rewrite length_fmap. apply Forall2_length in Hefids, Hkvs1. lia.
    - intros j k k' Hj Hk Hk'. destruct (Hfeat j k' Hk') as (i & v & _ & _ & Hkv).
      rewrite list_lookup_fmap, Hkv in Hk. by injection Hk as <-. }
  assert (∀ k, k ∈ _effective_fields self → k ∉ label_fields) as Hdisj.
  { intros k Hk. apply list_elem_of_lookup in Hk as (j & Hj).
    destruct (Hfeat j k Hj) as (i & v & Hidx & _).
    apply InputMore.py_index_Ok in Hidx as [Hfk _].
    apply list_elem_of_lookup_2 in Hfk. by apply list_elem_of_filter in Hfk as [? _]. }
  split; [done|]. split; [|split; [done|split]].
  - intros k. rewrite !foldl_insert_dom, Hkeys1, Hkeys2, lookup_empty.
    split; [intros [[[? Hn]|?]|?]; [done|by left|by right]|tauto].
  - intros Hnd x name Hx. destruct (Hlabels x name Hx) as (v & Hkv & ->).
    apply foldl_insert_lookup; [by eapply list_elem_of_lookup_2|].
    intros v' Hv'. apply list_elem_of_lookup in Hv' as (y & Hy).
    assert (label_fields !! y = Some name) as Hyn.
    { rewrite <- Hkeys2, list_lookup_fmap, Hy. done. }
    rewrite <- Hkeys2 in Hnd.
    assert (y = x) as ->.
    { eapply NoDup_lookup; [exact Hnd| |].
      - by rewrite list_lookup_fmap, Hy.
      - by rewrite list_lookup_fmap, Hkv. }
    congruence.
  - exists last_field, sp, strs. split; [done|]. split; [done|]. split; [done|].
    intros k Hk. pose proof (Hdisj k Hk) as Hnl.
    apply list_elem_of_lookup in Hk as (j & Hj).
    destruct (Hfeat j k Hj) as (i & v & Hidx & Hfl & Hkv).
    destruct (Forall2_lookup_r _ _ _ _ _ Hflds Hfl) as ([i' t] & Hit & Hconv).
    apply PreprocessMore.bind_eq_Ok in Hconv as (w & Hw & Hconv). injection Hconv as <-.
    unfold enumerate in Hit. rewrite list_lookup_imap in Hit.
    destruct (record_types !! i) as [t'|] eqn:Ht; [|done]. injection Hit as <- <-.
    exists i, t', w. split; [done|]. split; [done|]. split; [done|].
    rewrite foldl_insert_other by (by rewrite Hkeys2).
    apply foldl_insert_lookup; [by eapply list_elem_of_lookup_2|].
    intros v' Hv'. apply list_elem_of_lookup in Hv' as (j' & Hj').
    assert (_effective_fields self !! j' = Some k) as Hjk.
    { rewrite <- Hkeys1, list_lookup_fmap, Hj'. done. }
    destruct (Hfeat j' k Hjk) as (i2 & v2 & Hidx2 & Hfl2 & Hkv2).
    rewrite Hidx in Hidx2. injection Hidx2 as <-. congruence.
Qed.

End OdpsRTPFacts.
End OdpsRTPMore.

(** * The preprocessor and the input object together *)

Module PipelineMore.
Import Preprocess InputObject PreprocessVocabulary.

Section Pipeline.
Context {num : Type} `{TFNum num}.
Variable SAMPLE_WEIGHT : string.
Variable eval_expression :
  string → list string → string → gmap string (Tensor num) → result (Tensor num).

(** X21.  On an object whose list of appended fields is empty, as [__init__]
    leaves it: when [_preprocess] returns, [_get_features] on the parsed
    dictionary and the appended fields it leaves returns too; every appended
    field is one of the features, every feature is an entry of the parsed
    dictionary, and every effective field has the value the parsed
    dictionary gives it. *)
Theorem preprocessed_batch_has_its_features (obj : InputObject (num:=num))
    (fd : gmap string (DenseTensor num)) env' :
  _preprocess SAMPLE_WEIGHT eval_expression (_preprocess_self obj) [] fd = Ok env' →
  ∃ out,
    _get_features obj (_appended_fields env') SAMPLE_WEIGHT (parsed_dict env') = Ok out
    ∧ (∀ k, k ∈ _appended_fields env' → is_Some (out !! k))
    ∧ (∀ k t, out !! k = Some t → parsed_dict env' !! k = Some t)
    ∧ (∀ k, k ∈ _effective_fields obj → out !! k = parsed_dict env' !! k).
Proof.
  intros Hrun.
  apply PreprocessMore.preprocess_grows in Hrun as (_ & _ & more & Happ & Hmore).
  simpl in Happ.
  destruct (InputMore.get_features_ok obj (_appended_fields env') SAMPLE_WEIGHT
              (parsed_dict env')) as (out & Hout & Hlookup).
  { intros k Hk. apply Hmore. by rewrite Happ in Hk. }
  exists out. split; [done|]. split; [|split].
  - intros k Hk. rewrite Hlookup, bool_decide_eq_true_2 by auto.
    apply Hmore. by rewrite Happ in Hk.
  - intros k t. rewrite Hlookup. by case_bool_decide.
  - intros k Hk. rewrite Hlookup, bool_decide_eq_true_2 by auto. done.
Qed.

End Pipeline.
End PipelineMore.

(** * Further examples

    The further properties at the configurations of [Samples] and
    [MoreSamples]. *)

Module MoreExamples.
Import Registry Preprocess InputObject Exact Samples MoreSamples.

(** ** The registry *)

(** [uid] is a wide feature of a parser without a wide output
    dimension. *)
Lemma wide_feature_needs_wide_output_dim_witness :
  parse_feature strict_library no_file uid_config
    (new_parser [uid_config] (wide_deep_of [("uid", WIDE)]) 0 false)
    = (Raise (AssertionError "wide_output_dim is not set"),
       new_parser [uid_config] (wide_deep_of [("uid", WIDE)]) 0 false)
  ∧ parse_features strict_library no_file [uid_config; click_seq_config]
      (new_parser [uid_config] (wide_deep_of [("uid", WIDE)]) 0 false)
    = (Raise (AssertionError "wide_output_dim is not set"),
       new_parser [uid_config] (wide_deep_of [("uid", WIDE)]) 0 false).
Proof.
  destruct (RegistryMore.wide_feature_needs_wide_output_dim strict_library no_file
              uid_config [click_seq_config]
              (new_parser [uid_config] (wide_deep_of [("uid", WIDE)]) 0 false)
              "uid" WIDE (categorical_column_with_hash_bucket "uid" 100)
              (new_parser [uid_config] (wide_deep_of [("uid", WIDE)]) 0 false))
    as (Hrun & _ & Hloop).
  - discriminate.
  - reflexivity.
  - reflexivity.
  - left.
  - simpl. lia.
  - vm_compute. reflexivity.
  - split; [exact Hrun|exact Hloop].
Defined.

(** An Id feature on [uid] with a vocabulary and without an embedding
    dimension, configured as deep. *)
Lemma deep_feature_needs_embedding_dim_witness :
  parse_feature accept_all no_file vocabulary_config
    (new_parser [] (wide_deep_of [("uid", DEEP)]) 8 false)
    = (Raise (AssertionError "embedding_dim is not set for uid"),
       new_parser [] (wide_deep_of [("uid", DEEP)]) 8 false)
  ∧ parse_features accept_all no_file [vocabulary_config; uid_config]
      (new_parser [] (wide_deep_of [("uid", DEEP)]) 8 false)
    = (Raise (AssertionError "embedding_dim is not set for uid"),
       new_parser [] (wide_deep_of [("uid", DEEP)]) 8 false).
Proof.
  destruct (RegistryMore.deep_feature_needs_embedding_dim accept_all no_file
              vocabulary_config [uid_config]
              (new_parser [] (wide_deep_of [("uid", DEEP)]) 8 false) "uid"
              (categorical_column_with_vocabulary_list "uid" 0 ["a"; "b"])
              (new_parser [] (wide_deep_of [("uid", DEEP)]) 8 false))
    as (Hrun & _ & Hloop).
  - left.
  - reflexivity.
  - reflexivity.
  - simpl. lia.
  - vm_compute. reflexivity.
  - split; [exact Hrun|exact Hloop].
Defined.

(** The Raw feature [ctr] of dimension 2 without an embedding dimension. *)
Lemma raw_feature_without_embedding_is_numeric_witness :
  parse_feature strict_library no_file (raw_config "ctr" 2 0 0)
    (new_parser [] (wide_deep_of [("ctr", DEEP)]) 8 false)
  = (Ok (),
     set_deep_columns {[ "ctr" := Column (numeric_column "ctr" 2) None ]}
       (new_parser [] (wide_deep_of [("ctr", DEEP)]) 8 false)).
Proof.
  apply (proj1 (RegistryMore.raw_feature_without_embedding_is_numeric strict_library
           no_file (raw_config "ctr" 2 0 0)
           (new_parser [] (wide_deep_of [("ctr", DEEP)]) 8 false) "ctr" "ctr"
           eq_refl eq_refl eq_refl eq_refl eq_refl ltac:(simpl; lia) eq_refl)).
  split; reflexivity.
Defined.

(** The first deep member of the group [item]. *)
Lemma shared_deep_handle_round_trip_witness :
  ∃ h self',
    _add_shared_embedding_column "item" (item_column "item_id") true
      (shared_parser [] []) = (Ok (Handle h), self')
    ∧ se_index h = 0%nat
    ∧ ∀ later more,
        _deep_share_embed_columns later !! "item"
          = Some (item_column "item_id" :: more) →
        _get_shared_embedding_column h true later
        = (Ok (Column (item_column "item_id") None), later).
Proof.
  destruct (RegistryMore.shared_deep_handle_round_trip "item" (item_column "item_id")
              (shared_parser [] []) [] eq_refl)
    as (h & self' & Hadd & _ & Hi & _ & _ & Hget).
  exists h, self'. split; [exact Hadd|]. split; [exact Hi|exact Hget].
Defined.

(** A wide member that joins the group [item] after a deep one: its index
    is that of the deep list, which its own list does not have. *)
Lemma shared_wide_handle_indexed_by_deep_group_witness :
  ∃ h self',
    _add_shared_embedding_column "item" (item_column "seller_item") false
      (shared_parser [item_column "item_id"] []) = (Ok (Handle h), self')
    ∧ se_index h = 1%nat
    ∧ _wide_share_embed_columns self' !! "item" = Some [item_column "seller_item"]
    ∧ _get_shared_embedding_column h false self' = (Raise IndexError, self').
Proof.
  destruct (RegistryMore.shared_wide_handle_indexed_by_deep_group "item"
              (item_column "seller_item") (shared_parser [item_column "item_id"] [])
              [item_column "item_id"] [] eq_refl eq_refl)
    as (h & self' & Hadd & _ & Hi & Hw & _ & _ & Hraise & _).
  exists h, self'. split; [exact Hadd|]. split; [exact Hi|].
  split; [by rewrite Hw, lookup_insert_eq|]. apply Hraise. simpl. lia.
Defined.

(** ** The preprocessor *)

(** A batch with the Raw feature [ctr] of dimension 2: the two fields of
    the projection are appended and parsed. *)
Lemma appended_fields_are_parsed_witness :
  ∃ env',
    _preprocess "sample_weight" no_expression (plain_input [raw_config "ctr" 2 0 0]) []
      (fields_of [("ctr", {| shape := [2; 2]; data := VFloat32 [1; 2; 3; 4]%Q |})])
      = Ok env'
    ∧ _appended_fields env' = ["ctr_raw_proj_id"; "ctr_raw_proj_val"]
    ∧ ∀ k, k ∈ _appended_fields env' → is_Some (parsed_dict env' !! k).
Proof.
  assert (∃ env',
    _preprocess "sample_weight" no_expression (plain_input [raw_config "ctr" 2 0 0]) []
      (fields_of [("ctr", {| shape := [2; 2]; data := VFloat32 [1; 2; 3; 4]%Q |})])
      = Ok env' ∧ _appended_fields env' = ["ctr_raw_proj_id"; "ctr_raw_proj_val"])
    as (env' & Hrun & Happ).
  { eexists. split; vm_compute; reflexivity. }
  exists env'. split; [exact Hrun|]. split; [exact Happ|].
  destruct (PreprocessMore.appended_fields_are_parsed _ _ _ _ _ _ Hrun)
    as (_ & _ & more & Hmore & Hparsed).
  simpl in Hmore. rewrite Hmore. exact Hparsed.
Defined.

(** The feature [uid] on a batch without the field [uid]. *)
Lemma missing_input_field_fails_witness :
  is_Raise (_preprocess "sample_weight" no_expression (plain_input [uid_config]) []
              (fields_of []))
  ∧ preprocess_feature no_expression (plain_input [uid_config]) uid_config (batch_of [])
    = Raise (KeyError "uid").
Proof.
  destruct (PreprocessMore.missing_input_field_fails "sample_weight" no_expression
              (plain_input [uid_config]) uid_config [] (fields_of []) "uid")
    as [Hraise Hkey].
  - left.
  - reflexivity.
  - reflexivity.
  - split; [exact Hraise|]. apply Hkey; [reflexivity|discriminate].
Defined.

(** The Raw feature [ctr] of dimension 2 on a vector of two strings. *)
Lemma raw_feature_is_float32_witness :
  ∃ env' parsed,
    preprocess_raw (plain_input []) (raw_config "ctr" 2 0 0)
      (batch_of [("ctr", strings ["1|2"; "3|4"])]) = Ok env'
    ∧ parsed_dict env' !! "ctr" = Some (Dense parsed)
    ∧ dtype_of (data parsed) = tf_float32
    ∧ shape parsed = [2; 2].
Proof.
  destruct (PreprocessMore.raw_feature_is_float32 (plain_input [])
              (raw_config "ctr" 2 0 0) (batch_of [("ctr", strings ["1|2"; "3|4"])])
              "ctr" (strings ["1|2"; "3|4"]) eq_refl eq_refl) as (Hparsed & _ & _).
  assert (∃ env', preprocess_raw (plain_input []) (raw_config "ctr" 2 0 0)
                    (batch_of [("ctr", strings ["1|2"; "3|4"])]) = Ok env')
    as [env' Hrun].
  { eexists. vm_compute. reflexivity. }
  destruct (Hparsed env' Hrun) as (parsed & Hp & Hd & n & Hn & Hs).
  exists env', parsed. split; [exact Hrun|]. split; [exact Hp|]. split; [exact Hd|].
  simpl in Hn. injection Hn as <-. exact Hs.
Defined.

(** Of the labels [clk] and [buy] the batch has only [clk]. *)
Lemma absent_labels_are_skipped_witness :
  ∃ env',
    preprocess_labels two_label_input (batch_of [("clk", floats [1; 0]%Q)]) = Ok env'
    ∧ parsed_dict env' !! "buy" = None.
Proof.
  destruct (PreprocessMore.absent_labels_are_skipped two_label_input
              (batch_of [("clk", floats [1; 0]%Q)])) as (env' & Hrun & Hkeep & _).
  - intros [|[|i]] name field Hi Hf; simpl in Hi; [| |done].
    + injection Hi as <-. vm_compute in Hf. injection Hf as <-.
      eexists. vm_compute. reflexivity.
    + injection Hi as <-. vm_compute in Hf. discriminate.
  - exists env'. split; [exact Hrun|]. rewrite Hkeep; reflexivity.
Defined.

(** The scalar key [x] selects both of its entries although only one
    selection is configured. *)
Lemma lookup_scalar_key_selects_all_witness :
  _lookup_preprocess (lookup_config 1)
    (fields_of [("key", scalar_string "x"); ("map", scalar_string "x:1,y:2,x:3")])
  = Ok (Sparse {| indices := [[0; 0]; [0; 1]]; values := VString ["1"; "3"];
                  dense_shape := [1; 2] |}).
Proof.
  apply (PreprocessMore.lookup_scalar_key_selects_all (lookup_config 1)
    (fields_of [("key", scalar_string "x"); ("map", scalar_string "x:1,y:2,x:3")])
    "key" "map" "x" "x:1,y:2,x:3" eq_refl eq_refl
    ltac:(vm_compute; reflexivity) ltac:(vm_compute; reflexivity)).
  repeat constructor.
Defined.

(** Two tags with two weights, and two tags with one weight. *)
Lemma tag_weight_count_is_checked_witness :
  (∃ env',
     preprocess_tag weighted_tag_config
       (batch_of [("tags", strings ["a|b"]); ("weights", strings ["1|2"])]) = Ok env'
     ∧ parsed_dict env' !! "weights"
       = Some (Sparse {| indices := [[0; 0]; [0; 1]]; values := VFloat32 [1; 2]%Q;
                         dense_shape := [1; 2] |}))
  ∧ preprocess_tag weighted_tag_config
      (batch_of [("tags", strings ["a|b"]); ("weights", strings ["1"])])
    = Raise (InvalidArgumentError "tag_feature_kv_size_not_eq_tags").
Proof.
  split.
  - eexists. split.
    + apply (proj1 (PreprocessMore.tag_weight_count_is_checked weighted_tag_config
        (batch_of [("tags", strings ["a|b"]); ("weights", strings ["1|2"])])
        "tags" "weights" (strings ["a|b"]) (strings ["1|2"]) ["a|b"] ["1|2"] 1 1
        [1; 2]%Q eq_refl eq_refl ltac:(by eexists)
        ltac:(vm_compute; reflexivity) ltac:(vm_compute; reflexivity)
        eq_refl eq_refl eq_refl eq_refl ltac:(repeat constructor))).
      reflexivity.
    + vm_compute. reflexivity.
  - apply (proj2 (PreprocessMore.tag_weight_count_is_checked weighted_tag_config
      (batch_of [("tags", strings ["a|b"]); ("weights", strings ["1"])])
      "tags" "weights" (strings ["a|b"]) (strings ["1"]) ["a|b"] ["1"] 1 1
      [1]%Q eq_refl eq_refl ltac:(by eexists)
      ltac:(vm_compute; reflexivity) ltac:(vm_compute; reflexivity)
      eq_refl eq_refl eq_refl eq_refl ltac:(repeat constructor))).
    vm_compute. discriminate.
Defined.

(** ** The input object *)

(** The object of the table: its effective fields are the inputs [uid] and
    [ctr] of the two features. *)
Lemma init_effective_fields_witness :
  InputObject.__init__ same_name no_sampler first_occurrences table_config table_features
    None 0 1 = Ok table_object
  ∧ NoDup (_effective_fields table_object)
  ∧ (∀ x, x ∈ _effective_fields table_object ↔
       (∃ fc, fc ∈ table_features ∧ x ∈ input_names fc)
       ∨ dc_sample_weight table_config = Some x)
  ∧ Forall2 (λ i x, py_index (_input_fields table_object) x = Ok i)
      (_effective_fids table_object) (_effective_fields table_object).
Proof.
  assert (InputObject.__init__ same_name no_sampler first_occurrences table_config
            table_features None 0 1 = Ok table_object) as Hinit.
  { vm_compute. reflexivity. }
  split; [exact Hinit|].
  destruct (InputMore.init_effective_fields same_name no_sampler first_occurrences
              table_config table_features None 0 1 table_object)
    as (Hnd & Hin & _ & _ & Hfids).
  - intros l. split; [apply NoDup_remove_dups|]. intros i. apply elem_of_remove_dups.
  - exact Hinit.
  - split; [exact Hnd|]. split; [exact Hin|exact Hfids].
Defined.

(** The table declares the label [clk] without a dimension: the dimension
    is 1, and a string label is parsed as it is. *)
Lemma label_dims_are_padded_witness :
  _label_dim (_preprocess_self table_object) !! 0%nat = Some 1
  ∧ parse_label (_preprocess_self table_object) 0 (strings ["1"; "0"])
    = Ok (floats [1; 0]%Q).
Proof.
  destruct (InputMore.label_dims_are_padded same_name no_sampler first_occurrences
              table_config table_features None 0 1 table_object
              ltac:(vm_compute; reflexivity)) as (_ & Hdim & Hparse & _).
  split.
  - apply (Hdim 0%nat "clk"). reflexivity.
  - rewrite (Hparse 0%nat "clk" (strings ["1"; "0"]));
      [reflexivity|reflexivity|reflexivity|simpl; lia].
Defined.

(** Two records of the table. *)
Lemma parse_table_fields_witness :
  ∃ inputs,
    OdpsRTP._parse_table truncate truncate table_object table_batch = Ok inputs
    ∧ (∀ k, is_Some (inputs !! k) ↔ k ∈ ["uid"; "ctr"] ∨ k ∈ ["clk"])
    ∧ inputs !! "clk" = Some {| shape := [2]; data := VInt32 [1; 0] |}.
Proof.
  assert (∃ inputs,
    OdpsRTP._parse_table truncate truncate table_object table_batch = Ok inputs)
    as [inputs Hrun].
  { eexists. vm_compute. reflexivity. }
  destruct (OdpsRTPMore.parse_table_fields truncate truncate table_object table_batch
              inputs Hrun) as (_ & Hdom & _ & Hlabel & _).
  exists inputs. split; [exact Hrun|]. split; [exact Hdom|].
  apply (Hlabel ltac:(apply NoDup_singleton) 0%nat "clk" eq_refl).
Defined.

(** The features of a preprocessed batch of the table. *)
Lemma preprocessed_batch_has_its_features_witness :
  ∃ env' out,
    _preprocess "sample_weight" no_expression (_preprocess_self table_object) []
      (fields_of [("uid", strings ["u1"; "u2"]); ("ctr", strings ["0.5"; "0.25"])])
      = Ok env'
    ∧ _get_features table_object (_appended_fields env') "sample_weight"
        (parsed_dict env') = Ok out
    ∧ ∀ k, k ∈ _appended_fields env' → is_Some (out !! k).
Proof.
  assert (∃ env',
    _preprocess "sample_weight" no_expression (_preprocess_self table_object) []
      (fields_of [("uid", strings ["u1"; "u2"]); ("ctr", strings ["0.5"; "0.25"])])
      = Ok env') as [env' Hrun].
  { eexists. vm_compute. reflexivity. }
  destruct (PipelineMore.preprocessed_batch_has_its_features "sample_weight"
              no_expression table_object _ env' Hrun) as (out & Hout & Happ & _).
  exists env', out. split; [exact Hrun|]. split; [exact Hout|exact Happ].
Defined.

End MoreExamples.
